(** * Dominion Energy usage pipeline: a shallow embedding

    The development follows the two source files that hold the pipeline:

    - [DominionDataProcessor.py]: [_clean], [_transform_to_long_format],
      [_handle_dst], [process_for_entities], [process_for_statistics];
    - [coordinator.py]: [_insert_statistics].

    Around the pipeline it follows what calls it and what reads its result:

    - [DominionDataProcessor.py]: [_validate_excel_sheets],
      [_read_excel_sheets];
    - [models/attributes.py]: [DailyStats], [WeeklyAnalysis],
      [BillingPeriodStats];
    - [models/__init__.py]: [BillSummary], [EnergyUsagePeriodComparison];
    - [api/DominionScraper.py]: the control flow of [login] and
      [fetch_usage_data];
    - [coordinator.py]: [_async_update_data] and the constructor;
    - [config_flow.py]: the entry that [async_step_user] creates.

    Conventions of the embedding.

    - A polars [DataFrame] is a list of rows; a nullable column is an
      [option].  Datetimes are microsecond counts ([Z]): a naive datetime
      counts from 1970-01-01 00:00 on the wall clock, a timezone-aware one
      from the Unix epoch (its instant).
    - Python [float] readings are exact rationals ([Q]); sums and means are
      the exact ones, so rounding error is outside the model.
    - A Python exception is a [Raise] result; [try ... except: log; raise]
      blocks re-raise what they caught and are therefore transparent.
    - What the code takes from its surroundings is an argument: the two
      sheets of the workbook, the tz database entry of the configured zone,
      the clock reading, the rows the recorder holds for the statistic, and
      what the installed polars does when [unpivot] is given no column.

    Layout: the model (one module per source file, after the library
    operations they call), the vocabulary of the statements and the sample
    inputs, then the proofs, and last the concrete runs. *)

From Stdlib Require Import ZArith QArith Qabs List Sorted String Ascii Bool Lia Lqa.
From Stdlib Require Import Permutation.
Import ListNotations.

Set Implicit Arguments.
Open Scope Z_scope.

(* ------------------------------------------------------------------ *)
(** * Exceptions and results *)

Module Py.

(** The exception classes that the modelled paths can raise. *)
Inductive exn : Type :=
| ValueError          (* Series.item() on a length <> 1 Series; energy mismatch *)
| KeyError            (* d[k] on a dict without k *)
| IndexError          (* l[i] on a list that is too short *)
| RuntimeError        (* bare raise with no active exception *)
| AttributeError      (* an attribute read on None *)
| InvalidOperationError (* polars: strict str -> datetime conversion failed *)
| ComputeError.       (* polars: replace_time_zone with "raise" policies *)

Inductive result (A : Type) : Type :=
| Ok (a : A)
| Raise (e : exn).

Arguments Ok {A} a.
Arguments Raise {A} e.

Definition bind {A B : Type} (m : result A) (k : A -> result B) : result B :=
  match m with
  | Ok a => k a
  | Raise e => Raise e
  end.

(** Apply a fallible function to every element, left to right; the first
    exception aborts the whole traversal. *)
Fixpoint mapM {A B : Type} (f : A -> result B) (l : list A) : result (list B) :=
  match l with
  | [] => Ok []
  | a :: l' =>
      bind (f a) (fun b => bind (mapM f l') (fun bs => Ok (b :: bs)))
  end.

End Py.

Import Py.

Notation "x <- m ;; k" := (Py.bind m (fun x => k))
  (at level 61, m at next level, right associativity).

(* ------------------------------------------------------------------ *)
(** * Time zones

    [ZoneInfo(timezone)] and polars' [chrono-tz] read the same tz database.
    A zone is its offset history: the offset in force before the first
    transition, and the transitions (instant, offset from then on). *)

Module Tz.

Definition us_per_second : Z := 1000000.
Definition us_per_hour : Z := 3600 * us_per_second.
Definition us_per_day : Z := 24 * us_per_hour.

Record TimeZone : Type := mkTimeZone
  { initial_offset : Z;
    transitions : list (Z * Z) }.

(** Offset in force at instant [t]. *)
Fixpoint offset_from (off : Z) (trs : list (Z * Z)) (t : Z) : Z :=
  match trs with
  | [] => off
  | (s, o) :: rest => if t <? s then off else offset_from o rest t
  end.

Definition utc_offset (tz : TimeZone) (t : Z) : Z :=
  offset_from (initial_offset tz) (transitions tz) t.

(** Wall clock shown in the zone at instant [t]. *)
Definition to_local (tz : TimeZone) (t : Z) : Z := t + utc_offset tz t.

(** All instants at which the zone shows wall clock [n], earliest first:
    one candidate per offset period, kept when it falls inside the period. *)
Fixpoint local_candidates (off : Z) (trs : list (Z * Z)) (n : Z) : list Z :=
  match trs with
  | [] => [n - off]
  | (s, o) :: rest =>
      (if n - off <? s then [n - off] else [])
        ++ filter (fun t => s <=? t) (local_candidates o rest n)
  end.

(** chrono's [LocalResult]: what [tz.from_local_datetime] answers. *)
Inductive LocalResult : Type :=
| LNone
| LSingle (t : Z)
| LAmbiguous (earliest latest : Z).

Definition from_local_datetime (tz : TimeZone) (n : Z) : LocalResult :=
  match local_candidates (initial_offset tz) (transitions tz) n with
  | [] => LNone
  | [t] => LSingle t
  | t :: rest => LAmbiguous t (last rest t)
  end.

(** The policies of polars' [dt.replace_time_zone]. *)
Inductive Ambiguous : Type := AmbEarliest | AmbLatest | AmbNull | AmbRaise.
Inductive NonExistent : Type := NeNull | NeRaise.

(** [Expr.dt.replace_time_zone] on one value of a naive datetime column. *)
Definition replace_time_zone (tz : TimeZone) (ambiguous : Ambiguous)
    (non_existent : NonExistent) (ts : option Z) : result (option Z) :=
  match ts with
  | None => Ok None
  | Some n =>
      match from_local_datetime tz n with
      | LSingle t => Ok (Some t)
      | LAmbiguous earliest latest =>
          match ambiguous with
          | AmbEarliest => Ok (Some earliest)
          | AmbLatest => Ok (Some latest)
          | AmbNull => Ok None
          | AmbRaise => Raise ComputeError
          end
      | LNone =>
          match non_existent with
          | NeNull => Ok None
          | NeRaise => Raise ComputeError
          end
      end
  end.

(** [Expr.dt.truncate("1h")] on an aware datetime: the wall clock is
    floored to the hour and the offset of the value is kept. *)
Definition truncate_1h (tz : TimeZone) (t : Z) : Z :=
  t - (to_local tz t) mod us_per_hour.

(** America/New_York during 2024: EST, EDT from 2024-03-10 07:00 UTC,
    EST again from 2024-11-03 06:00 UTC. *)
Definition new_york_2024 : TimeZone :=
  mkTimeZone (-5 * us_per_hour)
    [ (1710054000 * us_per_second, -4 * us_per_hour);
      (1730613600 * us_per_second, -5 * us_per_hour) ].

End Tz.

Import Tz.

(* ------------------------------------------------------------------ *)
(** * The few polars operations the processor uses *)

Module Polars.

(** [cs.contains(pat)]: the column name contains the literal [pat]. *)
Fixpoint str_contains (pat s : string) : bool :=
  String.prefix pat s
  || match s with
     | EmptyString => false
     | String _ s' => str_contains pat s'
     end.

Definition sum (l : list Q) : Q := fold_right Qplus 0%Q l.

(** [Series.item()] / [DataFrame.item()]: the only element, or ValueError. *)
Definition item {A : Type} (s : list A) : result A :=
  match s with
  | [a] => Ok a
  | _ => Raise ValueError
  end.

(** [pl.col(c).max()]: null on an empty column. *)
Definition col_max (l : list Z) : option Z :=
  match l with
  | [] => None
  | d :: l' => Some (fold_left Z.max l' d)
  end.

(** Comparison of nullable values as a filter predicate: a comparison
    with null is null, and [filter] drops the row. *)
Definition eq_filter (a b : option Z) : bool :=
  match a, b with
  | Some x, Some y => x =? y
  | _, _ => false
  end.

Definition ne_filter (a b : option Z) : bool :=
  match a, b with
  | Some x, Some y => negb (x =? y)
  | _, _ => false
  end.

Definition gt_filter (a b : option Z) : bool :=
  match a, b with
  | Some x, Some y => y <? x
  | _, _ => false
  end.

(** Sort key order of [DataFrame.sort]: ascending, nulls first. *)
Definition key_leb (a b : option Z) : bool :=
  match a, b with
  | None, _ => true
  | Some _, None => false
  | Some x, Some y => x <=? y
  end.

Definition key_eqb (a b : option Z) : bool :=
  match a, b with
  | None, None => true
  | Some x, Some y => x =? y
  | _, _ => false
  end.

Section Sort.
Context {R : Type} (key : R -> option Z).

Fixpoint sort_insert (r : R) (l : list R) : list R :=
  match l with
  | [] => [r]
  | x :: l' =>
      if key_leb (key r) (key x) then r :: l else x :: sort_insert r l'
  end.

(** [DataFrame.sort(key)]. *)
Definition sort (l : list R) : list R := fold_right sort_insert [] l.
End Sort.

(** *** The regular expression [(\d+:\d+ [AP]M)] of [str.extract] *)

Definition is_digit (c : ascii) : bool :=
  let n := nat_of_ascii c in (48 <=? n)%nat && (n <=? 57)%nat.

(** The longest run of digits at the head of [s], and what follows it. *)
Fixpoint span_digits (s : string) : string * string :=
  match s with
  | String c s' =>
      if is_digit c
      then let (d, rest) := span_digits s' in (String c d, rest)
      else (EmptyString, s)
  | EmptyString => (EmptyString, EmptyString)
  end.

(** A match of the pattern anchored at the head of [s]. *)
Definition match_time_here (s : string) : option string :=
  match span_digits s with
  | (EmptyString, _) => None
  | (h, String ":" s1) =>
      match span_digits s1 with
      | (EmptyString, _) => None
      | (m, String " " (String c (String "M" _))) =>
          if Ascii.eqb c "A" || Ascii.eqb c "P"
          then Some (h ++ ":" ++ m ++ " " ++ String c "M")%string
          else None
      | _ => None
      end
  | _ => None
  end.

(** [Expr.str.extract(r"(\d+:\d+ [AP]M)")]: group 1 of the leftmost
    match, null when the pattern matches nowhere. *)
Fixpoint str_extract_time (s : string) : option string :=
  match match_time_here s with
  | Some m => Some m
  | None =>
      match s with
      | EmptyString => None
      | String _ s' => str_extract_time s'
      end
  end.

(** *** [str.strptime(pl.Datetime, "%Y-%m-%d %I:%M %p")] *)

Fixpoint digits_value (acc : Z) (s : string) : Z :=
  match s with
  | EmptyString => acc
  | String c s' => digits_value (10 * acc + (Z.of_nat (nat_of_ascii c) - 48)) s'
  end.

(** A numeric field of the format ([%I], [%M]): one or two digits; a
    longer run leaves a digit where the format wants its next literal. *)
Definition field2 (s : string) : option (Z * string) :=
  let (d, rest) := span_digits s in
  match String.length d with
  | 1%nat | 2%nat => Some (digits_value 0 d, rest)
  | _ => None
  end.

(** The ["%I:%M %p"] part: microseconds since midnight. *)
Definition parse_time_12h (s : string) : option Z :=
  match field2 s with
  | Some (h, String ":" s1) =>
      match field2 s1 with
      | Some (m, String " " s2) =>
          let pm := if String.eqb s2 "PM" then Some true
                    else if String.eqb s2 "AM" then Some false else None in
          match pm with
          | Some is_pm =>
              if (1 <=? h) && (h <=? 12) && (m <=? 59)
              then Some (((h mod 12) + (if is_pm then 12 else 0)) * us_per_hour
                         + m * (60 * us_per_second))
              else None
          | None => None
          end
      | _ => None
      end
  | _ => None
  end.

(** One value of [concat_str(["Date", "time"], separator=" ")] parsed
    strictly: a null label stays null, a label that does not parse raises.
    The date half of the text is the rendering of a [Date] value and
    always parses back to that date. *)
Definition strptime_date_time (date : Z) (time : option string)
  : result (option Z) :=
  match time with
  | None => Ok None
  | Some t =>
      match parse_time_12h t with
      | Some us => Ok (Some (date * us_per_day + us))
      | None => Raise InvalidOperationError
      end
  end.

End Polars.

Import Polars.

(* ------------------------------------------------------------------ *)
(** * DominionDataProcessor.py *)

Module DominionDataProcessor.

(** ** Data model *)

(** A wide table: the [Date] column (days since the epoch) and the other
    columns by position; every row is as wide as [col_names]. *)
Record WideRow : Type := mkWideRow
  { Date : Z;
    cells : list Q }.

Record WideTable : Type := mkWideTable
  { col_names : list string;
    rows : list WideRow }.

Record RawUsageData : Type := mkRawUsageData
  { power_df : WideTable;
    energy_df : WideTable }.

(** A long table: the value column and the [timestamp] column. *)
Record LongRow : Type := mkLongRow
  { value : Q;
    l_timestamp : option Z }.

(** The joined table: [timestamp], [power_kw], [energy_kwh]. *)
Record Reading : Type := mkReading
  { timestamp : option Z;
    power_kw : Q;
    energy_kwh : Q }.

(** Frames that carry a [timestamp] column. *)
Class TimestampColumn (R : Type) : Type :=
  { ts_of : R -> option Z;
    with_ts : option Z -> R -> R;
    ts_with_ts : forall t r, ts_of (with_ts t r) = t }.

#[export] Instance LongRow_ts : TimestampColumn LongRow :=
  { ts_of := l_timestamp;
    with_ts := fun t r => mkLongRow (value r) t;
    ts_with_ts := fun _ _ => eq_refl }.

#[export] Instance Reading_ts : TimestampColumn Reading :=
  { ts_of := timestamp;
    with_ts := fun t r => mkReading t (power_kw r) (energy_kwh r);
    ts_with_ts := fun _ _ => eq_refl }.

(** ** [_clean] *)

(** The cells of the columns whose name satisfies [sel]. *)
Definition select_cells (sel : string -> bool) (names : list string)
    (cs : list Q) : list Q :=
  map snd (filter (fun nc => sel (fst nc)) (combine names cs)).

(** [drop_incomplete_dates]: a frame without columns has no rows, so
    without a PM column the horizontal sum is an empty Series. *)
Definition drop_incomplete_dates (df : WideTable) : result WideTable :=
  let latest_date := col_max (map Date (rows df)) in
  let latest_rows :=
    filter (fun r => eq_filter (Some (Date r)) latest_date) (rows df) in
  let pm_names := filter (str_contains " PM") (col_names df) in
  let pm_sums :=
    match pm_names with
    | [] => []
    | _ => map (fun r => Polars.sum
                  (select_cells (str_contains " PM") (col_names df) (cells r)))
             latest_rows
    end in
  total <- item pm_sums ;;
  let is_incomplete := Qeq_bool total 0 in
  Ok (if is_incomplete
      then mkWideTable (col_names df)
             (filter (fun r => ne_filter (Some (Date r)) latest_date) (rows df))
      else df).

(** The [raise] that ends [_clean] stands after the [try] statement, not
    in its handler: once the handler has printed, no exception is active
    and the statement raises RuntimeError. *)
Definition _clean (data : RawUsageData) : result RawUsageData :=
  match
    (clean_power_df <- drop_incomplete_dates (power_df data) ;;
     clean_energy_df <- drop_incomplete_dates (energy_df data) ;;
     Ok (mkRawUsageData clean_power_df clean_energy_df))
  with
  | Ok cleaned => Ok cleaned
  | Raise _ => Raise RuntimeError
  end.

(** ** [_transform_to_long_format] *)

Record UnpivotRow : Type := mkUnpivotRow
  { u_Date : Z;
    time_str : string;
    u_value : Q }.

(** The cell of column [name] in a row. *)
Fixpoint cell_of (name : string) (names : list string) (cs : list Q) : Q :=
  match names, cs with
  | n :: names', c :: cs' =>
      if String.eqb n name then c else cell_of name names' cs'
  | _, _ => 0%Q
  end.

(** What [unpivot] does with an empty [on] depends on the polars release:
    polars 1.x then takes every column outside the index, other releases
    take none and return an empty frame.  The repository pins no release,
    so the behaviour is an argument of the model. *)
Inductive EmptyOn : Type :=
| AllOtherColumns
| NoColumns.

(** The columns that [unpivot] turns into rows. *)
Definition unpivoted (empty_on : EmptyOn) (df : WideTable) (on : list string)
  : list string :=
  match on with
  | [] => match empty_on with
          | AllOtherColumns => col_names df
          | NoColumns => []
          end
  | _ => on
  end.

(** [df.unpivot(index=["Date"], on=on)]: one block of rows per value
    column. *)
Definition unpivot (empty_on : EmptyOn) (df : WideTable) (on : list string)
  : list UnpivotRow :=
  flat_map
    (fun name =>
       map (fun r => mkUnpivotRow (Date r) name (cell_of name (col_names df) (cells r)))
         (rows df))
    (unpivoted empty_on df on).

Definition _transform_to_long_format (empty_on : EmptyOn) (df : WideTable)
  : result (list LongRow) :=
  let time_cols :=
    filter (fun n => str_contains "AM" n || str_contains "PM" n) (col_names df) in
  long <- mapM
    (fun u =>
       let time := str_extract_time (time_str u) in
       ts <- strptime_date_time (u_Date u) time ;;
       Ok (mkLongRow (u_value u) ts))
    (unpivot empty_on df time_cols) ;;
  Ok (sort l_timestamp long).

(** ** [_handle_dst] *)

Definition _handle_dst {R : Type} `{TimestampColumn R} (tz : TimeZone)
    (df : list R) : result (list R) :=
  dst_df <- mapM
    (fun r =>
       ts <- replace_time_zone tz AmbEarliest NeNull (ts_of r) ;;
       Ok (with_ts ts r))
    df ;;
  let final_df :=
    filter (fun r => match ts_of r with Some _ => true | None => false end)
      dst_df in
  Ok final_df.

(** ** [process_for_entities] *)

(** [left.join(right, on="timestamp", how="inner")] followed by the
    [select]: null keys match nothing. *)
Definition inner_join (left right : list LongRow) : list Reading :=
  flat_map
    (fun p =>
       map (fun e => mkReading (l_timestamp p) (value p) (value e))
         (filter (fun e => eq_filter (l_timestamp e) (l_timestamp p)) right))
    left.

(** The processor from the two sheets on (reading the file is outside). *)
Definition process_for_entities (empty_on : EmptyOn) (tz : TimeZone)
    (raw_data : RawUsageData) : result (list Reading) :=
  clean_data <- _clean raw_data ;;
  power_long <- _transform_to_long_format empty_on (power_df clean_data) ;;
  energy_long <- _transform_to_long_format empty_on (energy_df clean_data) ;;
  let joined_df := inner_join power_long energy_long in
  _handle_dst tz joined_df.

(** ** [process_for_statistics] *)

Definition tolerance : Q := 1 # 1000.

Definition _validate_hourly_aggregation (hourly_df full_df : list Reading)
  : result unit :=
  let original_sum := Polars.sum (map energy_kwh full_df) in
  let hourly_sum := Polars.sum (map energy_kwh hourly_df) in
  if negb (Qle_bool (Qabs (original_sum - hourly_sum)) tolerance)
  then Raise ValueError
  else Ok tt.

(** The running aggregate of one group of [group_by(...).agg(...)]. *)
Record Group : Type := mkGroup
  { g_key : option Z;
    g_count : nat;
    g_power : Q;
    g_energy : Q }.

Fixpoint group_add (k : option Z) (p e : Q) (groups : list Group) : list Group :=
  match groups with
  | [] => [mkGroup k 1 p e]
  | g :: gs =>
      if key_eqb (g_key g) k
      then mkGroup k (S (g_count g)) (g_power g + p) (g_energy g + e) :: gs
      else g :: group_add k p e gs
  end.

(** Rows are folded into their group in table order. *)
Definition group_by (data : list Reading) : list Group :=
  fold_left (fun groups r => group_add (timestamp r) (power_kw r) (energy_kwh r) groups)
    data [].

(** [pl.mean] and [pl.sum] of a finished group. *)
Definition agg (g : Group) : Reading :=
  mkReading (g_key g)
    (g_power g / inject_Z (Z.of_nat (g_count g)))
    (g_energy g).

Definition process_for_statistics (tz : TimeZone) (data : list Reading)
  : result (list Reading) :=
  let truncated :=
    map (fun r => with_ts (option_map (truncate_1h tz) (timestamp r)) r) data in
  let hourly_data := sort timestamp (map agg (group_by truncated)) in
  _ <- _validate_hourly_aggregation hourly_data data ;;
  Ok hourly_data.

End DominionDataProcessor.

Import DominionDataProcessor.

(* ------------------------------------------------------------------ *)
(** * coordinator.py *)

Module Coordinator.

(** ** Python datetimes of the configured zone

    An aware datetime whose [tzinfo] is [ZoneInfo(timezone)] is given by
    its wall-clock fields and its [fold] (PEP 495): [fold = 1] marks the
    second pass of a wall clock that the zone shows twice. *)
Record datetime : Type := mkDatetime
  { wall : Z;
    fold : bool }.

(** [ZoneInfo.utcoffset]: the wall clocks at which the offset changes are
    those of the transitions, taken on the later of the two clocks a
    transition joins for [fold = 0] and on the earlier for [fold = 1]. *)
Fixpoint py_utcoffset (off : Z) (trs : list (Z * Z)) (fold : bool) (n : Z) : Z :=
  match trs with
  | [] => off
  | (s, o) :: rest =>
      if n <? s + (if fold then Z.min off o else Z.max off o)
      then off
      else py_utcoffset o rest fold n
  end.

(** The instant a datetime denotes ([.timestamp()], [pl.lit]). *)
Definition instant (tz : TimeZone) (d : datetime) : Z :=
  wall d - py_utcoffset (initial_offset tz) (transitions tz) (fold d) (wall d).

(** [max(a, b)] on two aware datetimes that share one [tzinfo] object
    ([ZoneInfo] caches by key): Python compares the wall-clock fields and
    ignores [fold]; of two equal arguments [max] returns the first. *)
Definition dt_max (a b : datetime) : datetime :=
  if wall a <? wall b then b else a.

(** The [fold] that [datetime.fromtimestamp(ts, tz)] sets: 1 when the
    instant lies after a transition that set the clock back, by less than
    the clock was set back. *)
Fixpoint fold_from (off : Z) (trs : list (Z * Z)) (t : Z) (acc : bool) : bool :=
  match trs with
  | [] => acc
  | (s, o) :: rest =>
      if t <? s then acc else fold_from o rest t (t - s <? off - o)
  end.

(** [Arrow.fromtimestamp(ts, timezone).naive.replace(tzinfo=...)]: the
    wall clock of the instant; [Arrow] takes the [fold] of the datetime it
    builds, and [.naive] and [replace] keep it. *)
Definition get_and_convert_timestamp (tz : TimeZone) (timestamp_unix : Z)
  : datetime :=
  mkDatetime (to_local tz timestamp_unix)
    (fold_from (initial_offset tz) (transitions tz) timestamp_unix false).

(** [Arrow.now().floor('day').shift(days=-30).naive.replace(tzinfo=...)];
    [now_wall] is the wall clock that [Arrow.now()] reads.  [floor] and
    [shift] build their result with [fold = 0]. *)
Definition get_thirty_days_ago (now_wall : Z) : datetime :=
  mkDatetime (now_wall - now_wall mod us_per_day - 30 * us_per_day) false.

(** ** The recorder's long-term statistics of the statistic id *)

Record StatisticsRow : Type := mkStatisticsRow
  { row_start : Z;
    row_state : Q;
    row_sum : Q }.

(** The rows of the statistic, in ascending [start] order. *)
Definition Store : Type := list StatisticsRow.

(** A result dict has at most the one key asked for: [None] is [{}]. *)
Definition get_last_statistics (store : Store) : option (list StatisticsRow) :=
  match rev store with
  | [] => None
  | r :: _ => Some [r]
  end.

(** [statistics_during_period(hass, start_time, None, ...)]: the rows
    from [start_time] on, [{}] when there are none. *)
Definition statistics_during_period (store : Store) (start_time : Z)
  : option (list StatisticsRow) :=
  match filter (fun r => start_time <=? row_start r) store with
  | [] => None
  | found => Some found
  end.

(** [StatisticData]. *)
Record StatisticData : Type := mkStatisticData
  { start : option Z;
    state : Q;
    sum : Q }.

(** ** [_insert_statistics] *)

(** [l[0]] and [l[-1]]. *)
Definition first_of {A : Type} (l : list A) : result A :=
  match l with
  | [] => Raise IndexError
  | a :: _ => Ok a
  end.

Definition last_of {A : Type} (l : list A) : result A := first_of (rev l).

(** [d[statistic_id]]. *)
Definition getitem {A : Type} (d : option A) : result A :=
  match d with
  | None => Raise KeyError
  | Some a => Ok a
  end.

(** [Expr.cum_sum()]. *)
Fixpoint cum_sum_from (acc : Q) (l : list Q) : list Q :=
  match l with
  | [] => []
  | x :: l' => (acc + x)%Q :: cum_sum_from (acc + x)%Q l'
  end.

Definition cum_sum (l : list Q) : list Q := cum_sum_from 0%Q l.

(** The branch on [start_time_unix]: the rows to add and the base sum.
    (The block before it only fills [last_stat_time] and [last_stat_sum],
    which nothing reads.) *)
Definition correction_window (tz : TimeZone) (store : Store) (now_wall : Z)
    (hourly_df : list Reading) : result (list Reading * Q) :=
  let last_stat := get_last_statistics store in
  start_time_unix <-
    match last_stat with
    | None => Ok None
    | Some _ =>
        l <- getitem last_stat ;;
        r <- first_of l ;;
        Ok (Some (row_start r))
    end ;;
  match start_time_unix with
  | None => Ok (hourly_df, 0%Q)
  | Some ts =>
      let start_time := get_and_convert_timestamp tz ts in
      let thirty_days_ago := get_thirty_days_ago now_wall in
      let correction_start := dt_max start_time thirty_days_ago in
      let stats_before_correction :=
        statistics_during_period store (instant tz correction_start) in
      base_sum <-
        match stats_before_correction with
        | Some _ =>
            l <- getitem stats_before_correction ;;
            r <- last_of l ;;
            Ok (row_sum r)
        | None => Ok 0%Q
        end ;;
      (* the arguments of the LOGGER.debug call *)
      l <- getitem stats_before_correction ;;
      _ <- first_of l ;;
      _ <- last_of l ;;
      Ok (filter
            (fun r => gt_filter (timestamp r) (Some (instant tz correction_start)))
            hourly_df,
          base_sum)
  end.

Definition _create_statistic_data (row : Reading * Q) : StatisticData :=
  mkStatisticData (timestamp (fst row)) (energy_kwh (fst row)) (snd row).

(** The list [stats] that [_insert_statistics] builds for its last
    statement, the call of [async_add_external_statistics] (the function up
    to source line 235).  It is empty when the function returns before the
    call because no row is left. *)
Definition statistics_to_add (tz : TimeZone) (store : Store) (now_wall : Z)
    (data : list Reading) : result (list StatisticData) :=
  hourly_df <- process_for_statistics tz data ;;
  window <- correction_window tz store now_wall hourly_df ;;
  let (usage_data, base_sum) := window in
  match usage_data with
  | [] => Ok []
  | _ =>
      let energy_sum :=
        combine usage_data
          (map (fun c => (c + base_sum)%Q) (cum_sum (map energy_kwh usage_data))) in
      Ok (map _create_statistic_data energy_sum)
  end.

(** The recorder's import: a point replaces the stored row of the same
    start or is inserted in start order. *)
Fixpoint upsert (p : StatisticsRow) (store : Store) : Store :=
  match store with
  | [] => [p]
  | r :: rest =>
      if row_start p =? row_start r then p :: rest
      else if row_start p <? row_start r then p :: store
      else r :: upsert p rest
  end.

(** [async_add_external_statistics(hass, metadata, stats)]: before it
    queues the import the call reads [start.tzinfo] of every point, so a
    null start raises AttributeError and nothing is written.  Its other
    checks pass here: a start that is not null is an aware datetime on a
    whole hour of the wall clock, and the source is the domain of the
    statistic id (the account number is taken to give a valid id). *)
Definition async_add_external_statistics (store : Store)
    (stats : list StatisticData) : result Store :=
  if forallb (fun d => match start d with Some _ => true | None => false end) stats
  then
    Ok (fold_left
          (fun st d =>
             match start d with
             | Some t => upsert (mkStatisticsRow t (state d) (sum d)) st
             | None => st
             end)
          stats store)
  else Raise AttributeError.

(** [_insert_statistics], from the recorder's rows of the statistic to
    the rows it holds afterwards. *)
Definition _insert_statistics (tz : TimeZone) (store : Store) (now_wall : Z)
    (data : list Reading) : result Store :=
  hourly_df <- process_for_statistics tz data ;;
  window <- correction_window tz store now_wall hourly_df ;;
  let (usage_data, base_sum) := window in
  match usage_data with
  | [] => Ok store
  | _ =>
      let energy_sum :=
        combine usage_data
          (map (fun c => (c + base_sum)%Q) (cum_sum (map energy_kwh usage_data))) in
      let stats := map _create_statistic_data energy_sum in
      async_add_external_statistics store stats
  end.

(** The store after the import of the list that a run has built; a run
    that raises, in building the list or in the call, writes nothing. *)
Definition store_after (store : Store) (run : result (list StatisticData))
  : Store :=
  match run with
  | Ok stats =>
      match async_add_external_statistics store stats with
      | Ok written => written
      | Raise _ => store
      end
  | Raise _ => store
  end.

End Coordinator.

Import Coordinator.

(* ------------------------------------------------------------------ *)
(** * models/__init__.py *)

Module Models.

(** [BillSummary], with the fields the modelled code reads or writes; the
    Arrow values are given by their wall clock ([.naive]), in
    microseconds. *)
Record BillSummary : Type := mkBillSummary
  { account_number : string;
    previous_bill_period_start : option Z;
    previous_bill_period_end : option Z;
    next_meter_read_date : Z;
    current_charges : Q;
    timezone : option TimeZone }.

Definition update_timezone (self : BillSummary) (new_timezone : option TimeZone)
  : BillSummary :=
  mkBillSummary (account_number self) (previous_bill_period_start self)
    (previous_bill_period_end self) (next_meter_read_date self)
    (current_charges self) new_timezone.

End Models.

Import Models.

(* ------------------------------------------------------------------ *)
(** * models/attributes.py *)

Module Attributes.

(** The exceptions of this module's paths: an attribute read on [None],
    and polars' error for [DataFrame.row] past the last row. *)
Inductive error : Type :=
| AttributeError
| OutOfBoundsError.

(** What the date and timestamp fields hold: nothing, a [date] (days since
    the epoch), a [datetime] built from a wall clock, or an aware timestamp
    of the data (an instant). *)
Inductive PyTime : Type :=
| NoTime
| Day (d : Z)
| Moment (wall : Z)
| Instant (t : Z).

Definition day_or_none (d : option Z) : PyTime :=
  match d with Some x => Day x | None => NoTime end.

Definition instant_or_none (t : option Z) : PyTime :=
  match t with Some x => Instant x | None => NoTime end.

Record PeakPower : Type := mkPeakPower
  { pp_value : option Q;
    pp_timestamp : PyTime }.

Record DailyUsage : Type := mkDailyUsage
  { date : PyTime;
    total_energy_kwh : Q;
    avg_power_kw : option Q;
    peak_power_kw : option Q }.

(** [Expr.dt.date()] on an aware timestamp: the calendar day of its wall
    clock. *)
Definition local_date (tz : TimeZone) (t : Z) : Z := to_local tz t / us_per_day.

Definition date_of (tz : TimeZone) (r : Reading) : option Z :=
  option_map (local_date tz) (timestamp r).

(** [Series.max()] on a nullable column: nulls are skipped. *)
Definition max_date (l : list (option Z)) : option Z :=
  col_max (flat_map (fun d => match d with Some x => [x] | None => [] end) l).

(** [Series.max()] and [Series.mean()] on a float column: null when the
    column is empty. *)
Definition q_max (l : list Q) : option Q :=
  match l with
  | [] => None
  | x :: l' => Some (fold_left (fun m y => if Qle_bool y m then m else y) l' x)
  end.

Definition q_mean (l : list Q) : option Q :=
  match l with
  | [] => None
  | _ => Some (Polars.sum l / inject_Z (Z.of_nat (List.length l)))%Q
  end.

(** [pl.col(c) == v] as a filter predicate, for a float [v] or [None]. *)
Definition q_eq_filter (a : Q) (b : option Q) : bool :=
  match b with
  | Some y => Qeq_bool a y
  | None => false
  end.

(** [Series.first()]. *)
Definition first_timestamp (l : list Reading) : option Z :=
  match l with
  | [] => None
  | r :: _ => timestamp r
  end.

Module DailyStats.

Record t : Type := mk
  { usage : DailyUsage;
    peak_power : PeakPower;
    average_power_kw : option Q;
    data_points : nat }.

(** [tz] is the zone of the frame's timestamp column. *)
Definition from_dataframe (tz : TimeZone) (data : list Reading) : t :=
  let latest_date := max_date (map (date_of tz) data) in
  let daily_data := filter (fun r => eq_filter (date_of tz r) latest_date) data in
  let peak_value := q_max (map power_kw daily_data) in
  let peak_time :=
    first_timestamp
      (filter (fun r => q_eq_filter (power_kw r) peak_value) daily_data) in
  let usage :=
    mkDailyUsage (day_or_none latest_date)
      (Polars.sum (map energy_kwh daily_data))
      (q_mean (map power_kw daily_data))
      peak_value in
  mk usage
    (mkPeakPower peak_value (instant_or_none peak_time))
    (q_mean (map power_kw daily_data))
    (List.length daily_data).

End DailyStats.

Module BillingPeriodStats.

Record t : Type := mk
  { start_date : PyTime;
    days_in_period : Z;
    total_energy_kwh : Q;
    daily_average_kwh : Q;
    daily_usages : list DailyUsage;
    peak_day : DailyUsage;
    peak_power : PeakPower }.

(** One row of [group_by(date).agg([...])]. *)
Record DayRow : Type := mkDayRow
  { d_date : option Z;
    d_total_energy_kwh : Q;
    d_avg_power_kw : option Q;
    d_peak_power_kw : option Q }.

(** The keys of a [group_by], each once. *)
Fixpoint distinct (l : list (option Z)) : list (option Z) :=
  match l with
  | [] => []
  | k :: l' => k :: filter (fun k' => negb (key_eqb k' k)) (distinct l')
  end.

(** [group_by(pl.col("timestamp").dt.date()).agg([sum, mean, max])]: one
    row per date of the frame, with the aggregates of the rows of that
    date. *)
Definition group_by_date (tz : TimeZone) (period_data : list Reading)
  : list DayRow :=
  map
    (fun k =>
       let rows := filter (fun r => key_eqb (date_of tz r) k) period_data in
       mkDayRow k (Polars.sum (map energy_kwh rows))
         (q_mean (map power_kw rows)) (q_max (map power_kw rows)))
    (distinct (map (date_of tz) period_data)).

Definition to_usage (row : DayRow) : DailyUsage :=
  mkDailyUsage (day_or_none (d_date row)) (d_total_energy_kwh row)
    (d_avg_power_kw row) (d_peak_power_kw row).

(** [Expr >= date], [Expr <= date] as filter predicates. *)
Definition ge_filter (a : option Z) (b : Z) : bool :=
  match a with Some x => b <=? x | None => false end.

Definition le_filter (a : option Z) (b : Z) : bool :=
  match a with Some x => x <=? b | None => false end.

(** [now] is the wall clock that [Arrow.now()] reads; [tz] is the zone of
    the frame's timestamp column.  The [tzinfo] that the datetimes are
    tagged with does not enter any of the computed fields. *)
Definition from_dataframe (tz : TimeZone) (now : Z) (data : list Reading)
    (bill : option BillSummary) : error + t :=
  match bill with
  | None => inl AttributeError
  | Some bill =>
      let data_unavailable_stat :=
        mk (Moment now) 0 0%Q 0%Q []
          (mkDailyUsage (Moment now) 0%Q (Some 0%Q) (Some 0%Q))
          (mkPeakPower (Some 0%Q) (Moment now)) in
      match previous_bill_period_end bill with
      | None => inr data_unavailable_stat
      | Some previous_end =>
          let period_start := previous_end + us_per_day in
          let period_end := next_meter_read_date bill in
          let period_data :=
            filter
              (fun r =>
                 ge_filter (date_of tz r) (period_start / us_per_day)
                 && le_filter (date_of tz r) (period_end / us_per_day))
              data in
          let daily_data := sort d_date (group_by_date tz period_data) in
          let daily_usages := map to_usage daily_data in
          let peak_power_value := q_max (map power_kw period_data) in
          let peak_power_timestamp :=
            first_timestamp
              (filter (fun r => q_eq_filter (power_kw r) peak_power_value)
                 period_data) in
          match
            filter
              (fun row =>
                 q_eq_filter (d_total_energy_kwh row)
                   (q_max (map d_total_energy_kwh daily_data)))
              daily_data
          with
          | [] => inl OutOfBoundsError
          | peak_day_data :: _ =>
              let peak_day := to_usage peak_day_data in
              let total_energy := Polars.sum (map d_total_energy_kwh daily_data) in
              let days := List.length daily_usages in
              let days_in_period := (period_end - period_start) / us_per_day in
              inr (mk (Moment period_start) days_in_period total_energy
                     (if (0 <? Z.of_nat days)
                      then (total_energy / inject_Z (Z.of_nat days))%Q
                      else 0%Q)
                     daily_usages peak_day
                     (mkPeakPower peak_power_value
                        (instant_or_none peak_power_timestamp)))
          end
      end
  end.

End BillingPeriodStats.

End Attributes.

Import Attributes.

(* ------------------------------------------------------------------ *)
(** * DominionDataProcessor.py: reading the workbook *)

Module Reader.

(** A sheet as [pl.read_excel] returns it: the [Date] column holds text,
    the other columns hold numbers. *)
Record RawRow : Type := mkRawRow
  { raw_Date : string;
    raw_cells : list Q }.

Record RawSheet : Type := mkRawSheet
  { raw_names : list string;
    raw_rows : list RawRow }.

(** [pl.read_excel(path, sheet_id=0)]: every sheet of the workbook by
    name; [None] when the call raises. *)
Definition Workbook : Type := option (list (string * RawSheet)).

Inductive error : Type :=
| ValueError       (* fewer than two sheets *)
| ReadError        (* whatever [pl.read_excel] raises *)
| IOError          (* raised by the handler of [_validate_excel_sheets] *)
| AttributeError   (* [None.with_columns] *)
| PolarsError.     (* whatever [with_columns] raises *)

Definition _validate_excel_sheets (file : Workbook)
  : error + list (string * RawSheet) :=
  let body :=
    match file with
    | None => inl ReadError
    | Some sheets =>
        let sheet_names := map fst sheets in
        if (List.length sheet_names <? 2)%nat then inl ValueError else inr sheets
    end in
  match body with
  | inr sheets => inr sheets
  | inl _ => inl IOError
  end.

(** [dict.get]. *)
Fixpoint get (name : string) (sheets : list (string * RawSheet)) : option RawSheet :=
  match sheets with
  | [] => None
  | (n, s) :: rest => if String.eqb n name then Some s else get name rest
  end.

(** [with_columns(expr.alias(name))] on one row: the value takes the place
    of the column of that name, or stands after the last column. *)
Fixpoint set_cell (name : string) (v : Q) (names : list string) (cs : list Q)
  : list Q :=
  match names, cs with
  | n :: names', c :: cs' =>
      if String.eqb n name then v :: cs' else c :: set_cell name v names' cs'
  | _, _ => [v]
  end.

Fixpoint set_name (name : string) (names : list string) : list string :=
  match names with
  | [] => [name]
  | n :: names' => if String.eqb n name then names else n :: set_name name names'
  end.

Section Dates.

(** [Expr.str.to_date(format="%m/%d/%Y")] on one value: the days since the
    epoch, or nothing when the text is not such a date. *)
Variable to_date : string -> option Z.

(** [sheet.with_columns(date_column, total_column)]: the conversion is
    strict, and a horizontal sum needs a column. *)
Definition with_columns (sheet : RawSheet) : error + WideTable :=
  match filter (str_contains "kW") (raw_names sheet) with
  | [] => inl PolarsError
  | _ =>
      let convert (r : RawRow) : option WideRow :=
        match to_date (raw_Date r) with
        | Some d =>
            let total :=
              Polars.sum (select_cells (str_contains "kW") (raw_names sheet)
                            (raw_cells r)) in
            Some (mkWideRow d (set_cell "Total" total (raw_names sheet) (raw_cells r)))
        | None => None
        end in
      if forallb (fun r => match convert r with Some _ => true | None => false end)
           (raw_rows sheet)
      then inr (mkWideTable (set_name "Total" (raw_names sheet))
                  (flat_map (fun r => match convert r with
                                      | Some w => [w]
                                      | None => []
                                      end)
                     (raw_rows sheet)))
      else inl PolarsError
  end.

Definition _read_excel_sheets (file : Workbook) : error + RawUsageData :=
  match _validate_excel_sheets file with
  | inl e => inl e
  | inr sheets =>
      match
        match get "kWH Usage Data" sheets with
        | None => inl AttributeError
        | Some sheet => with_columns sheet
        end
      with
      | inl e => inl e
      | inr energy_df =>
          match
            match get "kW Usage Data" sheets with
            | None => inl AttributeError
            | Some sheet => with_columns sheet
            end
          with
          | inl e => inl e
          | inr power_df => inr (mkRawUsageData power_df energy_df)
          end
      end
  end.

End Dates.

End Reader.

(* ------------------------------------------------------------------ *)
(** * api/DominionScraper.py: the control flow of a fetch

    The browser is given by what each of its calls does: return, or raise.
    [None] stands for a call that returns. *)

Module Scraper.

(** What a call into selenium or the standard library may raise. *)
Inductive fault : Type :=
| TimeoutException     (* selenium; a subclass of WebDriverException *)
| WebDriverException   (* selenium, other than a timeout *)
| OtherException.      (* any other subclass of Exception *)

(** The exception classes of [exceptions.py]. *)
Inductive error : Type :=
| DominionEnergyException   (* the base class itself *)
| CannotConnect
| InvalidAuth
| BrowserException.

(** What is in flight inside a [try] block. *)
Inductive raised : Type :=
| Library (f : fault)
| Own (e : error).

Record LoginResult : Type := mkLoginResult { login_success : bool }.

(** The calls of [login], in order. *)
Record LoginPage : Type := mkLoginPage
  { open_login : option fault;       (* driver.get(login url) *)
    wait_email : option fault;       (* WebDriverWait(...).until(e-mail field) *)
    find_password : option fault;    (* driver.find_element *)
    fill_form : option fault;        (* scrollIntoView, clear, clear, send_keys, send_keys *)
    submit_buttons : fault + nat;    (* driver.find_elements: how many it finds *)
    click_submit : option fault }.

Definition call (c : option fault) : raised + unit :=
  match c with
  | Some f => inl (Library f)
  | None => inr tt
  end.

Definition then_ {A B : Type} (m : raised + A) (k : A -> raised + B) : raised + B :=
  match m with
  | inl r => inl r
  | inr a => k a
  end.

(** The body of the [try] of [login]. *)
Definition login_body (page : LoginPage) : raised + LoginResult :=
  then_ (call (open_login page)) (fun _ =>
  then_ (match wait_email page with
         | Some TimeoutException => inl (Own CannotConnect)
         | other => call other
         end) (fun _ =>
  then_ (call (find_password page)) (fun _ =>
  then_ (call (fill_form page)) (fun _ =>
  then_ (match submit_buttons page with
         | inl f => inl (Library f)
         | inr O => inl (Library OtherException)   (* seq([]).last(): IndexError *)
         | inr (S _) => inr tt
         end) (fun _ =>
  then_ (call (click_submit page)) (fun _ =>
  inr (mkLoginResult true))))))).

(** The handlers of [login], in their order. *)
Definition login_handlers (r : raised) : error :=
  match r with
  | Own InvalidAuth => InvalidAuth
  | Library TimeoutException => CannotConnect
  | Library WebDriverException => BrowserException
  | _ => DominionEnergyException
  end.

(** [login], called with a driver that is initialized. *)
Definition login (page : LoginPage) : error + LoginResult :=
  match login_body page with
  | inr result => inr result
  | inl r => inl (login_handlers r)
  end.

Record DownloadResult : Type := mkDownloadResult
  { filepath : string;
    success : bool;
    bill_summary : option BillSummary }.

(** [Path()]. *)
Definition empty_path : string := ".".

(** One visit of the site: the calls of [fetch_usage_data], in order. *)
Record Site : Type := mkSite
  { mkdir : option fault;                  (* download_path.mkdir(...) *)
    initialize_driver : option fault;      (* anything raised inside it *)
    login_page : LoginPage;
    _navigate_to_usage : bool;
    _download_usage_data : option string;  (* the renamed new file *)
    _fetch_bill_summary : option BillSummary }.

Definition failed : DownloadResult := mkDownloadResult empty_path false None.

(** [fetch_usage_data]: the only statement outside its [try] is the
    [mkdir]; the handler turns every exception into a failed result. *)
Definition fetch_usage_data (tzinfo : TimeZone) (site : Site)
  : fault + DownloadResult :=
  match mkdir site with
  | Some f => inl f
  | None =>
      match initialize_driver site with
      | Some _ => inr failed                 (* BrowserException, handled *)
      | None =>
          match login (login_page site) with
          | inl _ => inr failed
          | inr login_result =>
              if negb (login_success login_result) then inr failed
              else if negb (_navigate_to_usage site) then inr failed
              else
                match _download_usage_data site with
                | None => inr failed
                | Some downloaded_path =>
                    match _fetch_bill_summary site with
                    | None => inr failed     (* AttributeError, handled *)
                    | Some bill =>
                        inr (mkDownloadResult downloaded_path true
                               (Some (update_timezone bill (Some tzinfo))))
                    end
                end
          end
      end
  end.

(** The file that the visit leaves in the download directory. *)
Definition downloaded (site : Site) : option string :=
  match mkdir site, initialize_driver site, login (login_page site) with
  | None, None, inr login_result =>
      if login_success login_result && _navigate_to_usage site
      then _download_usage_data site
      else None
  | _, _, _ => None
  end.

End Scraper.

(* ------------------------------------------------------------------ *)
(** * coordinator.py: one update *)

Module Update.

(** The exceptions that can be in flight in [_async_update_data]. *)
Inductive error : Type :=
| Python (e : exn)                (* built-in and polars classes of the pipeline *)
| Library (f : Scraper.fault)
| Sheets (e : Reader.error)      (* what reading the workbook raises *)
| Own (e : Scraper.error)
| AttributeError
| ConfigEntryAuthFailed.

(** The attributes of the coordinator that an update writes. *)
Record Coordinator : Type := mkCoordinator
  { bill_summary : option BillSummary;
    _last_data : option (list Reading) }.

(** What surrounds it: the files of the download directory, and the
    recorder's series of the statistic. *)
Record World : Type := mkWorld
  { files : list string;
    series : Store }.

(** [processor.process_for_entities()], the reading included. *)
Definition process_for_entities (empty_on : EmptyOn)
    (to_date : string -> option Z) (tz : TimeZone)
    (file : Reader.Workbook) : error + list Reading :=
  match Reader._read_excel_sheets to_date file with
  | inl e => inl (Sheets e)
  | inr raw_data =>
      match DominionDataProcessor.process_for_entities empty_on tz raw_data with
      | Ok data => inr data
      | Raise e => inl (Python e)
      end
  end.

(** [Path.unlink] inside the [finally]: a failure is logged and dropped. *)
Definition unlink (unlink_fails : bool) (path : string) (disk : list string)
  : list string :=
  if unlink_fails then disk
  else filter (fun p => negb (String.eqb p path)) disk.

(** The [finally] block. *)
Definition cleanup (unlink_fails : bool) (downloaded_file : option string)
    (disk : list string) : list string :=
  match downloaded_file with
  | Some path =>
      if existsb (String.eqb path) disk then unlink unlink_fails path disk else disk
  | None => disk
  end.

(** [_async_update_data].  [site] is what the scraper meets, [file] what
    the downloaded workbook holds, [now_wall] the clock of the run. *)
Definition _async_update_data (empty_on : EmptyOn)
    (to_date : string -> option Z) (tz : TimeZone)
    (now_wall : Z) (site : Scraper.Site) (file : Reader.Workbook)
    (unlink_fails : bool) (self : Coordinator) (world : World)
  : Coordinator * World * (error + list Reading) :=
  let disk :=
    match Scraper.downloaded site with
    | Some path => path :: files world
    | None => files world
    end in
  (* the [try] block: the state it leaves, the file to clean up, the outcome *)
  let '(self', series', downloaded_file, outcome) :=
    match Scraper.fetch_usage_data tz site with
    | inl f => (self, series world, None, inl (Library f))
    | inr download_result =>
        if negb (Scraper.success download_result)
        then (self, series world, None, inl (Python RuntimeError))
        else
          let downloaded_file := Some (Scraper.filepath download_result) in
          match process_for_entities empty_on to_date tz file with
          | inl e => (self, series world, downloaded_file, inl e)
          | inr data =>
              let self1 :=
                mkCoordinator (Scraper.bill_summary download_result) (_last_data self) in
              match Scraper.bill_summary download_result with
              | None => (self1, series world, downloaded_file, inl AttributeError)
              | Some _ =>
                  match _insert_statistics tz (series world) now_wall data with
                  | Raise e => (self1, series world, downloaded_file, inl (Python e))
                  | Ok series1 =>
                      (mkCoordinator (bill_summary self1) (Some data),
                       series1, downloaded_file, inr data)
                  end
              end
          end
    end in
  (* the handlers *)
  let outcome' :=
    match outcome with
    | inl (Own Scraper.InvalidAuth) => inl ConfigEntryAuthFailed
    | other => other
    end in
  (self', mkWorld (cleanup unlink_fails downloaded_file disk) series', outcome').

End Update.

(* ------------------------------------------------------------------ *)
(** * config_flow.py, and the constructor of the coordinator *)

Module ConfigFlow.

(** [homeassistant.const]. *)
Definition CONF_EMAIL : string := "email".
Definition CONF_USERNAME : string := "username".
Definition CONF_PASSWORD : string := "password".

(** A mapping from strings to strings: the user input of a form, the data
    of a config entry. *)
Definition Mapping : Type := list (string * string).

(** [d[k]]. *)
Fixpoint getitem_key (k : string) (d : Mapping) : result string :=
  match d with
  | [] => Raise KeyError
  | (k', v) :: rest => if String.eqb k' k then Ok v else getitem_key k rest
  end.

(** [STEP_USER_DATA_SCHEMA]: the keys [CONF_EMAIL] and [CONF_PASSWORD] are
    required, and a schema admits no key that it does not name. *)
Definition STEP_USER_DATA_SCHEMA (user_input : Mapping) : bool :=
  match getitem_key CONF_EMAIL user_input, getitem_key CONF_PASSWORD user_input with
  | Ok _, Ok _ =>
      forallb
        (fun kv => String.eqb (fst kv) CONF_EMAIL || String.eqb (fst kv) CONF_PASSWORD)
        user_input
  | _, _ => false
  end.

(** [async_step_user] with a user input: when the credentials pass
    [validate_auth] the entry is created with the input as its data,
    otherwise the form is shown again. *)
Definition async_step_user (validated : bool) (user_input : Mapping)
  : option Mapping :=
  if validated then Some user_input else None.

End ConfigFlow.

Module DominionEnergyUpdateCoordinator.

Record DominionCredentials : Type := mkDominionCredentials
  { email_address : string;
    password : string }.

(** The part of [__init__] that reads the entry. *)
Definition __init__ (entry_data : ConfigFlow.Mapping) : result DominionCredentials :=
  email_address <- ConfigFlow.getitem_key ConfigFlow.CONF_USERNAME entry_data ;;
  password <- ConfigFlow.getitem_key ConfigFlow.CONF_PASSWORD entry_data ;;
  Ok (mkDominionCredentials email_address password).

End DominionEnergyUpdateCoordinator.

(* ------------------------------------------------------------------ *)
(** * models/__init__.py: the comparison of two periods *)

Module EnergyUsagePeriodComparison.

(** Float division: [None] is ZeroDivisionError. *)
Definition truediv (a b : Q) : option Q :=
  if Qeq_bool b 0 then None else Some (a / b)%Q.

Record t : Type := mk
  { current_kwh : Q;
    previous_kwh : Q;
    percent_change : Q;
    absolute_change_kwh : Q;
    days_current : Z;
    days_previous : Z }.

Definition create (current_kwh previous_kwh : Q) (days_current days_previous : Z)
  : option t :=
  let absolute_change := (current_kwh - previous_kwh)%Q in
  match
    (if negb (Qeq_bool previous_kwh 0)
     then option_map (fun q => (q * 100)%Q) (truediv absolute_change previous_kwh)
     else Some 0%Q)
  with
  | Some percent_change =>
      Some (mk current_kwh previous_kwh percent_change absolute_change
              days_current days_previous)
  | None => None
  end.

(** The two computed entries of [to_dict]; the other entries are the
    fields. *)
Record Averages : Type := mkAverages
  { current_daily_average_kwh : Q;
    previous_daily_average_kwh : Q }.

Definition to_dict (self : t) : option Averages :=
  match truediv (current_kwh self) (inject_Z (Z.max (days_current self) 1)),
        truediv (previous_kwh self) (inject_Z (Z.max (days_previous self) 1))
  with
  | Some current, Some previous => Some (mkAverages current previous)
  | _, _ => None
  end.

End EnergyUsagePeriodComparison.

(* ------------------------------------------------------------------ *)
(** * models/attributes.py: the weekly analysis *)

Module WeeklyAnalysis.

Record t : Type := mk
  { total_energy_kwh : Q;
    avg_daily_energy_kwh : option Q;
    daily_totals : list DailyUsage;
    highest_usage : DailyUsage;
    lowest_usage : DailyUsage }.

(** [Series.min()]. *)
Definition q_min (l : list Q) : option Q :=
  match l with
  | [] => None
  | x :: l' => Some (fold_left (fun m y => if Qle_bool m y then m else y) l' x)
  end.

(** [DataFrame.tail(n)]. *)
Definition tail {A : Type} (n : nat) (l : list A) : list A :=
  skipn (List.length l - n) l.

Section GroupOrder.

(** [group_by] is called without [maintain_order]: the order in which it
    yields the groups is its own. *)
Variable order : list BillingPeriodStats.DayRow -> list BillingPeriodStats.DayRow.

Definition from_dataframe (tz : TimeZone) (data : list Reading) : error + t :=
  let daily_data :=
    sort BillingPeriodStats.d_date
      (tail 7 (order (BillingPeriodStats.group_by_date tz data))) in
  let weekly_total :=
    Polars.sum (map BillingPeriodStats.d_total_energy_kwh daily_data) in
  let avg_daily_energy_kwh :=
    q_mean (map BillingPeriodStats.d_total_energy_kwh daily_data) in
  let daily_usages := map BillingPeriodStats.to_usage daily_data in
  match
    filter
      (fun row =>
         q_eq_filter (BillingPeriodStats.d_total_energy_kwh row)
           (q_max (map BillingPeriodStats.d_total_energy_kwh daily_data)))
      daily_data
  with
  | [] => inl OutOfBoundsError
  | highest_row :: _ =>
      match
        filter
          (fun row =>
             q_eq_filter (BillingPeriodStats.d_total_energy_kwh row)
               (q_min (map BillingPeriodStats.d_total_energy_kwh daily_data)))
          daily_data
      with
      | [] => inl OutOfBoundsError
      | lowest_row :: _ =>
          inr (mk weekly_total avg_daily_energy_kwh daily_usages
                 (BillingPeriodStats.to_usage highest_row)
                 (BillingPeriodStats.to_usage lowest_row))
      end
  end.

End GroupOrder.

End WeeklyAnalysis.

(* ------------------------------------------------------------------ *)
(** * Specification vocabulary *)

(** [t] is the earliest instant at which the zone shows wall clock [n]. *)
Definition earliest_instant (tz : TimeZone) (n t : Z) : Prop :=
  to_local tz t = n /\ forall t', to_local tz t' = n -> t <= t'.

(** What DST resolution may do to a table, row by row and in order: drop a
    row whose timestamp is null, drop a row whose wall clock the zone never
    shows, or keep the row with the earliest instant that shows it. *)
Inductive dst_resolved {R : Type} `{TimestampColumn R} (tz : TimeZone)
  : list R -> list R -> Prop :=
| dst_nil : dst_resolved tz [] []
| dst_drop_null : forall r df out,
    ts_of r = None ->
    dst_resolved tz df out ->
    dst_resolved tz (r :: df) out
| dst_drop_gap : forall r n df out,
    ts_of r = Some n ->
    (forall t, to_local tz t <> n) ->
    dst_resolved tz df out ->
    dst_resolved tz (r :: df) out
| dst_keep : forall r n t df out,
    ts_of r = Some n ->
    earliest_instant tz n t ->
    dst_resolved tz df out ->
    dst_resolved tz (r :: df) (with_ts (Some t) r :: out).

(** The policy of [_handle_dst] on one value. *)
Definition resolve_earliest (tz : TimeZone) (ts : option Z) : option Z :=
  match ts with
  | None => None
  | Some n => hd_error (local_candidates (initial_offset tz) (transitions tz) n)
  end.

(** The predicate of [filter(pl.col("timestamp").is_not_null())]. *)
Definition not_null {R : Type} `{TimestampColumn R} (r : R) : bool :=
  match ts_of r with Some _ => true | None => false end.

(** The order of the specification: both long tables are resolved first
    and the resolved tables are joined on their aware timestamps. *)
Definition join_resolved_tables (tz : TimeZone) (power_long energy_long : list LongRow)
  : result (list Reading) :=
  power_localized <- _handle_dst tz power_long ;;
  energy_localized <- _handle_dst tz energy_long ;;
  Ok (inner_join power_localized energy_localized).

Definition process_for_entities_spec_order (empty_on : EmptyOn) (tz : TimeZone)
    (raw_data : RawUsageData) : result (list Reading) :=
  clean_data <- _clean raw_data ;;
  power_long <- _transform_to_long_format empty_on (power_df clean_data) ;;
  energy_long <- _transform_to_long_format empty_on (energy_df clean_data) ;;
  join_resolved_tables tz power_long energy_long.

(** Strictly before, in the order of [sort]. *)
Definition key_lt (a b : option Z) : Prop := key_leb a b = true /\ a <> b.

(** The key of a joined row in the hourly grouping. *)
Definition hour_start (tz : TimeZone) (r : Reading) : option Z :=
  option_map (truncate_1h tz) (timestamp r).

(** The rows of [data] that fall into the hour [k]. *)
Definition rows_of_hour (tz : TimeZone) (k : option Z) (data : list Reading)
  : list Reading :=
  filter (fun r => key_eqb (hour_start tz r) k) data.

Definition mean (l : list Q) : Q :=
  (Polars.sum l / inject_Z (Z.of_nat (List.length l)))%Q.

Definition total_energy (rows : list Reading) : Q :=
  Polars.sum (map energy_kwh rows).

(** The table that [process_for_statistics] validates and returns. *)
Definition hourly_table (tz : TimeZone) (data : list Reading) : list Reading :=
  sort timestamp
    (map agg
       (group_by
          (map (fun r => with_ts (option_map (truncate_1h tz) (timestamp r)) r) data))).

(** The afternoon values of a row. *)
Definition pm_values (names : list string) (r : WideRow) : list Q :=
  select_cells (str_contains " PM") names (cells r).

(** The half-hour columns: what the reshaper passes to [unpivot] as [on]. *)
Definition time_columns (df : WideTable) : list string :=
  filter (fun n => str_contains "AM" n || str_contains "PM" n) (col_names df).

(** The columns that the reshaper's [unpivot] turns into rows. *)
Definition value_columns (empty_on : EmptyOn) (df : WideTable) : list string :=
  unpivoted empty_on df (time_columns df).

(** The label holds text of the shape digits:digits AM/PM that is not a
    time of the 12-hour clock. *)
Definition bad_label (name : string) : Prop :=
  exists t, str_extract_time name = Some t /\ parse_time_12h t = None.

(** The instant from which [_insert_statistics] recomputes, for a last
    persisted start [ts] and a clock reading [now_wall]. *)
Definition correction_start_instant (tz : TimeZone) (ts now_wall : Z) : Z :=
  instant tz (dt_max (get_and_convert_timestamp tz ts) (get_thirty_days_ago now_wall)).

(** The transitions of a zone are separated: the wall clocks that one
    transition skips or repeats end before those of the next begin, as they
    do when transitions lie further apart than the clock is shifted. *)
Fixpoint separated_from (off : Z) (trs : list (Z * Z)) : bool :=
  match trs with
  | [] => true
  | (s, o) :: rest =>
      match rest with
      | [] => true
      | (s', o') :: _ => s + Z.max off o <=? s' + Z.min o o'
      end
      && separated_from o rest
  end.

Definition separated (tz : TimeZone) : bool :=
  separated_from (initial_offset tz) (transitions tz).

(** The points built from the rows [usage] on top of [base_sum]. *)
Definition emitted (usage : list Reading) (base_sum : Q) : list StatisticData :=
  map _create_statistic_data
    (combine usage (map (fun c => (c + base_sum)%Q) (cum_sum (map energy_kwh usage)))).

(** Each sum is the previous one plus the point's own state. *)
Inductive running_from : Q -> list StatisticData -> Prop :=
| running_nil : forall prev, running_from prev []
| running_cons : forall prev d rest,
    (sum d == prev + state d)%Q ->
    running_from (sum d) rest ->
    running_from prev (d :: rest).

(** The timestamp the reshaper gives to the cell of column [name] in a row
    of date [date]: null when the label holds no time. *)
Definition reading_time (date : Z) (name : string) : option Z :=
  match str_extract_time name with
  | None => None
  | Some t => option_map (fun us => date * us_per_day + us) (parse_time_12h t)
  end.

(** The tables on which [drop_incomplete_dates] returns: a column whose
    name holds " PM", and a single row of the latest date. *)
Definition trimmable (df : WideTable) : Prop :=
  (exists n, In n (col_names df) /\ str_contains " PM" n = true)
  /\ exists m latest,
       col_max (map Date (rows df)) = Some m
       /\ filter (fun x => Date x =? m) (rows df) = [latest].

(** The recorder rows of a list of points (a point without a start has
    none). *)
Definition rows_of (stats : list StatisticData) : Store :=
  flat_map
    (fun d => match start d with
              | Some t => [mkStatisticsRow t (state d) (sum d)]
              | None => []
              end)
    stats.

(** A well-formed series: the starts ascend strictly and each sum is the
    sum before it plus the row's own state. *)
Fixpoint chain (prev : StatisticsRow) (l : Store) : Prop :=
  match l with
  | [] => True
  | r :: l' =>
      row_start prev < row_start r
      /\ (row_sum r == row_sum prev + row_state r)%Q
      /\ chain r l'
  end.

Definition series_ok (store : Store) : Prop :=
  match store with
  | [] => True
  | r :: l => chain r l
  end.

(** The readings of the billing period that starts the day after the
    previous period ended at [previous_end] and ends with the day of the
    next meter reading. *)
Definition period_readings (tz : TimeZone) (bill : BillSummary) (previous_end : Z)
    (data : list Reading) : list Reading :=
  filter
    (fun r =>
       BillingPeriodStats.ge_filter (date_of tz r)
         ((previous_end + us_per_day) / us_per_day)
       && BillingPeriodStats.le_filter (date_of tz r)
            (next_meter_read_date bill / us_per_day))
    data.

(** The readings of one local day. *)
Definition readings_of_day (tz : TimeZone) (d : Z) (rows : list Reading)
  : list Reading :=
  filter (fun r => key_eqb (date_of tz r) (Some d)) rows.

(** The frame of daily aggregates of a period, sorted by date. *)
Definition daily_table (tz : TimeZone) (period : list Reading)
  : list BillingPeriodStats.DayRow :=
  sort BillingPeriodStats.d_date (BillingPeriodStats.group_by_date tz period).

(** A sheet with its dates converted and nothing added. *)
Definition dated (to_date : string -> option Z) (sheet : Reader.RawSheet)
  : WideTable :=
  mkWideTable (Reader.raw_names sheet)
    (flat_map
       (fun r => match to_date (Reader.raw_Date r) with
                 | Some d => [mkWideRow d (Reader.raw_cells r)]
                 | None => []
                 end)
       (Reader.raw_rows sheet)).

(** [df] is [plain] with the Total column set, row by row; the rows of
    [plain] are as wide as its header. *)
Definition totalled (df plain : WideTable) : Prop :=
  col_names df = Reader.set_name "Total" (col_names plain)
  /\ Forall2
       (fun w p =>
          Date w = Date p
          /\ List.length (cells p) = List.length (col_names plain)
          /\ exists v, cells w = Reader.set_cell "Total" v (col_names plain) (cells p))
       (rows df) (rows plain).

(** The table has a half-hour column. *)
Definition has_time_column (df : WideTable) : Prop :=
  exists name,
    In name (col_names df)
    /\ str_contains "AM" name || str_contains "PM" name = true.

(** The daily aggregate of the readings of one date. *)
Definition day_row (tz : TimeZone) (k : option Z) (data : list Reading)
  : BillingPeriodStats.DayRow :=
  let rows := filter (fun r => key_eqb (date_of tz r) k) data in
  BillingPeriodStats.mkDayRow k (Polars.sum (map energy_kwh rows))
    (q_mean (map power_kw rows)) (q_max (map power_kw rows)).

(** The local dates of a frame, each once. *)
Definition dates_of (tz : TimeZone) (data : list Reading) : list (option Z) :=
  BillingPeriodStats.distinct (map (date_of tz) data).

(* ------------------------------------------------------------------ *)
(** * Sample inputs *)

(** ** The merger

    Four half-hour readings of 2024-03-01, 00:00 to 01:30 New York time, and
    two states of the recorder: a series whose last row is of 2024-01-01,
    and one whose last row is the first hour of the data. *)

Definition march_first_data : list Reading :=
  [ mkReading (Some (1709269200 * us_per_second)) (2 # 1) (1 # 1);
    mkReading (Some (1709271000 * us_per_second)) (4 # 1) (2 # 1);
    mkReading (Some (1709272800 * us_per_second)) (6 # 1) (3 # 1);
    mkReading (Some (1709274600 * us_per_second)) (8 # 1) (4 # 1) ].

Definition march_first_hourly : list Reading :=
  [ mkReading (Some (1709269200 * us_per_second)) (6 # 2) (3 # 1);
    mkReading (Some (1709272800 * us_per_second)) (14 # 2) (7 # 1) ].

(** 2024-03-02 08:00 on the wall clock. *)
Definition march_second_morning : Z := (1709337600 + 8 * 3600) * us_per_second.

Definition january_series : Store :=
  [ mkStatisticsRow (1704085200 * us_per_second) (1 # 1) (5 # 1) ].

Definition march_series : Store :=
  [ mkStatisticsRow (1709269200 * us_per_second) (3 # 1) (8 # 1) ].

(** The points of a first run over the data of 2024-03-01. *)
Definition first_point : StatisticData :=
  mkStatisticData (Some (1709269200 * us_per_second)) (3 # 1) (3 # 1).

Definition second_point : StatisticData :=
  mkStatisticData (Some (1709272800 * us_per_second)) (7 # 1) (10 # 1).

Definition first_run_stats : list StatisticData := [first_point; second_point].

(** The series after that first run: it ends with the second hour of the
    data. *)
Definition after_first_run : Store :=
  [ mkStatisticsRow (1709269200 * us_per_second) (3 # 1) (3 # 1) ]
    ++ [ mkStatisticsRow (1709272800 * us_per_second) (7 # 1) (10 # 1) ].

(** ** DST resolution: 2024-03-10 02:30 (skipped), 2024-11-03 01:30
    (repeated), a null and 2024-11-04 01:30, all on the New York wall clock *)

Definition dst_sample : list LongRow :=
  [ mkLongRow (1 # 1) (Some (1710037800 * us_per_second));
    mkLongRow (2 # 1) (Some (1730597400 * us_per_second));
    mkLongRow (3 # 1) None;
    mkLongRow (4 # 1) (Some (1730683800 * us_per_second)) ].

(** ** The processor: two days of two half-hours (19723 is 2024-01-01) *)

Definition two_day_sheet : WideTable :=
  mkWideTable [ "12:00 AM kW"; "12:30 PM kW"; "Total" ]%string
    [ mkWideRow 19724 [3 # 1; 4 # 1; 7 # 1]%Q;
      mkWideRow 19723 [1 # 1; 2 # 1; 3 # 1]%Q ].

Definition totals_only_sheet : WideTable :=
  mkWideTable [ "Total"%string ] [ mkWideRow 19723 [10 # 1]%Q ].

(** ** The trimmer: a header and three days (19783 is 2024-03-01) *)

Definition half_day_names : list string :=
  [ "12:00 AM kW"; "12:00 PM kW"; "12:30 PM kW" ]%string.

Definition full_day : WideRow := mkWideRow 19783 [1 # 1; 2 # 1; 3 # 1]%Q.
Definition morning_only_day : WideRow := mkWideRow 19784 [1 # 1; 0 # 1; 0 # 1]%Q.
Definition cancelling_day : WideRow := mkWideRow 19784 [1 # 1; 5 # 1; -5 # 1]%Q.

(** ** More samples: the long table of the two-day sheet, a zone with one
    fixed offset, and a table of three readings one of which has no
    timestamp *)

Definition two_day_long : list LongRow :=
  [ mkLongRow (1 # 1) (Some (1704067200 * us_per_second));
    mkLongRow (2 # 1) (Some (1704112200 * us_per_second));
    mkLongRow (3 # 1) (Some (1704153600 * us_per_second));
    mkLongRow (4 # 1) (Some (1704198600 * us_per_second)) ].

Definition utc_minus_five : TimeZone := mkTimeZone (-5 * us_per_hour) [].

Definition three_readings : list Reading :=
  [ mkReading (Some (1704067200 * us_per_second)) (1 # 1) (1 # 1);
    mkReading None (2 # 1) (2 # 1);
    mkReading (Some (1704069000 * us_per_second)) (3 # 1) (3 # 1) ].

Definition january_point : StatisticsRow :=
  mkStatisticsRow (1704085200 * us_per_second) (1 # 1) (5 # 1).

Definition march_point : StatisticsRow :=
  mkStatisticsRow (1709269200 * us_per_second) (3 # 1) (8 # 1).

(** ** The sensor attributes: a bill whose previous period ended on
    2024-02-20 and whose meter is read next on 2024-03-21, and one whose
    period begins only on 2024-03-11 *)

Definition march_bill : BillSummary :=
  mkBillSummary "1234567890" (Some (1705708800 * us_per_second))
    (Some (1708387200 * us_per_second)) (1710979200 * us_per_second) (42 # 1) None.

Definition late_bill : BillSummary :=
  mkBillSummary "1234567890" (Some (1707436800 * us_per_second))
    (Some (1710028800 * us_per_second)) (1712620800 * us_per_second) (42 # 1) None.

(** The statistics of 2024-03-01 under [march_bill]. *)
Definition march_day_usage : DailyUsage :=
  mkDailyUsage (Day 19783) (10 # 1) (Some (20 # 4)) (Some (8 # 1)).

Definition march_billing_stats : BillingPeriodStats.t :=
  BillingPeriodStats.mk (Moment (1708473600 * us_per_second)) 29 (10 # 1) (10 # 1)
    [march_day_usage] march_day_usage
    (mkPeakPower (Some (8 # 1)) (Instant (1709274600 * us_per_second))).

(** ** A workbook of two days, and visits of the site *)

Definition sample_to_date (s : string) : option Z :=
  if String.eqb s "01/01/2024" then Some 19723
  else if String.eqb s "01/02/2024" then Some 19724
  else None.

Definition power_sheet : Reader.RawSheet :=
  Reader.mkRawSheet [ "12:00 AM kW"; "12:30 PM kW" ]%string
    [ Reader.mkRawRow "01/02/2024" [3 # 1; 4 # 1]%Q;
      Reader.mkRawRow "01/01/2024" [1 # 1; 2 # 1]%Q ].

Definition energy_sheet : Reader.RawSheet :=
  Reader.mkRawSheet [ "12:00 AM kWH"; "12:30 PM kWH" ]%string
    [ Reader.mkRawRow "01/02/2024" [3 # 1; 4 # 1]%Q;
      Reader.mkRawRow "01/01/2024" [1 # 1; 2 # 1]%Q ].

Definition two_day_workbook : Reader.Workbook :=
  Some [ ("kWH Usage Data"%string, energy_sheet);
         ("kW Usage Data"%string, power_sheet) ].

Definition two_day_entities : list Reading :=
  [ mkReading (Some (1704085200 * us_per_second)) (1 # 1) (1 # 1);
    mkReading (Some (1704130200 * us_per_second)) (2 # 1) (2 # 1);
    mkReading (Some (1704171600 * us_per_second)) (3 # 1) (3 # 1);
    mkReading (Some (1704216600 * us_per_second)) (4 # 1) (4 # 1) ].

Definition good_login : Scraper.LoginPage :=
  Scraper.mkLoginPage None None None None (inr 1%nat) None.

Definition usage_file : string := "dominion_usage_20240302_080000.xlsx".

Definition good_site : Scraper.Site :=
  Scraper.mkSite None None good_login true (Some usage_file) (Some march_bill).

Definition site_without_bill : Scraper.Site :=
  Scraper.mkSite None None good_login true (Some usage_file) None.

Definition fresh_coordinator : Update.Coordinator := Update.mkCoordinator None None.

Definition empty_world : Update.World := Update.mkWorld [] [].

(** ** The input of the user form *)

Definition form_input : ConfigFlow.Mapping :=
  [ ("email", "someone@example.com"); ("password", "secret") ]%string.

(** ** Eight days, one reading at noon of each, of 1 to 8 kWh *)

Definition eight_days : list Reading :=
  map (fun i => mkReading (Some ((19723 + i) * us_per_day + 17 * us_per_hour))
                  (1 # 1) (inject_Z (i + 1)))
    [0; 1; 2; 3; 4; 5; 6; 7].

(** Two orders of the groups: as they first appear, and reversed. *)
Definition as_found (l : list BillingPeriodStats.DayRow)
  : list BillingPeriodStats.DayRow := l.

Definition reversed (l : list BillingPeriodStats.DayRow)
  : list BillingPeriodStats.DayRow := rev l.

(* ------------------------------------------------------------------ *)
(** * Results and traversals *)

Lemma mapM_total {A B : Type} (f : A -> result B) (g : A -> B) (l : list A) :
  (forall a, f a = Ok (g a)) -> mapM f l = Ok (map g l).
Proof.
  intros Hf. induction l as [|a l IH]; simpl.
  - reflexivity.
  - rewrite Hf, IH. reflexivity.
Qed.

(* ------------------------------------------------------------------ *)
(** * Time zones: the candidates are exactly the instants of a wall clock *)

Lemma local_candidates_spec (trs : list (Z * Z)) :
  forall off n t,
    In t (local_candidates off trs n) <-> t + offset_from off trs t = n.
Proof.
  induction trs as [|[s o] rest IH]; intros off n t; simpl.
  - split; [intros [<-|[]]; lia | intros <-; left; lia].
  - rewrite in_app_iff, filter_In, IH, Z.leb_le.
    destruct (Z.ltb_spec t s) as [Hts|Hts];
      destruct (Z.ltb_spec (n - off) s) as [Hn|Hn]; simpl; split.
    + intros [[<-|[]]|[_ Hge]]; lia.
    + intros <-. left. left. lia.
    + intros [[]|[_ Hge]]; lia.
    + intros <-. lia.
    + intros [[<-|[]]|[Hw _]]; [lia | exact Hw].
    + intros Hw. right. split; [exact Hw | lia].
    + intros [[]|[Hw _]]. exact Hw.
    + intros Hw. right. split; [exact Hw | lia].
Qed.

Lemma local_candidates_sorted (trs : list (Z * Z)) :
  forall off n, StronglySorted Z.lt (local_candidates off trs n).
Proof.
  induction trs as [|[s o] rest IH]; intros off n; simpl.
  - repeat constructor.
  - assert (Hf : StronglySorted Z.lt
                   (filter (fun t => s <=? t) (local_candidates o rest n))).
    { specialize (IH o n). induction IH as [|a l Hs IHs Hall]; simpl.
      - constructor.
      - destruct (s <=? a); [|exact IHs].
        constructor; [exact IHs|].
        rewrite Forall_forall in *. intros x Hx.
        apply filter_In in Hx. apply Hall, Hx. }
    destruct (Z.ltb_spec (n - off) s) as [Hn|Hn]; simpl; [|exact Hf].
    constructor; [exact Hf|].
    rewrite Forall_forall. intros x Hx.
    apply filter_In in Hx. destruct Hx as [_ Hx].
    apply Z.leb_le in Hx. lia.
Qed.

Lemma head_candidate_earliest (tz : TimeZone) (n t : Z) (rest : list Z) :
  local_candidates (initial_offset tz) (transitions tz) n = t :: rest ->
  earliest_instant tz n t.
Proof.
  intros Hc. split.
  - unfold to_local, utc_offset. apply local_candidates_spec.
    rewrite Hc. left. reflexivity.
  - intros t' Ht'. unfold to_local, utc_offset in Ht'.
    apply local_candidates_spec in Ht'. rewrite Hc in Ht'.
    pose proof (local_candidates_sorted (transitions tz) (initial_offset tz) n) as Hs.
    rewrite Hc in Hs. inversion Hs as [|? ? _ Hall]; subst.
    destruct Ht' as [<-|Hin]; [lia|].
    rewrite Forall_forall in Hall. specialize (Hall _ Hin). lia.
Qed.

Lemma no_candidate_no_instant (tz : TimeZone) (n : Z) :
  local_candidates (initial_offset tz) (transitions tz) n = [] ->
  forall t, to_local tz t <> n.
Proof.
  intros Hc t Ht. unfold to_local, utc_offset in Ht.
  apply local_candidates_spec in Ht. rewrite Hc in Ht. exact Ht.
Qed.

Lemma replace_time_zone_earliest (tz : TimeZone) (ts : option Z) :
  replace_time_zone tz AmbEarliest NeNull ts = Ok (resolve_earliest tz ts).
Proof.
  destruct ts as [n|]; simpl; [|reflexivity].
  unfold from_local_datetime.
  destruct (local_candidates (initial_offset tz) (transitions tz) n) as [|t [|t2 rest]];
    reflexivity.
Qed.

Lemma resolve_earliest_some (tz : TimeZone) (ts : option Z) (t : Z) :
  resolve_earliest tz ts = Some t ->
  exists n, ts = Some n /\ earliest_instant tz n t.
Proof.
  destruct ts as [n|]; simpl; [|discriminate].
  destruct (local_candidates (initial_offset tz) (transitions tz) n) as [|c rest] eqn:Hc;
    simpl; [discriminate|].
  intros [= ->]. exists n. split; [reflexivity|].
  eapply head_candidate_earliest; eassumption.
Qed.

Lemma resolve_earliest_none (tz : TimeZone) (n : Z) :
  resolve_earliest tz (Some n) = None -> forall t, to_local tz t <> n.
Proof.
  simpl.
  destruct (local_candidates (initial_offset tz) (transitions tz) n) as [|c rest] eqn:Hc;
    simpl; [|discriminate].
  intros _. apply no_candidate_no_instant. exact Hc.
Qed.

(** The wall clock determines the resolved instant and conversely. *)
Lemma resolve_earliest_inj (tz : TimeZone) (a b : option Z) (t : Z) :
  resolve_earliest tz a = Some t -> resolve_earliest tz b = Some t -> a = b.
Proof.
  intros Ha Hb.
  apply resolve_earliest_some in Ha. apply resolve_earliest_some in Hb.
  destruct Ha as (n & -> & Hn & _). destruct Hb as (m & -> & Hm & _).
  congruence.
Qed.

(* ------------------------------------------------------------------ *)
(** * [_handle_dst] *)

Section HandleDst.
Context {R : Type} `{TimestampColumn R}.
Variable tz : TimeZone.

Lemma handle_dst_eq (df : list R) :
  _handle_dst tz df =
  Ok (filter not_null (map (fun r => with_ts (resolve_earliest tz (ts_of r)) r) df)).
Proof.
  unfold _handle_dst.
  rewrite (mapM_total _ (fun r => with_ts (resolve_earliest tz (ts_of r)) r)).
  - reflexivity.
  - intros r. rewrite replace_time_zone_earliest. reflexivity.
Qed.

Lemma handle_dst_resolved (df : list R) :
  dst_resolved tz df
    (filter not_null (map (fun r => with_ts (resolve_earliest tz (ts_of r)) r) df)).
Proof.
  induction df as [|r df IH]; simpl.
  - constructor.
  - unfold not_null at 1. rewrite ts_with_ts.
    destruct (resolve_earliest tz (ts_of r)) as [t|] eqn:Hr.
    + apply resolve_earliest_some in Hr. destruct Hr as (n & Hn & He).
      eapply dst_keep; eassumption.
    + destruct (ts_of r) as [n|] eqn:Hn.
      * eapply dst_drop_gap; [eassumption| |exact IH].
        apply resolve_earliest_none. exact Hr.
      * apply dst_drop_null; assumption.
Qed.

End HandleDst.

(** C4. [_handle_dst] always returns; its output is the input in order,
    where a row whose wall clock the zone never shows (spring forward) or
    whose timestamp is null is dropped, and every other row carries the
    earliest instant that shows its wall clock; no output timestamp is
    null; and a row whose wall clock is shown at exactly two instants
    (fall back) is kept at the earlier one. *)
Theorem handle_dst_earliest_or_dropped :
  forall (R : Type) (C : TimestampColumn R) (tz : TimeZone) (df : list R),
  exists final_df,
    _handle_dst tz df = Ok final_df
    /\ dst_resolved tz df final_df
    /\ Forall (fun r => exists t, ts_of r = Some t) final_df
    /\ (forall r n t1 t2,
          In r df -> ts_of r = Some n -> t1 < t2 ->
          (forall t, to_local tz t = n <-> t = t1 \/ t = t2) ->
          In (with_ts (Some t1) r) final_df).
Proof.
  intros R C tz df. eexists. split; [apply handle_dst_eq|].
  split; [apply handle_dst_resolved|]. split.
  - rewrite Forall_forall. intros r Hr. apply filter_In in Hr.
    destruct Hr as [_ Hr]. unfold not_null in Hr.
    destruct (ts_of r) as [t|]; [eauto|discriminate].
  - intros r n t1 t2 Hin Hn Hlt Hboth.
    assert (H1 : to_local tz t1 = n) by (apply Hboth; auto).
    destruct (resolve_earliest tz (Some n)) as [t|] eqn:Hr.
    + pose proof Hr as Hr'. apply resolve_earliest_some in Hr'.
      destruct Hr' as (m & [= <-] & Hloc & Hmin).
      assert (t = t1) as ->.
      { pose proof (Hmin _ H1). apply Hboth in Hloc. lia. }
      apply filter_In. split.
      * apply in_map_iff. exists r. rewrite Hn, Hr. auto.
      * unfold not_null. rewrite ts_with_ts. reflexivity.
    + exfalso. exact (@resolve_earliest_none tz n Hr t1 H1).
Qed.

(* ------------------------------------------------------------------ *)
(** * Join and DST resolution commute *)

Section JoinDst.
Variable tz : TimeZone.

Let localize_long (r : LongRow) : LongRow :=
  with_ts (resolve_earliest tz (ts_of r)) r.
Let localize_reading (r : Reading) : Reading :=
  with_ts (resolve_earliest tz (ts_of r)) r.

(** The matches of one power row, resolved after or before the join. *)
Lemma join_one_row (p : LongRow) (energy_long : list LongRow) :
  filter not_null
    (map localize_reading
       (map (fun e => mkReading (l_timestamp p) (value p) (value e))
          (filter (fun e => eq_filter (l_timestamp e) (l_timestamp p)) energy_long)))
  = match resolve_earliest tz (l_timestamp p) with
    | Some t =>
        map (fun e => mkReading (Some t) (value p) (value e))
          (filter (fun e => eq_filter (l_timestamp e) (Some t))
             (filter not_null (map localize_long energy_long)))
    | None => []
    end.
Proof.
  unfold localize_reading, localize_long, not_null.
  induction energy_long as [|e E IH]; cbn in *.
  - destruct (resolve_earliest tz (l_timestamp p)); reflexivity.
  - destruct (eq_filter (l_timestamp e) (l_timestamp p)) eqn:Heq; cbn.
    + (* the naive keys agree *)
      assert (Hsame : l_timestamp e = l_timestamp p).
      { unfold eq_filter in Heq.
        destruct (l_timestamp e), (l_timestamp p); try discriminate.
        apply Z.eqb_eq in Heq. congruence. }
      rewrite Hsame.
      destruct (resolve_earliest tz (l_timestamp p)) as [t|] eqn:Hr; cbn.
      * rewrite Z.eqb_refl. cbn. rewrite IH. reflexivity.
      * exact IH.
    + (* the naive keys differ: so do the resolved ones *)
      rewrite IH.
      destruct (resolve_earliest tz (l_timestamp p)) as [t|] eqn:Hr; [|reflexivity].
      destruct (resolve_earliest tz (l_timestamp e)) as [t'|] eqn:Hr'; [|reflexivity].
      cbn. destruct (Z.eqb_spec t' t) as [->|Hne]; [|reflexivity].
      exfalso.
      rewrite (@resolve_earliest_inj tz _ _ t Hr' Hr) in Heq.
      apply resolve_earliest_some in Hr. destruct Hr as (n & Hn & _).
      rewrite Hn in Heq. simpl in Heq. rewrite Z.eqb_refl in Heq. discriminate.
Qed.

Lemma join_commutes (power_long energy_long : list LongRow) :
  filter not_null (map localize_reading (inner_join power_long energy_long))
  = inner_join (filter not_null (map localize_long power_long))
      (filter not_null (map localize_long energy_long)).
Proof.
  unfold inner_join.
  induction power_long as [|p P IH]; simpl; [reflexivity|].
  rewrite map_app, filter_app, IH, join_one_row.
  unfold not_null at 2. cbn.
  destruct (resolve_earliest tz (l_timestamp p)); reflexivity.
Qed.

Lemma implemented_order_eq (power_long energy_long : list LongRow) :
  _handle_dst tz (inner_join power_long energy_long)
  = join_resolved_tables tz power_long energy_long.
Proof.
  unfold join_resolved_tables.
  rewrite !handle_dst_eq. simpl.
  f_equal. apply join_commutes.
Qed.

(** Every joined and resolved row has its two metrics from a power and an
    energy reading of one wall clock, at the instant resolved for it. *)
Lemma joined_rows_paired (power_long energy_long : list LongRow) (r : Reading) :
  In r (filter not_null (map localize_reading (inner_join power_long energy_long))) ->
  exists p e n t,
    In p power_long /\ In e energy_long
    /\ l_timestamp p = Some n /\ l_timestamp e = Some n
    /\ earliest_instant tz n t
    /\ r = mkReading (Some t) (value p) (value e).
Proof.
  intros Hr. apply filter_In in Hr. destruct Hr as [Hr Hnn].
  apply in_map_iff in Hr. destruct Hr as (j & <- & Hj).
  unfold inner_join in Hj. apply in_flat_map in Hj.
  destruct Hj as (p & Hp & Hj). apply in_map_iff in Hj.
  destruct Hj as (e & <- & He). apply filter_In in He.
  destruct He as [He Heq].
  unfold not_null in Hnn. simpl in Hnn.
  destruct (resolve_earliest tz (l_timestamp p)) as [t|] eqn:Hres; [|discriminate].
  pose proof Hres as Hres'. apply resolve_earliest_some in Hres'.
  destruct Hres' as (n & Hn & Hearly).
  exists p, e, n, t. repeat split; try assumption.
  - unfold eq_filter in Heq. rewrite Hn in Heq.
    destruct (l_timestamp e) as [m|]; [|discriminate].
    apply Z.eqb_eq in Heq. congruence.
  - apply Hearly.
  - apply Hearly.
  - unfold localize_reading. simpl. rewrite Hres. reflexivity.
Qed.

End JoinDst.

(** C9. Joining on the naive timestamps and resolving the joined table, as
    [process_for_entities] does, gives the same rows in the same order as
    resolving each long table and joining on the aware timestamps, with the
    same outcome (rows or exception) for the whole processor; every row
    carries the power and the energy reading of one wall clock at the
    instant resolved for it. *)
Theorem join_then_dst_equals_dst_then_join :
  forall (tz : TimeZone),
    (forall power_long energy_long,
        exists rows,
          _handle_dst tz (inner_join power_long energy_long) = Ok rows
          /\ join_resolved_tables tz power_long energy_long = Ok rows
          /\ forall r, In r rows ->
               exists p e n t,
                 In p power_long /\ In e energy_long
                 /\ l_timestamp p = Some n /\ l_timestamp e = Some n
                 /\ earliest_instant tz n t
                 /\ r = mkReading (Some t) (value p) (value e))
    /\ (forall eo raw_data,
          process_for_entities eo tz raw_data
          = process_for_entities_spec_order eo tz raw_data).
Proof.
  intros tz. split.
  - intros P E. eexists. split; [apply handle_dst_eq|]. split.
    + rewrite <- implemented_order_eq. apply handle_dst_eq.
    + intros r Hr. apply joined_rows_paired. exact Hr.
  - intros eo raw. unfold process_for_entities, process_for_entities_spec_order.
    destruct (_clean raw) as [c|]; simpl; [|reflexivity].
    destruct (_transform_to_long_format eo (power_df c)) as [P|]; simpl; [|reflexivity].
    destruct (_transform_to_long_format eo (energy_df c)) as [E|]; simpl; [|reflexivity].
    apply implemented_order_eq.
Qed.

(* ------------------------------------------------------------------ *)
(** * Sums and sorting *)

Lemma sum_app (l l' : list Q) :
  (Polars.sum (l ++ l') == Polars.sum l + Polars.sum l')%Q.
Proof.
  induction l as [|x l IH]; simpl.
  - lra.
  - rewrite IH. lra.
Qed.

Lemma key_eqb_eq (a b : option Z) : key_eqb a b = true <-> a = b.
Proof.
  destruct a as [x|], b as [y|]; simpl; split; try congruence; try reflexivity.
  - intros H. apply Z.eqb_eq in H. congruence.
  - intros [= ->]. apply Z.eqb_refl.
Qed.

Lemma key_eqb_neq (a b : option Z) : key_eqb a b = false <-> a <> b.
Proof.
  rewrite <- key_eqb_eq. destruct (key_eqb a b); split; congruence.
Qed.

Lemma key_leb_total (a b : option Z) : key_leb a b = false -> key_leb b a = true.
Proof.
  destruct a as [x|], b as [y|]; simpl; try congruence.
  intros H. apply Z.leb_gt in H. apply Z.leb_le. lia.
Qed.

Lemma key_leb_trans (a b c : option Z) :
  key_leb a b = true -> key_leb b c = true -> key_leb a c = true.
Proof.
  destruct a as [x|], b as [y|], c as [z|]; simpl; try congruence.
  rewrite !Z.leb_le. lia.
Qed.

Lemma key_leb_antisym (a b : option Z) :
  key_leb a b = true -> key_leb b a = true -> a = b.
Proof.
  destruct a as [x|], b as [y|]; simpl; try congruence.
  rewrite !Z.leb_le. intros. f_equal. lia.
Qed.

Section SortFacts.
Context {R : Type} (key : R -> option Z).

Lemma sort_insert_In (x r : R) (l : list R) :
  In x (sort_insert key r l) <-> x = r \/ In x l.
Proof.
  induction l as [|y l IH]; simpl.
  - intuition.
  - destruct (key_leb (key r) (key y)); simpl; rewrite ?IH; intuition.
Qed.

Lemma sort_In (x : R) (l : list R) : In x (sort key l) <-> In x l.
Proof.
  induction l as [|y l IH]; simpl.
  - reflexivity.
  - rewrite sort_insert_In, IH. intuition.
Qed.

Lemma sort_insert_sum (f : R -> Q) (r : R) (l : list R) :
  (Polars.sum (map f (sort_insert key r l)) == f r + Polars.sum (map f l))%Q.
Proof.
  induction l as [|y l IH]; simpl.
  - lra.
  - destruct (key_leb (key r) (key y)); simpl; [lra|]. rewrite IH. lra.
Qed.

Lemma sort_sum (f : R -> Q) (l : list R) :
  (Polars.sum (map f (sort key l)) == Polars.sum (map f l))%Q.
Proof.
  induction l as [|y l IH]; simpl.
  - lra.
  - rewrite sort_insert_sum, IH. lra.
Qed.

Let le (a b : R) : Prop := key_leb (key a) (key b) = true.

Lemma sort_insert_sorted (r : R) (l : list R) :
  StronglySorted le l -> StronglySorted le (sort_insert key r l).
Proof.
  induction 1 as [|y l Hs IH Hall]; simpl.
  - repeat constructor.
  - destruct (key_leb (key r) (key y)) eqn:Hry.
    + constructor; [constructor; assumption|].
      constructor; [exact Hry|].
      rewrite Forall_forall in *. intros x Hx.
      eapply key_leb_trans; [exact Hry | apply Hall, Hx].
    + constructor; [exact IH|].
      rewrite Forall_forall in *. intros x Hx.
      apply sort_insert_In in Hx. destruct Hx as [->|Hx].
      * apply key_leb_total. exact Hry.
      * apply Hall, Hx.
Qed.

Lemma sort_sorted (l : list R) : StronglySorted le (sort key l).
Proof.
  induction l as [|y l IH]; simpl.
  - constructor.
  - apply sort_insert_sorted. exact IH.
Qed.

Lemma sort_insert_NoDup (r : R) (l : list R) :
  NoDup (map key (r :: l)) -> NoDup (map key (sort_insert key r l)).
Proof.
  induction l as [|y l IH]; simpl; intros Hnd.
  - exact Hnd.
  - destruct (key_leb (key r) (key y)); [exact Hnd|].
    simpl. inversion Hnd as [|? ? Hr Hnd']; subst.
    inversion Hnd' as [|? ? Hy Hnd'']; subst.
    constructor.
    + intros Hin. apply in_map_iff in Hin. destruct Hin as (x & Hk & Hx).
      apply sort_insert_In in Hx. destruct Hx as [->|Hx].
      * apply Hr. left. symmetry. exact Hk.
      * apply Hy. apply in_map_iff. exists x. auto.
    + apply IH. simpl. constructor; [|exact Hnd''].
      intros Hin. apply Hr. right. exact Hin.
Qed.

Lemma sort_NoDup (l : list R) :
  NoDup (map key l) -> NoDup (map key (sort key l)).
Proof.
  induction l as [|y l IH]; simpl; intros Hnd.
  - constructor.
  - inversion Hnd as [|? ? Hy Hnd']; subst.
    apply sort_insert_NoDup. simpl. constructor; [|apply IH, Hnd'].
    intros Hin. apply Hy. apply in_map_iff in Hin.
    destruct Hin as (x & Hk & Hx). apply (proj1 (sort_In _ _)) in Hx.
    apply in_map_iff. exists x. auto.
Qed.

Lemma sorted_NoDup_strict (l : list R) :
  StronglySorted le l -> NoDup (map key l) ->
  StronglySorted (fun a b => key_lt (key a) (key b)) l.
Proof.
  induction 1 as [|y l Hs IH Hall]; simpl; intros Hnd.
  - constructor.
  - inversion Hnd as [|? ? Hy Hnd']; subst.
    constructor; [apply IH, Hnd'|].
    rewrite Forall_forall in *. intros x Hx. split.
    + apply Hall, Hx.
    + intros Heq. apply Hy. rewrite Heq. apply in_map. exact Hx.
Qed.

End SortFacts.

(* ------------------------------------------------------------------ *)
(** * Hourly aggregation *)

Section GroupBy.

Let rows_with_key (k : option Z) (rows : list Reading) : list Reading :=
  filter (fun r => key_eqb (timestamp r) k) rows.

(** A group agrees with the rows of its key seen so far. *)
Let group_ok (seen : list Reading) (g : Group) : Prop :=
  let rs := rows_with_key (g_key g) seen in
  g_count g = List.length rs
  /\ rs <> []
  /\ (g_power g == Polars.sum (map power_kw rs))%Q
  /\ (g_energy g == Polars.sum (map energy_kwh rs))%Q.

Let step (groups : list Group) (r : Reading) : list Group :=
  group_add (timestamp r) (power_kw r) (energy_kwh r) groups.

Lemma group_add_keys (k : option Z) (p e : Q) (gs : list Group) :
  map g_key (group_add k p e gs)
  = if existsb (fun g => key_eqb (g_key g) k) gs
    then map g_key gs
    else map g_key gs ++ [k].
Proof.
  induction gs as [|g gs IH]; simpl; [reflexivity|].
  destruct (key_eqb (g_key g) k) eqn:Hk; simpl.
  - apply key_eqb_eq in Hk. rewrite Hk. reflexivity.
  - rewrite IH. destruct (existsb _ gs); reflexivity.
Qed.

Lemma group_add_energy (k : option Z) (p e : Q) (gs : list Group) :
  (Polars.sum (map g_energy (group_add k p e gs))
   == Polars.sum (map g_energy gs) + e)%Q.
Proof.
  induction gs as [|g gs IH]; simpl; [lra|].
  destruct (key_eqb (g_key g) k); simpl; [lra|]. rewrite IH. lra.
Qed.

Lemma rows_with_key_snoc (k : option Z) (seen : list Reading) (r : Reading) :
  rows_with_key k (seen ++ [r])
  = rows_with_key k seen ++ (if key_eqb (timestamp r) k then [r] else []).
Proof.
  unfold rows_with_key. rewrite filter_app. reflexivity.
Qed.

Lemma group_ok_other (seen : list Reading) (r : Reading) (g : Group) :
  g_key g <> timestamp r -> group_ok seen g -> group_ok (seen ++ [r]) g.
Proof.
  intros Hne Hok. unfold group_ok in *. rewrite rows_with_key_snoc.
  assert (Hk : key_eqb (timestamp r) (g_key g) = false)
    by (apply key_eqb_neq; congruence).
  rewrite Hk, app_nil_r. exact Hok.
Qed.

Lemma group_add_ok (seen : list Reading) (r : Reading) (gs : list Group) :
  NoDup (map g_key gs) ->
  Forall (group_ok seen) gs ->
  (~ In (timestamp r) (map g_key gs) -> rows_with_key (timestamp r) seen = []) ->
  Forall (group_ok (seen ++ [r])) (step gs r).
Proof.
  unfold step.
  induction gs as [|g gs IH]; simpl; intros Hnd Hall Hnew.
  - constructor; [|constructor].
    unfold group_ok. simpl. rewrite rows_with_key_snoc.
    rewrite Hnew by tauto.
    assert (Hk : key_eqb (timestamp r) (timestamp r) = true)
      by (apply key_eqb_eq; reflexivity).
    rewrite Hk. simpl. repeat split; try discriminate; lra.
  - inversion Hnd as [|? ? Hg Hnd']; subst.
    inversion Hall as [|? ? Hokg Hall']; subst.
    destruct (key_eqb (g_key g) (timestamp r)) eqn:Hk.
    + apply key_eqb_eq in Hk. constructor.
      * destruct Hokg as (Hc & Hne & Hp & He).
        unfold group_ok. simpl. rewrite rows_with_key_snoc.
        assert (Hk' : key_eqb (timestamp r) (timestamp r) = true)
          by (apply key_eqb_eq; reflexivity).
        rewrite Hk'. rewrite <- Hk.
        rewrite !map_app, !sum_app, length_app. simpl.
        repeat split.
        -- rewrite Hc. lia.
        -- intros Happ. apply app_eq_nil in Happ. destruct Happ; discriminate.
        -- rewrite Hp. lra.
        -- rewrite He. lra.
      * rewrite Forall_forall in *. intros g' Hg'.
        apply group_ok_other; [|apply Hall', Hg'].
        intros Heq. apply Hg. rewrite Hk, <- Heq. apply in_map. exact Hg'.
    + apply key_eqb_neq in Hk. constructor.
      * apply group_ok_other; assumption.
      * apply IH; try assumption.
        intros Hnotin. apply Hnew. intros [Heq|Hin]; [congruence|tauto].
Qed.

(** What holds of the groups once the rows [seen] have been folded in. *)
Let groups_inv (seen : list Reading) (gs : list Group) : Prop :=
  NoDup (map g_key gs)
  /\ Forall (group_ok seen) gs
  /\ (forall r, In r seen -> In (timestamp r) (map g_key gs))
  /\ (Polars.sum (map g_energy gs) == total_energy seen)%Q.

Lemma groups_inv_step (seen : list Reading) (r : Reading) (gs : list Group) :
  groups_inv seen gs -> groups_inv (seen ++ [r]) (step gs r).
Proof.
  intros (Hnd & Hall & Hcov & Hsum).
  assert (Hnew : ~ In (timestamp r) (map g_key gs) ->
                 rows_with_key (timestamp r) seen = []).
  { intros Hnotin. unfold rows_with_key.
    destruct (filter _ seen) as [|x l] eqn:Hf; [reflexivity|].
    exfalso. assert (Hx : In x (filter (fun r0 => key_eqb (timestamp r0) (timestamp r)) seen))
      by (rewrite Hf; left; reflexivity).
    apply filter_In in Hx. destruct Hx as [Hx Hk].
    apply key_eqb_eq in Hk. apply Hnotin. rewrite <- Hk. apply Hcov, Hx. }
  pose proof (group_add_keys (timestamp r) (power_kw r) (energy_kwh r) gs) as Hkeys.
  repeat split.
  - unfold step. rewrite Hkeys.
    destruct (existsb _ gs) eqn:Hex; [exact Hnd|].
    apply NoDup_app; [exact Hnd | repeat constructor; intros [] |].
    intros k Hk [<-|[]].
    apply in_map_iff in Hk. destruct Hk as (g & Hg & Hin).
    assert (Ht : existsb (fun g0 => key_eqb (g_key g0) (timestamp r)) gs = true).
    { apply existsb_exists. exists g. split; [exact Hin|]. apply key_eqb_eq. exact Hg. }
    congruence.
  - apply group_add_ok; assumption.
  - intros x Hx. unfold step. rewrite Hkeys.
    apply in_app_iff in Hx. destruct Hx as [Hx|[<-|[]]].
    + destruct (existsb _ gs); [|apply in_app_iff; left]; apply Hcov, Hx.
    + destruct (existsb _ gs) eqn:Hex.
      * apply existsb_exists in Hex. destruct Hex as (g & Hin & Hk).
        apply key_eqb_eq in Hk. rewrite <- Hk. apply in_map. exact Hin.
      * apply in_app_iff. right. left. reflexivity.
  - unfold step. rewrite group_add_energy, Hsum.
    unfold total_energy. rewrite map_app, sum_app. simpl. lra.
Qed.

Lemma groups_inv_fold (rest seen : list Reading) (gs : list Group) :
  groups_inv seen gs -> groups_inv (seen ++ rest) (fold_left step rest gs).
Proof.
  revert seen gs. induction rest as [|r rest IH]; intros seen gs Hinv; simpl.
  - rewrite app_nil_r. exact Hinv.
  - replace (seen ++ r :: rest) with ((seen ++ [r]) ++ rest)
      by (rewrite <- app_assoc; reflexivity).
    apply IH. apply groups_inv_step. exact Hinv.
Qed.

(** The groups of a table: one per key, each the aggregate of its rows. *)
Lemma group_by_spec (rows : list Reading) :
  NoDup (map g_key (group_by rows))
  /\ (forall g, In g (group_by rows) ->
        let rs := filter (fun r => key_eqb (timestamp r) (g_key g)) rows in
        g_count g = List.length rs /\ rs <> []
        /\ (g_power g == Polars.sum (map power_kw rs))%Q
        /\ (g_energy g == Polars.sum (map energy_kwh rs))%Q)
  /\ (forall r, In r rows -> In (timestamp r) (map g_key (group_by rows)))
  /\ (Polars.sum (map g_energy (group_by rows)) == total_energy rows)%Q.
Proof.
  assert (H0 : groups_inv [] []).
  { repeat split; try constructor. intros r []. }
  pose proof (groups_inv_fold rows H0) as (Hnd & Hall & Hcov & Hsum).
  simpl in *. fold (group_by rows) in *.
  repeat split; try assumption.
  all: rewrite Forall_forall in Hall; apply Hall; assumption.
Qed.

End GroupBy.

Lemma filter_map_comm {A B : Type} (f : B -> bool) (g : A -> B) (l : list A) :
  filter f (map g l) = map g (filter (fun a => f (g a)) l).
Proof.
  induction l as [|a l IH]; simpl; [reflexivity|].
  destruct (f (g a)); simpl; rewrite IH; reflexivity.
Qed.

Lemma validate_iff (hourly_df full_df : list Reading) :
  (_validate_hourly_aggregation hourly_df full_df = Ok tt
   <-> (Qabs (total_energy full_df - total_energy hourly_df) <= tolerance)%Q)
  /\ (_validate_hourly_aggregation hourly_df full_df = Raise ValueError
      <-> (tolerance < Qabs (total_energy full_df - total_energy hourly_df))%Q).
Proof.
  unfold _validate_hourly_aggregation, total_energy.
  destruct (Qle_bool _ tolerance) eqn:Hle; simpl.
  - apply Qle_bool_iff in Hle. split; split; try discriminate; auto.
    intros Hlt. exfalso. apply (Qlt_not_le _ _ Hlt Hle).
  - assert (Hgt : ~ (Qabs (Polars.sum (map energy_kwh full_df)
                           - Polars.sum (map energy_kwh hourly_df)) <= tolerance)%Q).
    { intros H. apply Qle_bool_iff in H. congruence. }
    split; split; try discriminate; auto.
    + intros H. contradiction.
    + intros _. apply Qnot_le_lt. exact Hgt.
Qed.

Section Hourly.
Variable tz : TimeZone.

Let truncate_row (r : Reading) : Reading :=
  with_ts (option_map (truncate_1h tz) (timestamp r)) r.

Lemma hourly_table_unfold (data : list Reading) :
  hourly_table tz data = sort timestamp (map agg (group_by (map truncate_row data))).
Proof. reflexivity. Qed.

Lemma hourly_table_energy (data : list Reading) :
  (total_energy (hourly_table tz data) == total_energy data)%Q.
Proof.
  rewrite hourly_table_unfold. unfold total_energy at 1.
  rewrite sort_sum, map_map. simpl.
  destruct (group_by_spec (map truncate_row data)) as (_ & _ & _ & Hsum).
  rewrite Hsum. unfold total_energy. rewrite map_map. simpl. reflexivity.
Qed.

Lemma process_for_statistics_ok (data : list Reading) :
  process_for_statistics tz data = Ok (hourly_table tz data).
Proof.
  assert (Hv : _validate_hourly_aggregation (hourly_table tz data) data = Ok tt).
  { apply validate_iff. rewrite hourly_table_energy.
    apply Qabs_Qle_condition. unfold tolerance. split; lra. }
  change (process_for_statistics tz data)
    with (_ <- _validate_hourly_aggregation (hourly_table tz data) data ;;
          Ok (hourly_table tz data)).
  rewrite Hv. reflexivity.
Qed.

Lemma hourly_table_sorted (data : list Reading) :
  StronglySorted (fun a b => key_lt (timestamp a) (timestamp b)) (hourly_table tz data).
Proof.
  rewrite hourly_table_unfold. apply sorted_NoDup_strict.
  - apply sort_sorted.
  - apply sort_NoDup. rewrite map_map. simpl.
    apply (group_by_spec (map truncate_row data)).
Qed.

Lemma hourly_table_bucket (data : list Reading) (b : Reading) :
  In b (hourly_table tz data) ->
  let rs := rows_of_hour tz (timestamp b) data in
  rs <> []
  /\ (power_kw b == mean (map power_kw rs))%Q
  /\ (energy_kwh b == Polars.sum (map energy_kwh rs))%Q.
Proof.
  intros Hb. rewrite hourly_table_unfold in Hb.
  apply (proj1 (sort_In _ _ _)) in Hb. apply in_map_iff in Hb.
  destruct Hb as (g & <- & Hg).
  destruct (group_by_spec (map truncate_row data)) as (_ & Hall & _ & _).
  specialize (Hall g Hg). cbv zeta in Hall.
  rewrite filter_map_comm in Hall.
  rewrite !map_map, length_map in Hall.
  destruct Hall as (Hc & Hne & Hp & He).
  simpl. unfold rows_of_hour, hour_start.
  repeat split.
  - intros Hnil. apply Hne. simpl in *. rewrite Hnil. reflexivity.
  - unfold mean. rewrite length_map. simpl in *. rewrite Hp, Hc. reflexivity.
  - simpl in *. rewrite He. reflexivity.
Qed.

Lemma hourly_table_covers (data : list Reading) (r : Reading) :
  In r data ->
  exists b, In b (hourly_table tz data) /\ timestamp b = hour_start tz r.
Proof.
  intros Hr.
  destruct (group_by_spec (map truncate_row data)) as (_ & _ & Hcov & _).
  specialize (Hcov (truncate_row r) (in_map _ _ _ Hr)).
  apply in_map_iff in Hcov. destruct Hcov as (g & Hk & Hg).
  exists (agg g). split.
  - rewrite hourly_table_unfold. apply sort_In. apply in_map. exact Hg.
  - simpl. exact Hk.
Qed.

End Hourly.

(** The hourly table has a row without timestamp exactly when a reading
    has none. *)
Lemma hourly_table_null (tz : TimeZone) (data : list Reading) :
  (exists b, In b (hourly_table tz data) /\ timestamp b = None)
  <-> (exists r, In r data /\ timestamp r = None).
Proof.
  split.
  - intros (b & Hb & Hnull).
    destruct (hourly_table_bucket tz data b Hb) as (Hne & _).
    rewrite Hnull in Hne.
    destruct (rows_of_hour tz None data) as [|r rs] eqn:Hrows; [contradiction|].
    assert (Hr : In r (rows_of_hour tz None data)) by (rewrite Hrows; left; reflexivity).
    apply filter_In in Hr. destruct Hr as [Hr Hk]. exists r. split; [exact Hr|].
    unfold hour_start in Hk. destruct (timestamp r); [discriminate | reflexivity].
  - intros (r & Hr & Hnull).
    destruct (hourly_table_covers tz data r Hr) as (b & Hb & Hk).
    exists b. split; [exact Hb|]. rewrite Hk. unfold hour_start. rewrite Hnull.
    reflexivity.
Qed.

Lemma truncate_1h_floor (tz : TimeZone) (t : Z) :
  let h := truncate_1h tz t in
  h <= t < h + us_per_hour
  /\ (to_local tz t - (t - h)) mod us_per_hour = 0.
Proof.
  unfold truncate_1h. cbv zeta.
  assert (Hpos : 0 < us_per_hour) by reflexivity.
  pose proof (Z.mod_pos_bound (to_local tz t) us_per_hour Hpos) as Hb.
  split; [lia|].
  replace (to_local tz t - (t - (t - to_local tz t mod us_per_hour)))
    with (to_local tz t - to_local tz t mod us_per_hour) by lia.
  rewrite Zminus_mod, Z.mod_mod, Z.sub_diag by lia. reflexivity.
Qed.

(** C1. Hourly aggregation returns a table, and the energy of that table
    equals the energy of the input rows (so the two totals are within the
    tolerance 0.001); the validation it runs raises exactly when two totals
    differ by more than the tolerance, and then no table is returned. *)
Theorem hourly_aggregation_conserves_energy :
  forall (tz : TimeZone) (data : list Reading),
    (exists hourly,
        process_for_statistics tz data = Ok hourly
        /\ (total_energy hourly == total_energy data)%Q
        /\ (Qabs (total_energy data - total_energy hourly) <= tolerance)%Q)
    /\ (forall hourly_df full_df,
          (tolerance < Qabs (total_energy full_df - total_energy hourly_df))%Q <->
          _validate_hourly_aggregation hourly_df full_df = Raise ValueError)
    /\ (forall hourly_df full_df,
          (Qabs (total_energy full_df - total_energy hourly_df) <= tolerance)%Q <->
          _validate_hourly_aggregation hourly_df full_df = Ok tt).
Proof.
  intros tz data. split; [|split].
  - exists (hourly_table tz data). split; [apply process_for_statistics_ok|].
    split; [apply hourly_table_energy|].
    rewrite hourly_table_energy. apply Qabs_Qle_condition.
    unfold tolerance. split; lra.
  - intros h f. symmetry. apply validate_iff.
  - intros h f. symmetry. apply validate_iff.
Qed.

(** C8. Hourly aggregation returns a table sorted strictly ascending by
    hour start; each of its rows stands for the non-empty group of input
    rows whose timestamp truncates to that hour start, with the mean of the
    group's power and the sum of the group's energy; every input row falls
    into one of the rows; truncation floors the wall clock to the hour. *)
Theorem hourly_aggregation_groups_by_hour :
  forall (tz : TimeZone) (data : list Reading),
  exists hourly,
    process_for_statistics tz data = Ok hourly
    /\ StronglySorted (fun a b => key_lt (timestamp a) (timestamp b)) hourly
    /\ (forall b, In b hourly ->
          let rs := rows_of_hour tz (timestamp b) data in
          rs <> []
          /\ (power_kw b == mean (map power_kw rs))%Q
          /\ (energy_kwh b == Polars.sum (map energy_kwh rs))%Q)
    /\ (forall r, In r data ->
          exists b, In b hourly /\ timestamp b = hour_start tz r)
    /\ (forall t,
          let h := truncate_1h tz t in
          h <= t < h + us_per_hour
          /\ (to_local tz t - (t - h)) mod us_per_hour = 0).
Proof.
  intros tz data. exists (hourly_table tz data).
  split; [apply process_for_statistics_ok|].
  split; [apply hourly_table_sorted|].
  split; [intros b; apply hourly_table_bucket|].
  split; [intros r; apply hourly_table_covers|].
  intros t. apply truncate_1h_floor.
Qed.

(* ------------------------------------------------------------------ *)
(** * The incompleteness trimmer *)

Lemma fold_max_bounds (l : list Z) (d : Z) :
  let m := fold_left Z.max l d in
  (m = d \/ In m l) /\ d <= m /\ forall x, In x l -> x <= m.
Proof.
  revert d. induction l as [|y l IH]; intros d; simpl.
  - split; [left; reflexivity|]. split; [lia|]. intros x [].
  - destruct (IH (Z.max d y)) as (Hin & Hge & Hall).
    split; [|split].
    + destruct Hin as [Hm|Hin]; [|right; right; exact Hin].
      destruct (Z.max_spec d y) as [[_ Hmax]|[_ Hmax]]; rewrite Hmax in *.
      * right. left. symmetry. exact Hm.
      * left. exact Hm.
    + lia.
    + intros x [<-|Hx]; [lia|]. apply Hall, Hx.
Qed.

Lemma col_max_unique_latest (before after : list WideRow) (r : WideRow) :
  (forall x, In x (before ++ after) -> Date x < Date r) ->
  col_max (map Date (before ++ r :: after)) = Some (Date r).
Proof.
  intros Hlt.
  destruct (map Date (before ++ r :: after)) as [|d l] eqn:Hl.
  - destruct before; discriminate.
  - simpl. f_equal.
    destruct (fold_max_bounds l d) as (Hin & Hge & Hall).
    assert (Hmem : forall x, In x (d :: l) ->
                             x = Date r \/ x < Date r).
    { intros x Hx. rewrite <- Hl in Hx. apply in_map_iff in Hx.
      destruct Hx as (w & <- & Hw). apply in_app_iff in Hw.
      destruct Hw as [Hw|[<-|Hw]]; [right|left; reflexivity|right];
        apply Hlt; apply in_app_iff; auto. }
    assert (Hr : In (Date r) (d :: l)).
    { rewrite <- Hl. apply in_map. apply in_app_iff. right. left. reflexivity. }
    assert (Hle : Date r <= fold_left Z.max l d).
    { destruct Hr as [<-|Hr]; [exact Hge | apply Hall, Hr]. }
    assert (Hm : In (fold_left Z.max l d) (d :: l)).
    { destruct Hin as [->|Hin]; [left; reflexivity | right; exact Hin]. }
    destruct (Hmem _ Hm); lia.
Qed.

Lemma filter_unique_latest (before after : list WideRow) (r : WideRow) :
  (forall x, In x (before ++ after) -> Date x < Date r) ->
  filter (fun x => eq_filter (Some (Date x)) (Some (Date r))) (before ++ r :: after)
  = [r]
  /\ filter (fun x => ne_filter (Some (Date x)) (Some (Date r))) (before ++ r :: after)
     = before ++ after.
Proof.
  intros Hlt.
  assert (Hout : forall l, (forall x, In x l -> Date x < Date r) ->
            filter (fun x => eq_filter (Some (Date x)) (Some (Date r))) l = []
            /\ filter (fun x => ne_filter (Some (Date x)) (Some (Date r))) l = l).
  { induction l as [|x l IH]; intros Hl; [simpl; auto|].
    assert (Hx : Date x < Date r) by (apply Hl; left; reflexivity).
    destruct IH as [IH1 IH2]; [intros y Hy; apply Hl; right; exact Hy|].
    cbn [filter]. rewrite IH1, IH2. unfold eq_filter, ne_filter.
    destruct (Z.eqb_spec (Date x) (Date r)) as [Heq|_]; [lia|]. simpl. auto. }
  destruct (Hout before) as [Hb1 Hb2];
    [intros x Hx; apply Hlt; apply in_app_iff; auto|].
  destruct (Hout after) as [Ha1 Ha2];
    [intros x Hx; apply Hlt; apply in_app_iff; auto|].
  rewrite !filter_app. cbn [filter]. rewrite Hb1, Hb2, Ha1, Ha2.
  unfold eq_filter, ne_filter. rewrite Z.eqb_refl. simpl. auto.
Qed.

Lemma sum_nonneg_zero (l : list Q) :
  (forall v, In v l -> (0 <= v)%Q) ->
  ((Polars.sum l == 0)%Q <-> forall v, In v l -> (v == 0)%Q).
Proof.
  induction l as [|x l IH]; simpl; intros Hpos.
  - split; [intros _ v [] | reflexivity].
  - assert (Hx : (0 <= x)%Q) by (apply Hpos; auto).
    assert (Hl : forall v, In v l -> (0 <= v)%Q) by (intros v Hv; apply Hpos; auto).
    assert (Hs : (0 <= Polars.sum l)%Q).
    { clear IH Hpos Hx. induction l as [|y l IHl]; simpl; [lra|].
      assert (0 <= y)%Q by (apply Hl; left; reflexivity).
      assert (0 <= Polars.sum l)%Q by (apply IHl; intros v Hv; apply Hl; right; exact Hv).
      lra. }
    specialize (IH Hl). split.
    + intros Hsum v [<-|Hv]; [lra|]. apply IH; [lra|exact Hv].
    + intros Hall. assert (x == 0)%Q by (apply Hall; auto).
      assert (Polars.sum l == 0)%Q by (apply IH; intros v Hv; apply Hall; auto).
      lra.
Qed.

(** C7, amended. For a table with a PM column whose maximum Date stands in a
    single row, the trimmer returns the table without that row when the sum
    of the row's afternoon values is zero, and the table itself otherwise;
    the rows of the other dates stay as they are, in order; for afternoon
    values that are all non-negative, the sum is zero exactly when every
    one of them is zero. *)
Theorem trimmer_drops_latest_iff_pm_sum_zero :
  forall (names : list string) (before after : list WideRow) (r : WideRow),
    (exists n, In n names /\ str_contains " PM" n = true) ->
    (forall x, In x (before ++ after) -> Date x < Date r) ->
    let df := mkWideTable names (before ++ r :: after) in
    ((Polars.sum (pm_values names r) == 0)%Q ->
       drop_incomplete_dates df = Ok (mkWideTable names (before ++ after)))
    /\ (~ (Polars.sum (pm_values names r) == 0)%Q ->
       drop_incomplete_dates df = Ok df)
    /\ ((forall v, In v (pm_values names r) -> (0 <= v)%Q) ->
        ((Polars.sum (pm_values names r) == 0)%Q
         <-> forall v, In v (pm_values names r) -> (v == 0)%Q)).
Proof.
  intros names before after r (n & Hn & Hpm) Hlt df.
  assert (Hrun : drop_incomplete_dates df
                 = Ok (if Qeq_bool (Polars.sum (pm_values names r)) 0
                       then mkWideTable names (before ++ after) else df)).
  { unfold drop_incomplete_dates, df. cbv zeta. cbn [rows col_names].
    rewrite (col_max_unique_latest _ _ _ Hlt).
    destruct (filter_unique_latest _ _ _ Hlt) as [H1 H2]. rewrite H1, H2.
    destruct (filter (str_contains " PM") names) as [|n0 l] eqn:Hf.
    - exfalso. assert (Hin : In n (filter (str_contains " PM") names))
        by (apply filter_In; auto).
      rewrite Hf in Hin. exact Hin.
    - reflexivity. }
  split; [|split].
  - intros Hz. rewrite Hrun. apply Qeq_bool_iff in Hz. rewrite Hz. reflexivity.
  - intros Hnz. rewrite Hrun.
    destruct (Qeq_bool _ 0) eqn:Hb; [|reflexivity].
    apply Qeq_bool_iff in Hb. contradiction.
  - apply sum_nonneg_zero.
Qed.

(* ------------------------------------------------------------------ *)
(** * The long-format reshaper *)

Lemma mapM_outcome {A B : Type} (f : A -> result B) (e0 : exn) (l : list A) :
  (forall x e, f x = Raise e -> e = e0) ->
  (mapM f l = Raise e0 /\ exists x, In x l /\ f x = Raise e0)
  \/ (exists out, mapM f l = Ok out
                  /\ forall y, In y out -> exists x, In x l /\ f x = Ok y).
Proof.
  intros He. induction l as [|a l IH]; simpl.
  - right. exists []. split; [reflexivity|]. intros y [].
  - destruct (f a) as [b|e] eqn:Hfa; simpl.
    + destruct IH as [(Hr & x & Hx & Hfx)|(out & Ho & Hall)].
      * left. rewrite Hr. split; [reflexivity|]. exists x. auto.
      * right. rewrite Ho. simpl. exists (b :: out). split; [reflexivity|].
        intros y [<-|Hy]; [exists a; auto|].
        destruct (Hall y Hy) as (x & Hx & Hfx). exists x. auto.
    + left. pose proof (He _ _ Hfa) as ->. split; [reflexivity|].
      exists a. auto.
Qed.

Lemma unpivot_In (eo : EmptyOn) (df : WideTable) (on : list string) (u : UnpivotRow) :
  In u (unpivot eo df on) <->
  exists name r,
    In name (unpivoted eo df on)
    /\ In r (rows df)
    /\ u = mkUnpivotRow (Date r) name (cell_of name (col_names df) (cells r)).
Proof.
  unfold unpivot. rewrite in_flat_map. split.
  - intros (name & Hn & Hu). apply in_map_iff in Hu.
    destruct Hu as (r & <- & Hr). exists name, r. auto.
  - intros (name & r & Hn & Hr & ->). exists name. split; [exact Hn|].
    apply in_map_iff. exists r. auto.
Qed.

(** *** A matched label holds "AM" or "PM" *)

Lemma span_digits_app (s : string) :
  forall d rest, span_digits s = (d, rest) -> s = (d ++ rest)%string.
Proof.
  induction s as [|c s IH]; simpl; intros d rest Hs.
  - injection Hs as <- <-. reflexivity.
  - destruct (is_digit c).
    + destruct (span_digits s) as [d' rest'] eqn:Hs'.
      injection Hs as <- <-. simpl. f_equal. apply IH. reflexivity.
    + injection Hs as <- <-. reflexivity.
Qed.

Lemma str_contains_cons (pat : string) (c : ascii) (s : string) :
  str_contains pat s = true -> str_contains pat (String c s) = true.
Proof.
  intros H. simpl. rewrite H. apply orb_true_r.
Qed.

Lemma str_contains_app_r (pat s1 s2 : string) :
  str_contains pat s2 = true -> str_contains pat (s1 ++ s2)%string = true.
Proof.
  intros H. induction s1 as [|c s1 IH]; simpl.
  - exact H.
  - rewrite IH. apply orb_true_r.
Qed.

Lemma str_contains_prefix (pat s : string) :
  String.prefix pat s = true -> str_contains pat s = true.
Proof.
  intros H. destruct s; cbn [str_contains]; rewrite H; reflexivity.
Qed.

Lemma match_time_here_marker (s t : string) :
  match_time_here s = Some t ->
  str_contains "AM" s || str_contains "PM" s = true.
Proof.
  unfold match_time_here.
  destruct (span_digits s) as [h r1] eqn:Hh.
  destruct h as [|hc h]; [discriminate|].
  destruct r1 as [|c1 s1]; [discriminate|].
  destruct (Ascii.eqb_spec c1 ":") as [->|Hc1].
  2:{ destruct c1 as [[] [] [] [] [] [] [] []]; try discriminate; contradiction. }
  destruct (span_digits s1) as [m r2] eqn:Hm.
  destruct m as [|mc m]; [discriminate|].
  destruct r2 as [|c2 r2]; [discriminate|].
  destruct (Ascii.eqb_spec c2 " ") as [->|Hc2].
  2:{ destruct c2 as [[] [] [] [] [] [] [] []]; try discriminate; contradiction. }
  destruct r2 as [|c r3]; [discriminate|].
  destruct r3 as [|c3 r4]; [discriminate|].
  destruct (Ascii.eqb_spec c3 "M") as [->|Hc3].
  2:{ destruct c3 as [[] [] [] [] [] [] [] []]; try discriminate; contradiction. }
  intros Hmatch.
  apply span_digits_app in Hh. apply span_digits_app in Hm. subst s s1.
  assert (Hc : str_contains "AM" (String c (String "M" r4))
               || str_contains "PM" (String c (String "M" r4)) = true).
  { destruct (Ascii.eqb_spec c "A") as [->|_].
    - apply orb_true_iff. left. apply str_contains_prefix.
      simpl. destruct r4; reflexivity.
    - destruct (Ascii.eqb_spec c "P") as [->|_]; [|discriminate].
      apply orb_true_iff. right. apply str_contains_prefix.
      simpl. destruct r4; reflexivity. }
  apply orb_true_iff in Hc. apply orb_true_iff.
  destruct Hc as [Hc|Hc]; [left|right];
    apply str_contains_app_r; apply str_contains_cons;
    apply str_contains_app_r; apply str_contains_cons; exact Hc.
Qed.

Lemma str_extract_time_marker (s t : string) :
  str_extract_time s = Some t ->
  str_contains "AM" s || str_contains "PM" s = true.
Proof.
  induction s as [|c s IH]; simpl str_extract_time.
  - destruct (match_time_here EmptyString) eqn:Hm; [|discriminate].
    intros _. eapply match_time_here_marker. exact Hm.
  - destruct (match_time_here (String c s)) eqn:Hm.
    + intros _. eapply match_time_here_marker. exact Hm.
    + intros H. specialize (IH H). apply orb_true_iff in IH.
      apply orb_true_iff.
      destruct IH as [IH|IH]; [left|right]; apply str_contains_cons; exact IH.
Qed.

Lemma mapM_length {A B : Type} (f : A -> result B) (l : list A) :
  forall out, mapM f l = Ok out -> List.length out = List.length l.
Proof.
  induction l as [|a l IH]; simpl; intros out Ho.
  - injection Ho as <-. reflexivity.
  - destruct (f a) as [b|]; simpl in Ho; [|discriminate].
    destruct (mapM f l) as [bs|]; simpl in Ho; [|discriminate].
    injection Ho as <-. simpl. f_equal. apply IH. reflexivity.
Qed.

Lemma sort_length {R : Type} (key : R -> option Z) (l : list R) :
  List.length (sort key l) = List.length l.
Proof.
  assert (Hins : forall r l', List.length (sort_insert key r l') = S (List.length l')).
  { intros r l'. induction l' as [|x l' IH]; simpl; [reflexivity|].
    destruct (key_leb (key r) (key x)); simpl; [reflexivity|].
    rewrite IH. reflexivity. }
  induction l as [|x l IH]; simpl; [reflexivity|].
  rewrite Hins, IH. reflexivity.
Qed.

Lemma unpivot_length (eo : EmptyOn) (df : WideTable) (on : list string) :
  List.length (unpivot eo df on)
  = (List.length (unpivoted eo df on) * List.length (rows df))%nat.
Proof.
  unfold unpivot.
  induction (unpivoted eo df on) as [|n l IH]; simpl.
  - reflexivity.
  - rewrite length_app, length_map, IH. reflexivity.
Qed.

(** A label that holds time text is a half-hour column: without such a
    column no label of the table matches. *)
Lemma no_time_column_no_match (df : WideTable) (name : string) :
  time_columns df = [] -> In name (col_names df) -> str_extract_time name = None.
Proof.
  intros Hnone Hin.
  destruct (str_extract_time name) as [t|] eqn:Ht; [|reflexivity].
  exfalso. apply str_extract_time_marker in Ht.
  assert (Hf : In name (time_columns df)) by (apply filter_In; auto).
  rewrite Hnone in Hf. exact Hf.
Qed.

Lemma value_columns_in_header (eo : EmptyOn) (df : WideTable) (name : string) :
  In name (value_columns eo df) -> In name (col_names df).
Proof.
  unfold value_columns, unpivoted.
  destruct (time_columns df) as [|n l] eqn:Ht.
  - destruct eo; [auto | intros []].
  - intros Hin. rewrite <- Ht in Hin. apply filter_In in Hin. apply Hin.
Qed.

Lemma value_columns_with_time_column (eo : EmptyOn) (df : WideTable) :
  time_columns df <> [] -> value_columns eo df = time_columns df.
Proof.
  unfold value_columns, unpivoted.
  destruct (time_columns df); [contradiction | reflexivity].
Qed.

(** Whatever [unpivot] takes for an empty [on], the labels that can make
    the reshaper fail are those of the half-hour columns. *)
Lemma bad_label_is_time_column (eo : EmptyOn) (df : WideTable) :
  (exists name, In name (value_columns eo df) /\ bad_label name)
  <-> (exists name, In name (time_columns df) /\ bad_label name).
Proof.
  split; intros (name & Hin & Hbad); exists name; (split; [|exact Hbad]).
  - destruct Hbad as (t & Ht & _).
    apply filter_In. split; [exact (value_columns_in_header _ _ _ Hin)|].
    exact (str_extract_time_marker _ Ht).
  - rewrite value_columns_with_time_column; [exact Hin|].
    intros Hnil. rewrite Hnil in Hin. exact Hin.
Qed.

Section Reshaper.

(** The two [with_columns] steps on one unpivoted row. *)
Let convert (u : UnpivotRow) : result LongRow :=
  ts <- strptime_date_time (u_Date u) (str_extract_time (time_str u)) ;;
  Ok (mkLongRow (u_value u) ts).

Lemma convert_raise (u : UnpivotRow) (e : exn) :
  convert u = Raise e -> e = InvalidOperationError /\ bad_label (time_str u).
Proof.
  unfold convert, strptime_date_time, bad_label.
  destruct (str_extract_time (time_str u)) as [t|]; simpl; [|discriminate].
  destruct (parse_time_12h t) eqn:Hp; simpl; [discriminate|].
  intros [= <-]. split; [reflexivity|]. exists t. auto.
Qed.

Lemma convert_bad (u : UnpivotRow) :
  bad_label (time_str u) -> convert u = Raise InvalidOperationError.
Proof.
  intros (t & Ht & Hp). unfold convert, strptime_date_time.
  rewrite Ht, Hp. reflexivity.
Qed.

Lemma convert_unmatched (u : UnpivotRow) :
  str_extract_time (time_str u) = None ->
  convert u = Ok (mkLongRow (u_value u) None).
Proof.
  intros Ht. unfold convert, strptime_date_time. rewrite Ht. reflexivity.
Qed.

Lemma transform_unfold (eo : EmptyOn) (df : WideTable) :
  _transform_to_long_format eo df
  = (long <- mapM convert (unpivot eo df (time_columns df)) ;;
     Ok (sort l_timestamp long)).
Proof. reflexivity. Qed.

Lemma transform_outcome (eo : EmptyOn) (df : WideTable) :
  let failing :=
    rows df <> [] /\ exists name, In name (value_columns eo df) /\ bad_label name in
  (failing -> _transform_to_long_format eo df = Raise InvalidOperationError)
  /\ (~ failing -> exists long, _transform_to_long_format eo df = Ok long).
Proof.
  cbv zeta. rewrite transform_unfold.
  set (on := time_columns df).
  destruct (@mapM_outcome _ _ convert InvalidOperationError (unpivot eo df on))
    as [(Hr & u & Hu & Hfu)|(out & Ho & _)].
  - intros x e Hx. apply (@convert_raise x e Hx).
  - rewrite Hr. simpl. split; [reflexivity|].
    intros Hnot. exfalso. apply Hnot.
    apply unpivot_In in Hu. destruct Hu as (name & r & Hn & Hrow & ->).
    split.
    + intros Hnil. rewrite Hnil in Hrow. exact Hrow.
    + exists name. split; [exact Hn|]. apply (@convert_raise _ _ Hfu).
  - rewrite Ho. simpl. split; [|eauto].
    intros (Hrows & name & Hn & Hbad). exfalso.
    destruct (rows df) as [|r rs] eqn:Hr; [congruence|].
    set (u := mkUnpivotRow (Date r) name (cell_of name (col_names df) (cells r))).
    assert (Hu : In u (unpivot eo df on)).
    { apply unpivot_In. exists name, r. rewrite Hr. split; [exact Hn|].
      split; [left; reflexivity | reflexivity]. }
    assert (Hfail : exists x, In x (unpivot eo df on)
                              /\ convert x = Raise InvalidOperationError).
    { exists u. split; [exact Hu | apply convert_bad; exact Hbad]. }
    clear - Ho Hfail. revert out Ho.
    induction (unpivot eo df on) as [|a l IH]; intros out Ho.
    + destruct Hfail as (x & [] & _).
    + simpl in Ho. destruct Hfail as (x & [<-|Hx] & Hfx).
      * rewrite Hfx in Ho. discriminate.
      * destruct (convert a); simpl in Ho; [|discriminate].
        destruct (mapM convert l) as [bs|] eqn:Hl; simpl in Ho; [|discriminate].
        apply (IH (ex_intro _ x (conj Hx Hfx)) bs). reflexivity.
Qed.

Lemma transform_without_time_columns (eo : EmptyOn) (df : WideTable) :
  time_columns df = [] ->
  exists long,
    _transform_to_long_format eo df = Ok long
    /\ List.length long
       = (List.length (value_columns eo df) * List.length (rows df))%nat
    /\ forall row, In row long -> l_timestamp row = None.
Proof.
  intros Hnone. rewrite transform_unfold.
  set (on := time_columns df).
  assert (Hconv : forall u, In u (unpivot eo df on) ->
                            convert u = Ok (mkLongRow (u_value u) None)).
  { intros u Hu. apply convert_unmatched.
    apply unpivot_In in Hu. destruct Hu as (name & r & Hn & _ & ->). simpl.
    apply (no_time_column_no_match df name Hnone).
    exact (value_columns_in_header eo df name Hn). }
  assert (Hmap : mapM convert (unpivot eo df on)
                 = Ok (map (fun u => mkLongRow (u_value u) None) (unpivot eo df on))).
  { induction (unpivot eo df on) as [|a l IH]; simpl; [reflexivity|].
    rewrite (Hconv a) by (left; reflexivity). simpl.
    rewrite IH by (intros u Hu; apply Hconv; right; exact Hu). reflexivity. }
  rewrite Hmap. simpl. eexists. split; [reflexivity|]. split.
  - rewrite sort_length, length_map, unpivot_length. reflexivity.
  - intros row Hrow. apply (proj1 (sort_In _ _ _)) in Hrow.
    apply in_map_iff in Hrow. destruct Hrow as (u & <- & _). reflexivity.
Qed.

End Reshaper.

(* ------------------------------------------------------------------ *)
(** * The incremental statistics merger *)

Lemma statistics_to_add_unfold (tz : TimeZone) (store : Store) (now_wall : Z)
    (data : list Reading) :
  statistics_to_add tz store now_wall data
  = (window <- correction_window tz store now_wall (hourly_table tz data) ;;
     Ok (emitted (fst window) (snd window))).
Proof.
  unfold statistics_to_add. rewrite process_for_statistics_ok. simpl.
  destruct (correction_window tz store now_wall (hourly_table tz data))
    as [[usage base]|e]; simpl; [|reflexivity].
  destruct usage; reflexivity.
Qed.

Lemma emitted_running_from (usage : list Reading) (base_sum acc : Q) :
  running_from (acc + base_sum)%Q
    (map _create_statistic_data
       (combine usage
          (map (fun c => (c + base_sum)%Q) (cum_sum_from acc (map energy_kwh usage))))).
Proof.
  revert acc. induction usage as [|r usage IH]; intros acc; simpl.
  - constructor.
  - constructor.
    + unfold _create_statistic_data. simpl. lra.
    + apply IH.
Qed.

Lemma emitted_running (usage : list Reading) (base_sum : Q) :
  running_from base_sum (emitted usage base_sum).
Proof.
  pose proof (emitted_running_from usage base_sum 0) as H.
  unfold emitted, cum_sum.
  destruct usage as [|r usage]; simpl in *; [constructor|].
  inversion H as [|? ? ? Hd Hrest]; subst. constructor; [|exact Hrest].
  rewrite Hd. simpl. lra.
Qed.

Lemma running_from_step (prev : Q) (l : list StatisticData) :
  running_from prev l ->
  forall i a b,
    nth_error l i = Some a -> nth_error l (S i) = Some b ->
    (sum b == sum a + state b)%Q.
Proof.
  induction 1 as [|prev d rest Hd Hrest IH]; intros i a b Ha Hb.
  - destruct i; discriminate.
  - destruct i as [|i]; simpl in Ha, Hb.
    + injection Ha as <-. inversion Hrest as [|? ? ? Hb' _]; subst; [discriminate|].
      simpl in Hb. injection Hb as <-. exact Hb'.
    + eapply IH; eassumption.
Qed.

Lemma emitted_points (usage : list Reading) (base_sum : Q) :
  List.length (emitted usage base_sum) = List.length usage
  /\ forall i r d,
       nth_error usage i = Some r ->
       nth_error (emitted usage base_sum) i = Some d ->
       start d = timestamp r
       /\ state d = energy_kwh r
       /\ (sum d == base_sum
                    + Polars.sum (map energy_kwh (firstn (S i) usage)))%Q.
Proof.
  unfold emitted, cum_sum.
  assert (Hgen : forall acc,
    List.length (map _create_statistic_data
       (combine usage (map (fun c => (c + base_sum)%Q)
                         (cum_sum_from acc (map energy_kwh usage)))))
    = List.length usage
    /\ forall i r d,
       nth_error usage i = Some r ->
       nth_error (map _create_statistic_data
          (combine usage (map (fun c => (c + base_sum)%Q)
                            (cum_sum_from acc (map energy_kwh usage))))) i = Some d ->
       start d = timestamp r
       /\ state d = energy_kwh r
       /\ (sum d == acc + base_sum
                    + Polars.sum (map energy_kwh (firstn (S i) usage)))%Q).
  { induction usage as [|x usage IH]; intros acc.
    - split; [reflexivity|]. intros [|i] r d Hr; discriminate.
    - destruct (IH (acc + energy_kwh x)%Q) as [Hlen Hnth].
      split; [simpl; f_equal; exact Hlen|].
      intros [|i] r d Hr Hd.
      + simpl in Hr, Hd. injection Hr as <-. injection Hd as <-.
        unfold _create_statistic_data. simpl. repeat split. lra.
      + simpl in Hr, Hd. destruct (Hnth i r d Hr Hd) as (Hs & Hst & Hsum).
        repeat split; try assumption.
        rewrite Hsum. cbn [firstn map Polars.sum fold_right].
        change (fold_right Qplus 0%Q (map energy_kwh (firstn (S i) usage)))
          with (Polars.sum (map energy_kwh (firstn (S i) usage))).
        lra. }
  destruct (Hgen 0%Q) as [Hlen Hnth]. split; [exact Hlen|].
  intros i r d Hr Hd. destruct (Hnth i r d Hr Hd) as (Hs & Hst & Hsum).
  repeat split; try assumption. rewrite Hsum. lra.
Qed.

Lemma correction_window_first_run (tz : TimeZone) (now_wall : Z)
    (hourly_df : list Reading) :
  correction_window tz [] now_wall hourly_df = Ok (hourly_df, 0%Q).
Proof. reflexivity. Qed.

(** With a last persisted row [p], the window is decided by the rows the
    recorder finds from the correction start on. *)
Lemma correction_window_with_last (tz : TimeZone) (init : Store) (p : StatisticsRow)
    (now_wall : Z) (hourly_df : list Reading) :
  let cs := correction_start_instant tz (row_start p) now_wall in
  correction_window tz (init ++ [p]) now_wall hourly_df
  = match filter (fun r => cs <=? row_start r) (init ++ [p]) with
    | [] => Raise KeyError
    | x :: found =>
        Ok (filter (fun r => gt_filter (timestamp r) (Some cs)) hourly_df,
            row_sum (last (x :: found) x))
    end.
Proof.
  cbv zeta. unfold correction_window, get_last_statistics.
  rewrite rev_app_distr. simpl.
  fold (correction_start_instant tz (row_start p) now_wall).
  unfold statistics_during_period.
  destruct (filter _ (init ++ [p])) as [|x found] eqn:Hf; simpl; [reflexivity|].
  unfold last_of.
  assert (Hrev : rev (x :: found)
                 = last (x :: found) x :: rev (removelast (x :: found))).
  { rewrite (app_removelast_last x (l := x :: found)) at 1 by discriminate.
    rewrite rev_app_distr. reflexivity. }
  rewrite Hrev. reflexivity.
Qed.

(** A series whose rows all precede the correction start makes the run
    raise: the recorder answers [{}], and the debug call indexes it. *)
Lemma stale_series_raises (tz : TimeZone) (init : Store) (p : StatisticsRow)
    (now_wall : Z) (data : list Reading) :
  (forall r, In r (init ++ [p]) ->
             row_start r < correction_start_instant tz (row_start p) now_wall) ->
  statistics_to_add tz (init ++ [p]) now_wall data = Raise KeyError.
Proof.
  intros Hold. rewrite statistics_to_add_unfold, correction_window_with_last.
  destruct (filter _ (init ++ [p])) as [|x found] eqn:Hf; [reflexivity|].
  exfalso.
  assert (Hx : In x (filter (fun r => correction_start_instant tz (row_start p) now_wall
                                       <=? row_start r) (init ++ [p])))
    by (rewrite Hf; left; reflexivity).
  apply filter_In in Hx. destruct Hx as [Hx Hle].
  apply Z.leb_le in Hle. specialize (Hold x Hx). lia.
Qed.

(** When the correction start is not after the last persisted row, the
    run emits the buckets after the correction start, summed up from the
    last persisted sum. *)
Lemma merge_on_last_persisted_sum (tz : TimeZone) (init : Store) (p : StatisticsRow)
    (now_wall : Z) (data : list Reading) :
  let cs := correction_start_instant tz (row_start p) now_wall in
  cs <= row_start p ->
  statistics_to_add tz (init ++ [p]) now_wall data
  = Ok (emitted
          (filter (fun r => gt_filter (timestamp r) (Some cs)) (hourly_table tz data))
          (row_sum p)).
Proof.
  cbv zeta. intros Hle.
  rewrite statistics_to_add_unfold, correction_window_with_last.
  rewrite filter_app. simpl.
  apply Z.leb_le in Hle. rewrite Hle.
  destruct (filter _ init) as [|x found]; [reflexivity|].
  assert (Hlast : last (x :: found ++ [p]) x = p)
    by (change (x :: found ++ [p]) with ((x :: found) ++ [p]); apply last_last).
  cbn [app]. cbv iota. cbn [last] in Hlast. rewrite Hlast. reflexivity.
Qed.

(** Outside the stale case the run is what the specification describes:
    one point per bucket after the correction start, in order, with the
    bucket's hour start and energy and the running sum on top of the base. *)
Lemma merge_emits_running_sums (tz : TimeZone) (init : Store) (p : StatisticsRow)
    (now_wall : Z) (data : list Reading) :
  let cs := correction_start_instant tz (row_start p) now_wall in
  let kept :=
    filter (fun r => gt_filter (timestamp r) (Some cs)) (hourly_table tz data) in
  cs <= row_start p ->
  exists stats,
    statistics_to_add tz (init ++ [p]) now_wall data = Ok stats
    /\ List.length stats = List.length kept
    /\ forall i r d,
         nth_error kept i = Some r -> nth_error stats i = Some d ->
         start d = timestamp r
         /\ state d = energy_kwh r
         /\ (sum d == row_sum p + Polars.sum (map energy_kwh (firstn (S i) kept)))%Q.
Proof.
  cbv zeta. intros Hle. eexists. split.
  - apply merge_on_last_persisted_sum. exact Hle.
  - apply emitted_points.
Qed.

Lemma filter_after_none (cs : Z) (hourly_df : list Reading) :
  (forall b t, In b hourly_df -> timestamp b = Some t -> t <= cs) ->
  filter (fun r => gt_filter (timestamp r) (Some cs)) hourly_df = [].
Proof.
  induction hourly_df as [|b l IH]; simpl; intros Hall; [reflexivity|].
  rewrite IH by (intros b' t Hb; apply Hall; right; exact Hb).
  unfold gt_filter. destruct (timestamp b) as [t|] eqn:Ht; [|reflexivity].
  assert (t <= cs) by (apply (Hall b t); auto).
  destruct (Z.ltb_spec cs t); [lia|reflexivity].
Qed.

(** ** The correction start is the later of the last point and the bound *)

(** In a zone without transitions the wall-clock maximum is the maximum of
    the instants. *)
Lemma correction_start_fixed_offset (tz : TimeZone) (ts now_wall : Z) :
  transitions tz = [] ->
  correction_start_instant tz ts now_wall
  = Z.max ts (instant tz (get_thirty_days_ago now_wall)).
Proof.
  intros Hfixed.
  unfold correction_start_instant, instant, dt_max, get_and_convert_timestamp,
    get_thirty_days_ago, to_local, utc_offset.
  rewrite Hfixed. cbn [py_utcoffset offset_from wall].
  destruct (Z.ltb_spec (ts + initial_offset tz)
              (now_wall - now_wall mod us_per_day - 30 * us_per_day));
    cbn [wall]; lia.
Qed.

(** *** The datetime of a persisted start denotes that start *)

Lemma offset_after_transition (rest : list (Z * Z)) :
  forall off s o t,
    separated_from off ((s, o) :: rest) = true ->
    s <= t ->
    s + Z.min off o <= t + offset_from o rest t.
Proof.
  induction rest as [|[s' o'] rest IH]; intros off s o t Hsep Hst.
  - cbn [offset_from]. lia.
  - cbn [offset_from]. destruct (Z.ltb_spec t s') as [Hlt|Hge]; [lia|].
    cbn [separated_from] in Hsep. apply andb_true_iff in Hsep.
    destruct Hsep as [Hgap Hrest]. apply Z.leb_le in Hgap.
    specialize (IH o s' o' t Hrest Hge). lia.
Qed.

Lemma utcoffset_of_converted (trs : list (Z * Z)) :
  forall off acc t,
    separated_from off trs = true ->
    (acc = true ->
     match trs with
     | [] => True
     | (s, o) :: _ => t + off < s + Z.min off o
     end) ->
    py_utcoffset off trs (fold_from off trs t acc) (t + offset_from off trs t)
    = offset_from off trs t.
Proof.
  induction trs as [|[s o] rest IH]; intros off acc t Hsep Hacc; [reflexivity|].
  cbn [fold_from offset_from].
  destruct (Z.ltb_spec t s) as [Hlt|Hge].
  - cbn [py_utcoffset].
    assert (Hin : t + off < s + (if acc then Z.min off o else Z.max off o)).
    { destruct acc; [apply Hacc; reflexivity | lia]. }
    apply Z.ltb_lt in Hin. rewrite Hin. reflexivity.
  - set (acc' := t - s <? off - o).
    assert (Hsep' : separated_from o rest = true).
    { cbn [separated_from] in Hsep. apply andb_true_iff in Hsep. apply Hsep. }
    assert (Hacc' : acc' = true ->
                    match rest with
                    | [] => True
                    | (s', o') :: _ => t + o < s' + Z.min o o'
                    end).
    { intros Hshift. unfold acc' in Hshift. apply Z.ltb_lt in Hshift.
      destruct rest as [|[s' o'] rest']; [exact I|].
      cbn [separated_from] in Hsep. apply andb_true_iff in Hsep.
      destruct Hsep as [Hgap _]. apply Z.leb_le in Hgap. lia. }
    assert (Hout : s + (if fold_from o rest t acc' then Z.min off o else Z.max off o)
                   <= t + offset_from o rest t).
    { destruct rest as [|[s' o'] rest'].
      - cbn [fold_from offset_from]. unfold acc'.
        destruct (Z.ltb_spec (t - s) (off - o)); lia.
      - cbn [fold_from offset_from].
        destruct (Z.ltb_spec t s') as [Hlt'|Hge'].
        + unfold acc'. destruct (Z.ltb_spec (t - s) (off - o)); lia.
        + pose proof (@offset_after_transition rest' o s' o' t Hsep' Hge') as Hlow.
          cbn [separated_from] in Hsep. apply andb_true_iff in Hsep.
          destruct Hsep as [Hgap _]. apply Z.leb_le in Hgap.
          destruct (fold_from o' rest' t (t - s' <? o - o')); lia. }
    cbn [py_utcoffset].
    destruct (Z.ltb_spec (t + offset_from o rest t)
                (s + (if fold_from o rest t acc' then Z.min off o else Z.max off o)))
      as [Hbad|_]; [lia|].
    apply IH; assumption.
Qed.

(** In a zone with separated transitions the datetime that
    [get_and_convert_timestamp] builds denotes the instant it was built
    from, on either pass of a repeated wall clock. *)
Lemma converted_timestamp_instant (tz : TimeZone) (ts : Z) :
  separated tz = true ->
  instant tz (get_and_convert_timestamp tz ts) = ts.
Proof.
  intros Hsep. unfold instant, get_and_convert_timestamp. cbn [wall fold].
  unfold to_local, utc_offset.
  rewrite utcoffset_of_converted; [lia | exact Hsep | discriminate].
Qed.

(** When the bound is not later on the wall clock, the correction start is
    the last point. *)
Lemma correction_start_is_last_point (tz : TimeZone) (ts now_wall : Z) :
  separated tz = true ->
  wall (get_thirty_days_ago now_wall) <= to_local tz ts ->
  correction_start_instant tz ts now_wall = ts.
Proof.
  intros Hsep Hbound. unfold correction_start_instant, dt_max.
  destruct (Z.ltb_spec (wall (get_and_convert_timestamp tz ts))
              (wall (get_thirty_days_ago now_wall))) as [Hlt|_].
  - unfold get_and_convert_timestamp in Hlt. cbn [wall] in Hlt. lia.
  - apply converted_timestamp_instant. exact Hsep.
Qed.

(** When the bound is later on the wall clock, the correction start is the
    bound. *)
Lemma correction_start_is_bound (tz : TimeZone) (ts now_wall : Z) :
  to_local tz ts < wall (get_thirty_days_ago now_wall) ->
  correction_start_instant tz ts now_wall = instant tz (get_thirty_days_ago now_wall).
Proof.
  intros Hbound. unfold correction_start_instant, dt_max.
  destruct (Z.ltb_spec (wall (get_and_convert_timestamp tz ts))
              (wall (get_thirty_days_ago now_wall))) as [_|Hge]; [reflexivity|].
  unfold get_and_convert_timestamp in Hge. cbn [wall] in Hge. lia.
Qed.

(** ** [_clean] runs the trimmer on both tables *)

Lemma clean_trims_both (data : RawUsageData) (p e : WideTable) :
  drop_incomplete_dates (power_df data) = Ok p ->
  drop_incomplete_dates (energy_df data) = Ok e ->
  _clean data = Ok (mkRawUsageData p e).
Proof.
  intros Hp He. unfold _clean. rewrite Hp. simpl. rewrite He. reflexivity.
Qed.

Lemma clean_raises_runtime_error (data : RawUsageData) (x : exn) :
  drop_incomplete_dates (power_df data) = Raise x
  \/ drop_incomplete_dates (energy_df data) = Raise x ->
  _clean data = Raise RuntimeError.
Proof.
  intros [Hp|He]; unfold _clean.
  - rewrite Hp. reflexivity.
  - destruct (drop_incomplete_dates (power_df data)); simpl; [|reflexivity].
    rewrite He. reflexivity.
Qed.

(** C2. The last persisted point is of 2024-01-01 and the run is of
    2024-03-02: the correction start is 2024-02-01 00:00 New York time, both
    hourly buckets lie after it, and still nothing is emitted: the run
    raises KeyError. *)
Theorem merger_raises_on_series_older_than_thirty_days :
  process_for_statistics new_york_2024 march_first_data = Ok march_first_hourly
  /\ get_last_statistics january_series = Some january_series
  /\ correction_start_instant new_york_2024 (1704085200 * us_per_second)
       march_second_morning
     = 1706763600 * us_per_second
  /\ filter
       (fun r => gt_filter (timestamp r) (Some (1706763600 * us_per_second)))
       march_first_hourly
     = march_first_hourly
  /\ statistics_to_add new_york_2024 january_series march_second_morning
       march_first_data
     = Raise KeyError
  /\ _insert_statistics new_york_2024 january_series march_second_morning
       march_first_data
     = Raise KeyError.
Proof. vm_compute. repeat split. Qed.

(** C3. For the same run the recorder is asked for the rows from the
    correction start on and has none; the base sum falls back to 0, but
    the run does not go on with it: the window, and the run, raise
    KeyError.  The sum persisted before the correction start is 5. *)
Theorem merger_raises_when_no_sum_is_found :
  statistics_during_period january_series (1706763600 * us_per_second) = None
  /\ map row_sum
       (filter (fun r => row_start r <=? 1706763600 * us_per_second) january_series)
     = [5 # 1]%Q
  /\ correction_window new_york_2024 january_series march_second_morning
       march_first_hourly
     = Raise KeyError
  /\ statistics_to_add new_york_2024 january_series march_second_morning
       march_first_data
     = Raise KeyError
  /\ _insert_statistics new_york_2024 january_series march_second_morning
       march_first_data
     = Raise KeyError
  /\ store_after january_series
       (statistics_to_add new_york_2024 january_series march_second_morning
          march_first_data)
     = january_series.
Proof. vm_compute. repeat split. Qed.

(** C6. In a run that emits [stats] on top of the base sum of its window,
    with every emitted state non-negative: the first sum is the base sum
    plus the first state, each later sum is the sum before it plus the
    point's own state, and the sums never decrease. *)
Theorem merger_sums_recurrence :
  forall (tz : TimeZone) (store : Store) (now_wall : Z) (data hourly usage : list Reading)
         (base_sum : Q) (stats : list StatisticData),
    process_for_statistics tz data = Ok hourly ->
    correction_window tz store now_wall hourly = Ok (usage, base_sum) ->
    statistics_to_add tz store now_wall data = Ok stats ->
    (forall d, In d stats -> (0 <= state d)%Q) ->
    (forall d0, nth_error stats 0 = Some d0 -> (sum d0 == base_sum + state d0)%Q)
    /\ (forall i a b,
          nth_error stats i = Some a -> nth_error stats (S i) = Some b ->
          (sum b == sum a + state b)%Q /\ (sum a <= sum b)%Q).
Proof.
  intros tz store now_wall data hourly usage base_sum stats Hh Hw Hrun Hpos.
  rewrite process_for_statistics_ok in Hh. injection Hh as <-.
  rewrite statistics_to_add_unfold, Hw in Hrun. simpl in Hrun.
  injection Hrun as <-.
  pose proof (emitted_running usage base_sum) as Hchain.
  split.
  - intros d0 Hd0.
    destruct (emitted usage base_sum) as [|d rest]; [discriminate|].
    simpl in Hd0. injection Hd0 as <-.
    inversion Hchain; subst. assumption.
  - intros i a b Ha Hb.
    pose proof (running_from_step Hchain _ Ha Hb) as Hstep.
    split; [exact Hstep|].
    assert (0 <= state b)%Q by (apply Hpos; eapply nth_error_In; exact Hb).
    lra.
Qed.

(* ------------------------------------------------------------------ *)
(** * More on the reshaper: what a returned table holds *)

Lemma mapM_total_in {A B : Type} (f : A -> result B) (g : A -> B) (l : list A) :
  (forall a, In a l -> f a = Ok (g a)) -> mapM f l = Ok (map g l).
Proof.
  induction l as [|a l IH]; intros Hf; simpl.
  - reflexivity.
  - rewrite (Hf a) by (left; reflexivity). simpl.
    rewrite IH by (intros x Hx; apply Hf; right; exact Hx). reflexivity.
Qed.

Lemma span_digits_all_digits (s : string) :
  forall d rest, span_digits s = (d, rest) ->
  forall c, In c (list_ascii_of_string d) -> is_digit c = true.
Proof.
  induction s as [|a s IH]; simpl; intros d rest Hs c Hc.
  - injection Hs as <- <-. destruct Hc.
  - destruct (is_digit a) eqn:Ha.
    + destruct (span_digits s) as [d' rest'] eqn:Hs'.
      injection Hs as <- <-. simpl in Hc.
      destruct Hc as [<-|Hc]; [exact Ha|].
      eapply IH; [reflexivity | exact Hc].
    + injection Hs as <- <-. destruct Hc.
Qed.

Lemma digits_value_nonneg (s : string) :
  forall acc,
    0 <= acc ->
    (forall c, In c (list_ascii_of_string s) -> is_digit c = true) ->
    0 <= digits_value acc s.
Proof.
  induction s as [|a s IH]; cbn [digits_value list_ascii_of_string];
    intros acc Hacc Hd.
  - exact Hacc.
  - apply IH.
    + assert (Ha : is_digit a = true) by (apply Hd; left; reflexivity).
      unfold is_digit in Ha. cbv zeta in Ha.
      apply andb_true_iff in Ha. destruct Ha as [Hlo _].
      apply Nat.leb_le in Hlo. lia.
    + intros c Hc. apply Hd. right. exact Hc.
Qed.

Lemma field2_nonneg (s : string) (v : Z) (rest : string) :
  field2 s = Some (v, rest) -> 0 <= v.
Proof.
  unfold field2. destruct (span_digits s) as [d r] eqn:Hs.
  destruct (String.length d) as [|[|[|n]]]; try discriminate;
    intros [= <- <-]; apply digits_value_nonneg; try lia;
    eapply span_digits_all_digits; exact Hs.
Qed.

(** A parsed label is a whole minute of one day. *)
Lemma parse_time_12h_range (t : string) (us : Z) :
  parse_time_12h t = Some us ->
  0 <= us < us_per_day /\ us mod (60 * us_per_second) = 0.
Proof.
  unfold parse_time_12h.
  destruct (field2 t) as [[h r0]|] eqn:Hh; [|discriminate].
  destruct r0 as [|c0 s1]; [discriminate|].
  destruct (Ascii.eqb_spec c0 ":") as [->|Hc0].
  2:{ destruct c0 as [[] [] [] [] [] [] [] []]; try discriminate; contradiction. }
  destruct (field2 s1) as [[m r1]|] eqn:Hm; [|discriminate].
  destruct r1 as [|c1 s2]; [discriminate|].
  destruct (Ascii.eqb_spec c1 " ") as [->|Hc1].
  2:{ destruct c1 as [[] [] [] [] [] [] [] []]; try discriminate; contradiction. }
  pose proof (field2_nonneg _ Hm) as Hm0.
  assert (Hgo : forall is_pm : bool,
             (if (1 <=? h) && (h <=? 12) && (m <=? 59)
              then Some (((h mod 12) + (if is_pm then 12 else 0)) * us_per_hour
                         + m * (60 * us_per_second))
              else None) = Some us ->
             0 <= us < us_per_day /\ us mod (60 * us_per_second) = 0).
  { intros is_pm.
    destruct ((1 <=? h) && (h <=? 12) && (m <=? 59)) eqn:Hok; [|discriminate].
    apply andb_true_iff in Hok. destruct Hok as [Hok Hm59].
    apply andb_true_iff in Hok. destruct Hok as [Hh1 Hh12].
    apply Z.leb_le in Hm59, Hh1, Hh12.
    intros [= <-].
    pose proof (Z.mod_pos_bound h 12 ltac:(lia)) as Hmod.
    split.
    - unfold us_per_day, us_per_hour, us_per_second. destruct is_pm; lia.
    - apply Z.mod_divide; [unfold us_per_second; lia|].
      exists (((h mod 12) + (if is_pm then 12 else 0)) * 60 + m).
      unfold us_per_hour, us_per_second. lia. }
  destruct (String.eqb s2 "PM"); [apply (Hgo true)|].
  destruct (String.eqb s2 "AM"); [apply (Hgo false)|discriminate].
Qed.

Lemma mapM_ok_map {A B : Type} (f : A -> result B) (g : A -> B) (l : list A) :
  (forall x y, In x l -> f x = Ok y -> y = g x) ->
  forall out, mapM f l = Ok out -> out = map g l.
Proof.
  induction l as [|a l IH]; simpl; intros Hf out Ho.
  - injection Ho as <-. reflexivity.
  - destruct (f a) as [b|] eqn:Hfa; simpl in Ho; [|discriminate].
    destruct (mapM f l) as [bs|] eqn:Hl; simpl in Ho; [|discriminate].
    injection Ho as <-. f_equal.
    + apply Hf; [left; reflexivity | exact Hfa].
    + apply IH; [|reflexivity]. intros x y Hx. apply Hf. right. exact Hx.
Qed.

Section ReshaperRows.

(** The two [with_columns] steps on one unpivoted row. *)
Let convert (u : UnpivotRow) : result LongRow :=
  ts <- strptime_date_time (u_Date u) (str_extract_time (time_str u)) ;;
  Ok (mkLongRow (u_value u) ts).

Lemma convert_ok (u : UnpivotRow) (y : LongRow) :
  convert u = Ok y ->
  y = mkLongRow (u_value u) (reading_time (u_Date u) (time_str u)).
Proof.
  unfold convert, strptime_date_time, reading_time.
  destruct (str_extract_time (time_str u)) as [t|]; simpl.
  - destruct (parse_time_12h t); simpl; [|discriminate]. intros [= <-]. reflexivity.
  - intros [= <-]. reflexivity.
Qed.

Lemma transform_returns (eo : EmptyOn) (df : WideTable) (long : list LongRow) :
  _transform_to_long_format eo df = Ok long ->
  long
  = sort l_timestamp
      (map (fun u => mkLongRow (u_value u) (reading_time (u_Date u) (time_str u)))
         (unpivot eo df (time_columns df))).
Proof.
  change (_transform_to_long_format eo df)
    with (long <- mapM convert (unpivot eo df (time_columns df)) ;;
          Ok (sort l_timestamp long)).
  destruct (mapM convert _) as [out|] eqn:Hm; simpl; [|discriminate].
  intros [= <-]. f_equal.
  apply (@mapM_ok_map _ _ convert
           (fun u => mkLongRow (u_value u) (reading_time (u_Date u) (time_str u)))
           _ (fun x y _ Hxy => @convert_ok x y Hxy) out Hm).
Qed.

End ReshaperRows.

Lemma transform_rows (eo : EmptyOn) (df : WideTable) (long : list LongRow)
    (row : LongRow) :
  _transform_to_long_format eo df = Ok long ->
  (In row long <->
   exists name r,
     In name (value_columns eo df) /\ In r (rows df)
     /\ row = mkLongRow (cell_of name (col_names df) (cells r))
                (reading_time (Date r) name)).
Proof.
  intros Hrun. rewrite (transform_returns _ _ Hrun), sort_In, in_map_iff. split.
  - intros (u & <- & Hu). apply unpivot_In in Hu.
    destruct Hu as (name & r & Hn & Hr & ->). exists name, r. auto.
  - intros (name & r & Hn & Hr & ->).
    exists (mkUnpivotRow (Date r) name (cell_of name (col_names df) (cells r))).
    split; [reflexivity|]. apply unpivot_In. exists name, r. auto.
Qed.

Lemma bad_label_decidable (l : list string) :
  (exists name, In name l /\ bad_label name)
  \/ ~ (exists name, In name l /\ bad_label name).
Proof.
  induction l as [|n l IH].
  - right. intros (name & [] & _).
  - destruct IH as [(name & Hn & Hb)|IH]; [left; exists name; simpl; auto|].
    destruct (str_extract_time n) as [t|] eqn:Ht.
    + destruct (parse_time_12h t) eqn:Hp.
      * right. intros (name & [<-|Hn] & (t' & Ht' & Hp')); [congruence|].
        apply IH. exists name. split; [exact Hn|]. exists t'. auto.
      * left. exists n. split; [left; reflexivity|]. exists t. auto.
    + right. intros (name & [<-|Hn] & (t' & Ht' & Hp')); [congruence|].
      apply IH. exists name. split; [exact Hn|]. exists t'. auto.
Qed.

(** C10, amended. Under either behaviour of [unpivot] for an empty [on]:
    the reshaper raises (the strict parse error of polars, which it logs and
    re-raises) exactly when the table has a row and the label of one of the
    columns it unpivots holds text of the shape digits:digits AM/PM that is
    not a 12-hour clock time, and such a label is always that of a half-hour
    column; in every other case it returns a table.  In a returned table the
    cells of a column whose label holds no such text have a null timestamp.
    In particular a table without any AM/PM column does not fail, and every
    timestamp of the result is null. *)
Theorem reshaper_fails_iff_bad_label :
  forall (eo : EmptyOn) (df : WideTable),
    let failing :=
      rows df <> [] /\ exists name, In name (value_columns eo df) /\ bad_label name in
    (_transform_to_long_format eo df = Raise InvalidOperationError <-> failing)
    /\ ((exists long, _transform_to_long_format eo df = Ok long) <-> ~ failing)
    /\ (failing
        <-> rows df <> [] /\ exists name, In name (time_columns df) /\ bad_label name)
    /\ (forall long name r,
          _transform_to_long_format eo df = Ok long ->
          In name (value_columns eo df) ->
          In r (rows df) ->
          str_extract_time name = None ->
          In (mkLongRow (cell_of name (col_names df) (cells r)) None) long)
    /\ (time_columns df = [] ->
        exists long,
          _transform_to_long_format eo df = Ok long
          /\ List.length long
             = (List.length (value_columns eo df) * List.length (rows df))%nat
          /\ forall row, In row long -> l_timestamp row = None).
Proof.
  intros eo df failing. destruct (transform_outcome eo df) as [Hfail Hok].
  fold failing in Hfail, Hok.
  split; [|split; [|split; [|split]]].
  - split; [|exact Hfail].
    intros Hr.
    destruct (rows df) as [|r rs] eqn:Hrows.
    + exfalso. destruct Hok as (long & Hl); [|congruence].
      intros (Hne & _). apply Hne. reflexivity.
    + split; [discriminate|].
      destruct (bad_label_decidable (value_columns eo df)) as [Hyes|Hno]; [exact Hyes|].
      exfalso. destruct Hok as (long & Hl); [|congruence].
      intros (_ & Hex). exact (Hno Hex).
  - split; [|exact Hok].
    intros (long & Hl) Hf. rewrite (Hfail Hf) in Hl. discriminate.
  - unfold failing. rewrite (bad_label_is_time_column eo df). reflexivity.
  - intros long name r Hrun Hname Hr Hnone.
    apply (proj2 (transform_rows eo df (mkLongRow _ None) Hrun)).
    exists name, r. split; [exact Hname|]. split; [exact Hr|].
    unfold reading_time. rewrite Hnone. reflexivity.
  - apply transform_without_time_columns.
Qed.

(** X1. A table returned by the reshaper holds exactly one reading per
    cell of the columns that [unpivot] takes: the value of the cell, with
    the timestamp made of the date of its row and the label of its column.
    The table is sorted by timestamp, nulls first.  The columns are the
    half-hour columns when the table has one; for a table without any they
    are what the polars release takes for an empty [on], every column or
    none. *)
Theorem reshaper_one_reading_per_cell :
  forall (eo : EmptyOn) (df : WideTable) (long : list LongRow),
    _transform_to_long_format eo df = Ok long ->
    List.length long
    = (List.length (value_columns eo df) * List.length (rows df))%nat
    /\ StronglySorted
         (fun a b => key_leb (l_timestamp a) (l_timestamp b) = true) long
    /\ (forall row,
          In row long <->
          exists name r,
            In name (value_columns eo df) /\ In r (rows df)
            /\ row = mkLongRow (cell_of name (col_names df) (cells r))
                       (reading_time (Date r) name))
    /\ (has_time_column df -> value_columns eo df = time_columns df)
    /\ (~ has_time_column df ->
        value_columns eo df
        = match eo with AllOtherColumns => col_names df | NoColumns => [] end).
Proof.
  intros eo df long Hrun. split; [|split; [|split; [|split]]].
  - rewrite (transform_returns _ _ Hrun), sort_length, length_map, unpivot_length.
    reflexivity.
  - rewrite (transform_returns _ _ Hrun). apply sort_sorted.
  - intros row. apply (@transform_rows eo df long row Hrun).
  - intros (name & Hin & Hmark). apply value_columns_with_time_column.
    intros Hnil.
    assert (Hf : In name (time_columns df)) by (apply filter_In; auto).
    rewrite Hnil in Hf. exact Hf.
  - intros Hnone. unfold value_columns, unpivoted.
    destruct (time_columns df) as [|n l] eqn:Ht; [reflexivity|].
    exfalso. apply Hnone. exists n.
    assert (Hf : In n (time_columns df)) by (rewrite Ht; left; reflexivity).
    apply filter_In in Hf. exact Hf.
Qed.

(** X2. Every timestamp of a returned long table that is not null lies on
    the calendar day of a row of the wide table, at a whole minute of that
    day: no column label moves a reading to another day. *)
Theorem reshaped_timestamp_on_its_day :
  forall (eo : EmptyOn) (df : WideTable) (long : list LongRow) (row : LongRow) (ts : Z),
    _transform_to_long_format eo df = Ok long ->
    In row long ->
    l_timestamp row = Some ts ->
    exists r,
      In r (rows df)
      /\ Date r * us_per_day <= ts < (Date r + 1) * us_per_day
      /\ (ts - Date r * us_per_day) mod (60 * us_per_second) = 0.
Proof.
  intros eo df long row ts Hrun Hrow Hts.
  apply (proj1 (@transform_rows eo df long row Hrun)) in Hrow.
  destruct Hrow as (name & r & _ & Hr & ->). exists r. split; [exact Hr|].
  cbn [l_timestamp] in Hts. unfold reading_time in Hts.
  destruct (str_extract_time name) as [t|]; [|discriminate].
  destruct (parse_time_12h t) as [us|] eqn:Hp; [|discriminate].
  injection Hts as <-.
  destruct (parse_time_12h_range _ Hp) as [Hrange Hmin].
  replace (Date r * us_per_day + us - Date r * us_per_day) with us by lia.
  split; [lia | exact Hmin].
Qed.

(* ------------------------------------------------------------------ *)
(** * More on the trimmer: when it returns, and what *)

Lemma filter_none {A : Type} (l : list A) : filter (fun _ => false) l = [].
Proof. induction l; simpl; auto. Qed.

Lemma trimmer_outcome (df : WideTable) :
  (trimmable df /\ exists out, drop_incomplete_dates df = Ok out)
  \/ (~ trimmable df /\ drop_incomplete_dates df = Raise ValueError).
Proof.
  unfold drop_incomplete_dates, trimmable. cbv zeta.
  destruct (col_max (map Date (rows df))) as [m|] eqn:Hmax.
  - change (fun r : WideRow => eq_filter (Some (Date r)) (Some m))
      with (fun r : WideRow => Date r =? m).
    destruct (filter (str_contains " PM") (col_names df)) as [|n ns] eqn:Hpm.
    + right. split; [|reflexivity].
      intros ((n & Hn & Hc) & _).
      assert (Hin : In n (filter (str_contains " PM") (col_names df)))
        by (apply filter_In; auto).
      rewrite Hpm in Hin. exact Hin.
    + assert (Hcol : exists n0, In n0 (col_names df) /\ str_contains " PM" n0 = true).
      { exists n. apply filter_In. rewrite Hpm. left. reflexivity. }
      destruct (filter (fun r => Date r =? m) (rows df)) as [|r [|r2 rest]] eqn:Hl.
      * right. split; [|reflexivity].
        intros (_ & m' & latest & [= <-] & Hf). rewrite Hl in Hf. discriminate.
      * left. split; [|simpl; eauto].
        split; [exact Hcol|]. exists m, r. auto.
      * right. split; [|reflexivity].
        intros (_ & m' & latest & [= <-] & Hf). rewrite Hl in Hf. discriminate.
  - right. split.
    + intros (_ & m & latest & Hm & _). discriminate.
    + change (fun r : WideRow => eq_filter (Some (Date r)) None)
        with (fun _ : WideRow => false).
      rewrite filter_none.
      destruct (filter (str_contains " PM") (col_names df)); reflexivity.
Qed.

Lemma trimmer_returns_iff (df : WideTable) :
  (exists out, drop_incomplete_dates df = Ok out) <-> trimmable df.
Proof.
  destruct (trimmer_outcome df) as [(Ht & Hok)|(Hnt & Hr)].
  - split; auto.
  - split; [|contradiction]. intros (out & Ho). rewrite Hr in Ho. discriminate.
Qed.

(** X3. When the trimmer returns, the table has exactly one row of the
    latest date and the result is the table itself or the table without
    that row: the header is kept, no row of an earlier date is removed and
    no row is added or changed. *)
Theorem trimmer_removes_at_most_latest_row :
  forall (df out : WideTable),
    drop_incomplete_dates df = Ok out ->
    col_names out = col_names df
    /\ exists m latest,
         col_max (map Date (rows df)) = Some m
         /\ (forall x, In x (rows df) -> Date x <= m)
         /\ filter (fun x => Date x =? m) (rows df) = [latest]
         /\ (rows out = rows df
             \/ rows out = filter (fun x => Date x <? m) (rows df))
         /\ (forall x, In x (rows df) -> Date x < m -> In x (rows out)).
Proof.
  intros df out Hrun.
  destruct (proj1 (trimmer_returns_iff df) (ex_intro _ out Hrun))
    as (_ & m & latest & Hmax & Hlatest).
  assert (Hle : forall x, In x (rows df) -> Date x <= m).
  { intros x Hx. unfold col_max in Hmax.
    destruct (map Date (rows df)) as [|d l] eqn:Hl; [discriminate|].
    injection Hmax as <-.
    destruct (fold_max_bounds l d) as (_ & Hge & Hall).
    assert (Hin : In (Date x) (d :: l)) by (rewrite <- Hl; apply in_map; exact Hx).
    destruct Hin as [<-|Hin]; [exact Hge | apply Hall, Hin]. }
  assert (Hne : filter (fun r => ne_filter (Some (Date r)) (Some m)) (rows df)
                = filter (fun x => Date x <? m) (rows df)).
  { apply filter_ext_in. intros x Hx. specialize (Hle x Hx). unfold ne_filter.
    destruct (Z.eqb_spec (Date x) m); destruct (Z.ltb_spec (Date x) m);
      simpl; auto; lia. }
  revert Hrun. unfold drop_incomplete_dates. cbv zeta. rewrite Hmax, Hne.
  destruct (item _) as [total|]; simpl; [|discriminate].
  intros [= <-].
  destruct (Qeq_bool total 0); cbn [col_names rows].
  - split; [reflexivity|]. exists m, latest. repeat split; auto.
    intros x Hx Hlt. apply filter_In. split; [exact Hx|]. apply Z.ltb_lt. exact Hlt.
  - split; [reflexivity|]. exists m, latest. repeat split; auto.
Qed.

(** X4. [_clean] returns exactly when both tables are trimmable, and then
    with the two trimmed tables; in every other case it raises, and the
    exception is always RuntimeError, whatever the trimmer raised. *)
Theorem clean_returns_iff_both_trimmable :
  forall (data : RawUsageData),
    (forall cleaned,
        _clean data = Ok cleaned <->
        drop_incomplete_dates (power_df data) = Ok (power_df cleaned)
        /\ drop_incomplete_dates (energy_df data) = Ok (energy_df cleaned))
    /\ ((exists cleaned, _clean data = Ok cleaned) <->
        trimmable (power_df data) /\ trimmable (energy_df data))
    /\ (_clean data = Raise RuntimeError <->
        ~ (trimmable (power_df data) /\ trimmable (energy_df data)))
    /\ (forall e, _clean data = Raise e -> e = RuntimeError).
Proof.
  intros data. unfold _clean.
  destruct (trimmer_outcome (power_df data)) as [(Htp & p & Hp)|(Hntp & Hp)];
    rewrite Hp; simpl.
  - destruct (trimmer_outcome (energy_df data)) as [(Hte & e & He)|(Hnte & He)];
      rewrite He; simpl.
    + split; [|split; [|split]].
      * intros [pc ec]; simpl. split.
        -- intros [= <- <-]. auto.
        -- intros [[= <-] [= <-]]. reflexivity.
      * split; [auto | eauto].
      * split; [discriminate|]. intros Hn. exfalso. apply Hn. auto.
      * discriminate.
    + split; [|split; [|split]].
      * intros cleaned. split; [discriminate | intros [_ Hc]; discriminate].
      * split; [intros (c & Hc); discriminate | intros [_ Hc]; contradiction].
      * split; [intros _ [_ Hc]; contradiction | reflexivity].
      * intros e0 [= <-]. reflexivity.
  - split; [|split; [|split]].
    + intros cleaned. split; [discriminate | intros [Hc _]; discriminate].
    + split; [intros (c & Hc); discriminate | intros [Hc _]; contradiction].
    + split; [intros _ [Hc _]; contradiction | reflexivity].
    + intros e0 [= <-]. reflexivity.
Qed.

(* ------------------------------------------------------------------ *)
(** * More on the join and on DST resolution *)

Lemma eq_filter_true (a b : option Z) :
  eq_filter a b = true <-> exists t, a = Some t /\ b = Some t.
Proof.
  unfold eq_filter. destruct a as [x|], b as [y|]; split;
    try discriminate; try (intros (t & Ha & Hb); discriminate).
  - intros H. apply Z.eqb_eq in H. subst y. eauto.
  - intros (t & [= ->] & [= ->]). apply Z.eqb_refl.
Qed.

Lemma flat_map_length_le {A B : Type} (f : A -> list B) (l : list A) :
  (forall a, In a l -> (List.length (f a) <= 1)%nat) ->
  (List.length (flat_map f l) <= List.length l)%nat.
Proof.
  induction l as [|a l IH]; simpl; intros Hf; [lia|].
  rewrite length_app.
  assert (List.length (f a) <= 1)%nat by (apply Hf; left; reflexivity).
  assert (List.length (flat_map f l) <= List.length l)%nat
    by (apply IH; intros x Hx; apply Hf; right; exact Hx).
  lia.
Qed.

Lemma unique_key_matches (right : list LongRow) (k : option Z) :
  NoDup (map l_timestamp (filter not_null right)) ->
  (List.length (filter (fun e => eq_filter (l_timestamp e) k) right) <= 1)%nat.
Proof.
  induction right as [|e right IH]; cbn [filter]; intros Hnd; [simpl; lia|].
  unfold not_null in Hnd. cbn [ts_of LongRow_ts] in Hnd.
  destruct (l_timestamp e) as [x|] eqn:He.
  - cbn [map] in Hnd. rewrite He in Hnd. inversion Hnd as [|? ? Hnotin Hnd']; subst.
    destruct (eq_filter (Some x) k) eqn:Heq; [|apply IH; exact Hnd'].
    apply eq_filter_true in Heq. destruct Heq as (t & [= <-] & ->).
    assert (Hnone : filter (fun e0 => eq_filter (l_timestamp e0) (Some x)) right = []).
    { clear - Hnotin. induction right as [|y right IH]; cbn [filter]; [reflexivity|].
      cbn [filter] in Hnotin. unfold not_null in Hnotin. cbn [ts_of LongRow_ts] in Hnotin.
      destruct (l_timestamp y) as [z|] eqn:Hy.
      - cbn [map] in Hnotin. rewrite Hy in Hnotin.
        destruct (eq_filter (Some z) (Some x)) eqn:Hzx.
        + apply eq_filter_true in Hzx. destruct Hzx as (t & [= ->] & [= ->]).
          exfalso. apply Hnotin. left. reflexivity.
        + apply IH. intros Hin. apply Hnotin. right. exact Hin.
      - cbn [eq_filter]. apply IH. exact Hnotin. }
    rewrite Hnone. simpl. lia.
  - cbn [eq_filter]. apply IH. exact Hnd.
Qed.

(** X5. The joined table holds exactly the pairs of a power row and an
    energy row with one and the same timestamp that is not null, so no row
    of the join has a null timestamp; when no timestamp stands twice in the
    energy table, the join has at most as many rows as the power table. *)
Theorem inner_join_pairs_equal_timestamps :
  forall (left right : list LongRow),
    (forall r,
        In r (inner_join left right) <->
        exists p e t,
          In p left /\ In e right
          /\ l_timestamp p = Some t /\ l_timestamp e = Some t
          /\ r = mkReading (Some t) (value p) (value e))
    /\ (forall r, In r (inner_join left right) -> timestamp r <> None)
    /\ (NoDup (map l_timestamp (filter not_null right)) ->
        (List.length (inner_join left right) <= List.length left)%nat).
Proof.
  intros left right.
  assert (Hmem : forall r,
             In r (inner_join left right) <->
             exists p e t,
               In p left /\ In e right
               /\ l_timestamp p = Some t /\ l_timestamp e = Some t
               /\ r = mkReading (Some t) (value p) (value e)).
  { intros r. unfold inner_join. rewrite in_flat_map. split.
    - intros (p & Hp & Hr). apply in_map_iff in Hr. destruct Hr as (e & <- & He).
      apply filter_In in He. destruct He as [He Heq].
      apply eq_filter_true in Heq. destruct Heq as (t & Hte & Htp).
      exists p, e, t. rewrite Htp. auto.
    - intros (p & e & t & Hp & He & Htp & Hte & ->). exists p. split; [exact Hp|].
      apply in_map_iff. exists e. rewrite Htp. split; [reflexivity|].
      apply filter_In. split; [exact He|]. apply eq_filter_true. eauto. }
  split; [exact Hmem|]. split.
  - intros r Hr. apply Hmem in Hr.
    destruct Hr as (p & e & t & _ & _ & _ & _ & ->). discriminate.
  - intros Hnd. unfold inner_join. apply flat_map_length_le.
    intros p _. rewrite length_map. apply unique_key_matches. exact Hnd.
Qed.

Lemma filter_length_all {A : Type} (f : A -> bool) (l : list A) :
  (List.length (filter f l) <= List.length l)%nat
  /\ (List.length (filter f l) = List.length l <-> forall x, In x l -> f x = true).
Proof.
  induction l as [|a l [IHle IHeq]]; simpl.
  - split; [lia|]. split; [intros _ x [] | reflexivity].
  - destruct (f a) eqn:Hfa; simpl.
    + split; [lia|]. split.
      * intros Hlen x [<-|Hx]; [exact Hfa|]. apply IHeq; [lia | exact Hx].
      * intros Hall. f_equal. apply IHeq. intros x Hx. apply Hall. right. exact Hx.
    + split; [lia|]. split; [lia|].
      intros Hall. rewrite Hall in Hfa by (left; reflexivity). discriminate.
Qed.

(** X6. DST resolution always returns, with at most as many rows as it
    was given; it keeps every row (and logs no warning about lost
    timestamps) exactly when every timestamp is a wall clock that the zone
    shows at some instant. *)
Theorem handle_dst_keeps_all_iff_no_gap_no_null :
  forall (tz : TimeZone) (df : list Reading),
  exists final_df,
    _handle_dst tz df = Ok final_df
    /\ (List.length final_df <= List.length df)%nat
    /\ (List.length final_df = List.length df <->
        forall r, In r df -> exists n t, timestamp r = Some n /\ to_local tz t = n).
Proof.
  intros tz df. rewrite handle_dst_eq. eexists. split; [reflexivity|].
  set (g := fun r : Reading => with_ts (resolve_earliest tz (ts_of r)) r).
  destruct (filter_length_all not_null (map g df)) as [Hle Heq].
  rewrite length_map in Hle, Heq. split; [exact Hle|].
  rewrite Heq. split.
  - intros Hall r Hr.
    assert (Hg : not_null (g r) = true) by (apply Hall, in_map, Hr).
    unfold g, not_null in Hg. rewrite ts_with_ts in Hg.
    destruct (resolve_earliest tz (ts_of r)) as [t|] eqn:Hres; [|discriminate].
    apply resolve_earliest_some in Hres. destruct Hres as (n & Hn & He & _).
    exists n, t. auto.
  - intros Hall x Hx. apply in_map_iff in Hx. destruct Hx as (r & <- & Hr).
    destruct (Hall r Hr) as (n & t & Hn & Ht).
    unfold g, not_null. rewrite ts_with_ts.
    destruct (resolve_earliest tz (ts_of r)) as [t'|] eqn:Hres; [reflexivity|].
    exfalso. cbn [ts_of Reading_ts] in Hres. rewrite Hn in Hres.
    exact (@resolve_earliest_none tz n Hres t Ht).
Qed.

(** X7. In a zone without transitions DST resolution is a shift: every
    row with a timestamp is kept, in order, with its wall clock less the
    offset of the zone. *)
Theorem handle_dst_fixed_offset_is_a_shift :
  forall (tz : TimeZone) (df : list Reading),
    transitions tz = [] ->
    _handle_dst tz df
    = Ok (map (fun r => with_ts (option_map (fun n => n - initial_offset tz)
                                   (timestamp r)) r)
            (filter not_null df)).
Proof.
  intros tz df Hfixed. rewrite handle_dst_eq. f_equal.
  induction df as [|r df IH]; [reflexivity|].
  cbn [map filter]. rewrite IH.
  unfold not_null. rewrite ts_with_ts. cbn [ts_of Reading_ts].
  unfold resolve_earliest. rewrite Hfixed.
  destruct (timestamp r) as [n|] eqn:Ht; cbn; rewrite ?Ht; reflexivity.
Qed.

(* ------------------------------------------------------------------ *)
(** * More on the merger: the series it builds *)

Lemma chain_starts (l : Store) :
  forall q, chain q l -> forall r, In r l -> row_start q < row_start r.
Proof.
  induction l as [|x l IH]; intros q Hc r Hr; [destruct Hr|].
  destruct Hc as (Hlt & _ & Hc). destruct Hr as [<-|Hr]; [exact Hlt|].
  specialize (IH x Hc r Hr). lia.
Qed.

Lemma last_cons_default {A : Type} (l : list A) :
  forall x q, last (x :: l) q = last l x.
Proof.
  induction l as [|a l IH]; intros x q; [reflexivity|].
  change (last (x :: a :: l) q) with (last (a :: l) q).
  rewrite (IH a q), (IH a x). reflexivity.
Qed.

Lemma chain_app (l1 l2 : Store) :
  forall q, chain q (l1 ++ l2) <-> chain q l1 /\ chain (last l1 q) l2.
Proof.
  induction l1 as [|x l1 IH]; intros q.
  - simpl. tauto.
  - change (chain q ((x :: l1) ++ l2))
      with (row_start q < row_start x
            /\ (row_sum x == row_sum q + row_state x)%Q /\ chain x (l1 ++ l2)).
    rewrite IH.
    rewrite last_cons_default. cbn [chain]. tauto.
Qed.

Lemma series_last_is_latest (init : Store) (p : StatisticsRow) :
  series_ok (init ++ [p]) -> forall r, In r init -> row_start r < row_start p.
Proof.
  destruct init as [|x init]; [intros _ r []|].
  change (series_ok ((x :: init) ++ [p])) with (chain x (init ++ [p])).
  revert x. induction init as [|y init IH]; intros x Hc r Hr.
  - destruct Hr as [<-|[]]. destruct Hc as (Hlt & _). exact Hlt.
  - destruct Hc as (Hlt & _ & Hc).
    destruct Hr as [<-|Hr].
    + assert (row_start y < row_start p) by (apply (IH y Hc); left; reflexivity).
      lia.
    + apply (IH y Hc r Hr).
Qed.

Lemma upsert_append (q : StatisticsRow) (store : Store) :
  (forall r, In r store -> row_start r < row_start q) ->
  upsert q store = store ++ [q].
Proof.
  induction store as [|r store IH]; intros Hlt; [reflexivity|].
  assert (Hr : row_start r < row_start q) by (apply Hlt; left; reflexivity).
  cbn [upsert].
  destruct (Z.eqb_spec (row_start q) (row_start r)); [lia|].
  destruct (Z.ltb_spec (row_start q) (row_start r)); [lia|].
  rewrite IH by (intros x Hx; apply Hlt; right; exact Hx). reflexivity.
Qed.

(** The points built from [usage] when the running sum stands at [acc]. *)
Lemma emitted_cons (b : Reading) (usage : list Reading) (acc base_sum : Q) :
  map _create_statistic_data
    (combine (b :: usage)
       (map (fun c => (c + base_sum)%Q) (cum_sum_from acc (map energy_kwh (b :: usage)))))
  = mkStatisticData (timestamp b) (energy_kwh b) (acc + energy_kwh b + base_sum)%Q
    :: map _create_statistic_data
         (combine usage
            (map (fun c => (c + base_sum)%Q)
               (cum_sum_from (acc + energy_kwh b)%Q (map energy_kwh usage)))).
Proof. reflexivity. Qed.

Section Series.

Variable base_sum : Q.

Let points (acc : Q) (usage : list Reading) : list StatisticData :=
  map _create_statistic_data
    (combine usage
       (map (fun c => (c + base_sum)%Q) (cum_sum_from acc (map energy_kwh usage)))).

Let later_than (bound : Z) (usage : list Reading) : Prop :=
  forall b, In b usage -> exists t, timestamp b = Some t /\ bound < t.

Let hours_ascend (usage : list Reading) : Prop :=
  StronglySorted (fun a b => key_lt (timestamp a) (timestamp b)) usage.

Lemma points_starts (usage : list Reading) :
  forall acc, map start (points acc usage) = map timestamp usage.
Proof.
  induction usage as [|b usage IH]; intros acc; [reflexivity|].
  unfold points. rewrite emitted_cons. cbn [map start]. f_equal. apply IH.
Qed.

Lemma points_states (usage : list Reading) :
  forall acc, map state (points acc usage) = map energy_kwh usage.
Proof.
  induction usage as [|b usage IH]; intros acc; [reflexivity|].
  unfold points. rewrite emitted_cons. cbn [map state]. f_equal. apply IH.
Qed.

Lemma points_chain (usage : list Reading) :
  forall acc q,
    (row_sum q == acc + base_sum)%Q ->
    later_than (row_start q) usage ->
    hours_ascend usage ->
    chain q (rows_of (points acc usage)).
Proof.
  induction usage as [|b usage IH]; intros acc q Hq Hlater Hsorted; [exact I|].
  unfold points. rewrite emitted_cons.
  destruct (Hlater b (or_introl eq_refl)) as (t & Ht & Hlt).
  unfold rows_of. cbn [flat_map start state sum]. rewrite Ht.
  cbn [app chain row_start row_sum row_state].
  split; [exact Hlt|]. split; [rewrite Hq; ring|].
  apply (IH (acc + energy_kwh b)%Q (mkStatisticsRow t (energy_kwh b)
                                      (acc + energy_kwh b + base_sum)%Q)).
  - reflexivity.
  - intros b' Hb'. inversion Hsorted as [|? ? _ Hall]; subst.
    rewrite Forall_forall in Hall. destruct (Hall b' Hb') as [Hle Hne].
    destruct (Hlater b' (or_intror Hb')) as (t' & Ht' & _).
    exists t'. split; [exact Ht'|]. rewrite Ht, Ht' in Hle, Hne. cbn in Hle.
    apply Z.leb_le in Hle. cbn [row_start].
    assert (t <> t') by congruence. lia.
  - inversion Hsorted; assumption.
Qed.

Lemma points_all_started (usage : list Reading) :
  forall acc,
    (forall b, In b usage -> timestamp b <> None) ->
    forallb (fun d => match start d with Some _ => true | None => false end)
      (points acc usage) = true.
Proof.
  induction usage as [|b usage IH]; intros acc Hall; [reflexivity|].
  unfold points. rewrite emitted_cons. cbn [forallb start].
  destruct (timestamp b) eqn:Hb;
    [|exfalso; apply (Hall b (or_introl eq_refl)); exact Hb].
  apply IH. intros b' Hb'. apply Hall. right. exact Hb'.
Qed.

Lemma points_append (usage : list Reading) :
  forall acc store,
    (forall r, In r store -> later_than (row_start r) usage) ->
    hours_ascend usage ->
    fold_left
      (fun st d =>
         match start d with
         | Some t => upsert (mkStatisticsRow t (state d) (sum d)) st
         | None => st
         end)
      (points acc usage) store
    = store ++ rows_of (points acc usage).
Proof.
  induction usage as [|b usage IH]; intros acc store Hlater Hsorted.
  - simpl. rewrite app_nil_r. reflexivity.
  - unfold points. rewrite emitted_cons. cbn [fold_left start state sum].
    unfold rows_of. cbn [flat_map start state sum].
    destruct (timestamp b) as [t|] eqn:Ht.
    + rewrite upsert_append.
      * fold (points (acc + energy_kwh b)%Q usage).
        rewrite (IH (acc + energy_kwh b)%Q).
        -- rewrite <- app_assoc. reflexivity.
        -- intros r Hr b' Hb'. apply in_app_iff in Hr.
           destruct Hr as [Hr|[<-|[]]].
           ++ apply (Hlater r Hr). right. exact Hb'.
           ++ inversion Hsorted as [|? ? _ Hall]; subst.
              rewrite Forall_forall in Hall. destruct (Hall b' Hb') as [Hle Hne].
              rewrite Ht in Hle, Hne.
              destruct (timestamp b') as [t'|] eqn:Ht'; [|discriminate].
              exists t'. split; [reflexivity|]. cbn in Hle.
              apply Z.leb_le in Hle. cbn [row_start].
              assert (t <> t') by congruence. lia.
        -- inversion Hsorted; assumption.
      * intros r Hr. destruct (Hlater r Hr b (or_introl eq_refl)) as (t0 & Ht0 & Hlt).
        rewrite Ht in Ht0. injection Ht0 as <-. exact Hlt.
    + destruct store as [|r store].
      * (* nothing persisted: the rows after a null start still ascend *)
        fold (points (acc + energy_kwh b)%Q usage).
        rewrite (IH (acc + energy_kwh b)%Q []); [reflexivity| |].
        -- intros r [].
        -- inversion Hsorted; assumption.
      * exfalso.
        destruct (Hlater r (or_introl eq_refl) b (or_introl eq_refl)) as (t0 & Ht0 & _).
        rewrite Ht in Ht0. discriminate.
Qed.

End Series.

Lemma filter_sorted {A : Type} (R : A -> A -> Prop) (f : A -> bool) (l : list A) :
  StronglySorted R l -> StronglySorted R (filter f l).
Proof.
  induction 1 as [|a l Hs IH Hall]; simpl; [constructor|].
  destruct (f a); [|exact IH]. constructor; [exact IH|].
  rewrite Forall_forall in *. intros x Hx. apply filter_In in Hx. apply Hall, Hx.
Qed.

Lemma kept_rows_later (cs : Z) (hourly_df : list Reading) (b : Reading) :
  In b (filter (fun r => gt_filter (timestamp r) (Some cs)) hourly_df) ->
  exists t, timestamp b = Some t /\ cs < t.
Proof.
  intros Hb. apply filter_In in Hb. destruct Hb as [_ Hgt].
  unfold gt_filter in Hgt. destruct (timestamp b) as [t|]; [|discriminate].
  exists t. split; [reflexivity|]. apply Z.ltb_lt. exact Hgt.
Qed.

(** ** The last statement: the call of the recorder *)

Lemma insert_statistics_run (tz : TimeZone) (store : Store) (now_wall : Z)
    (data : list Reading) :
  _insert_statistics tz store now_wall data
  = (stats <- statistics_to_add tz store now_wall data ;;
     match stats with
     | [] => Ok store
     | _ => async_add_external_statistics store stats
     end).
Proof.
  unfold _insert_statistics, statistics_to_add.
  destruct (process_for_statistics tz data) as [hourly|]; cbn [bind]; [|reflexivity].
  destruct (correction_window tz store now_wall hourly) as [[usage base]|];
    cbn [bind]; [|reflexivity].
  destruct usage; reflexivity.
Qed.

(** A run raises what the building of the list raises; with a list, it
    returns after the import when every point has a start, and raises
    AttributeError in the call when one has none. *)
Lemma insert_statistics_outcome (tz : TimeZone) (store : Store) (now_wall : Z)
    (data : list Reading) :
  match statistics_to_add tz store now_wall data with
  | Raise e => _insert_statistics tz store now_wall data = Raise e
  | Ok stats =>
      if forallb (fun d => match start d with Some _ => true | None => false end) stats
      then _insert_statistics tz store now_wall data
           = Ok (store_after store (Ok stats))
      else _insert_statistics tz store now_wall data = Raise Py.AttributeError
  end.
Proof.
  rewrite insert_statistics_run.
  destruct (statistics_to_add tz store now_wall data) as [stats|e];
    cbn [bind]; [|reflexivity].
  unfold store_after, async_add_external_statistics.
  destruct stats as [|d stats]; [reflexivity|].
  destruct (forallb _ (d :: stats)); reflexivity.
Qed.

Lemma emitted_started (usage : list Reading) (base_sum : Q) :
  forallb (fun d => match start d with Some _ => true | None => false end)
    (emitted usage base_sum)
  = forallb (fun r => match timestamp r with Some _ => true | None => false end) usage.
Proof.
  unfold emitted, cum_sum. generalize 0%Q.
  induction usage as [|b usage IH]; intros acc; [reflexivity|].
  rewrite emitted_cons. cbn [forallb start]. rewrite IH. reflexivity.
Qed.

Lemma forallb_false {A : Type} (f : A -> bool) (l : list A) :
  forallb f l = false -> exists x, In x l /\ f x = false.
Proof.
  induction l as [|a l IH]; simpl; [discriminate|].
  destruct (f a) eqn:Hfa; simpl.
  - intros Hl. destruct (IH Hl) as (x & Hx & Hfx). exists x. auto.
  - intros _. exists a. auto.
Qed.

(** On a series with a last point every point of the list has a start: the
    filter of the window drops the rows without timestamp. *)
Lemma later_run_outcome (tz : TimeZone) (init : Store) (p : StatisticsRow)
    (now_wall : Z) (data : list Reading) :
  match statistics_to_add tz (init ++ [p]) now_wall data with
  | Raise e => _insert_statistics tz (init ++ [p]) now_wall data = Raise e
  | Ok stats =>
      _insert_statistics tz (init ++ [p]) now_wall data
      = Ok (store_after (init ++ [p]) (Ok stats))
  end.
Proof.
  pose proof (insert_statistics_outcome tz (init ++ [p]) now_wall data) as Hout.
  rewrite statistics_to_add_unfold, correction_window_with_last in *.
  destruct (filter _ (init ++ [p])) as [|x found]; [exact Hout|].
  cbn [bind fst snd] in *. rewrite emitted_started in Hout.
  match type of Hout with
  | (if ?c then _ else _) => assert (Hall : c = true)
  end.
  { apply forallb_forall. intros b Hb.
    destruct (kept_rows_later _ _ _ Hb) as (t & Ht & _). rewrite Ht. reflexivity. }
  rewrite Hall in Hout. exact Hout.
Qed.

(** On an empty series the list holds every hour of the table, and the
    call raises exactly when a reading has no timestamp. *)
Lemma first_run_outcome (tz : TimeZone) (now_wall : Z) (data : list Reading) :
  let stats := emitted (hourly_table tz data) 0%Q in
  statistics_to_add tz [] now_wall data = Ok stats
  /\ ((forall r, In r data -> timestamp r <> None) ->
      _insert_statistics tz [] now_wall data = Ok (rows_of stats))
  /\ ((exists r, In r data /\ timestamp r = None) ->
      _insert_statistics tz [] now_wall data = Raise Py.AttributeError).
Proof.
  cbv zeta.
  assert (Hstats : statistics_to_add tz [] now_wall data
                   = Ok (emitted (hourly_table tz data) 0%Q)).
  { rewrite statistics_to_add_unfold, correction_window_first_run. reflexivity. }
  split; [exact Hstats|].
  pose proof (insert_statistics_outcome tz [] now_wall data) as Hout.
  rewrite Hstats, emitted_started in Hout.
  split.
  - intros Hall.
    assert (Hst : forallb (fun r => match timestamp r with Some _ => true | None => false end)
                    (hourly_table tz data) = true).
    { apply forallb_forall. intros b Hb.
      destruct (timestamp b) eqn:Hnull; [reflexivity|]. exfalso.
      destruct (proj1 (hourly_table_null tz data) (ex_intro _ b (conj Hb Hnull)))
        as (r & Hr & Hnone).
      exact (Hall r Hr Hnone). }
    rewrite Hst in Hout. rewrite Hout. f_equal.
    unfold store_after, async_add_external_statistics.
    rewrite emitted_started, Hst. unfold emitted, cum_sum.
    apply (@points_append 0%Q (hourly_table tz data) 0%Q []).
    + intros r [].
    + apply hourly_table_sorted.
  - intros Hnull.
    destruct (proj2 (hourly_table_null tz data) Hnull) as (b & Hb & Hnone).
    destruct (forallb _ (hourly_table tz data)) eqn:Hst; [|exact Hout].
    exfalso. rewrite forallb_forall in Hst. specialize (Hst b Hb).
    rewrite Hnone in Hst. discriminate.
Qed.

(** X8. The first run (nothing persisted yet) builds one point per hour
    of the hourly table, in its order, and the sum of the last point is the
    total energy of the readings.  When every reading has a timestamp the
    run returns and the recorder holds these points; when one has none the
    call of the recorder raises AttributeError. *)
Theorem first_run_covers_all_energy :
  forall (tz : TimeZone) (now_wall : Z) (data : list Reading),
  exists stats,
    statistics_to_add tz [] now_wall data = Ok stats
    /\ map start stats = map timestamp (hourly_table tz data)
    /\ map state stats = map energy_kwh (hourly_table tz data)
    /\ running_from 0%Q stats
    /\ (forall init d, stats = init ++ [d] -> (sum d == total_energy data)%Q)
    /\ ((forall r, In r data -> timestamp r <> None) ->
        _insert_statistics tz [] now_wall data = Ok (rows_of stats))
    /\ ((exists r, In r data /\ timestamp r = None) ->
        _insert_statistics tz [] now_wall data = Raise Py.AttributeError).
Proof.
  intros tz now_wall data.
  destruct (first_run_outcome tz now_wall data) as (Hstats & Hreturns & Hraises).
  exists (emitted (hourly_table tz data) 0%Q). split; [exact Hstats|].
  destruct (emitted_points (hourly_table tz data) 0%Q) as [Hlen Hpts].
  split; [apply (points_starts 0%Q (hourly_table tz data) 0%Q)|].
  split; [|split; [|split; [|split]]].
  - apply (points_states 0%Q (hourly_table tz data) 0%Q).
  - apply emitted_running.
  - intros init d Hst.
    assert (Hd : nth_error (emitted (hourly_table tz data) 0%Q) (List.length init)
                 = Some d).
    { rewrite Hst, nth_error_app2, Nat.sub_diag by lia. reflexivity. }
    assert (Hn : S (List.length init) = List.length (hourly_table tz data)).
    { rewrite <- Hlen, Hst, length_app. simpl. lia. }
    destruct (nth_error (hourly_table tz data) (List.length init)) as [r|] eqn:Hr.
    + destruct (Hpts _ r d Hr Hd) as (_ & _ & Hsum).
      rewrite Hsum, Hn, firstn_all.
      pose proof (hourly_table_energy tz data) as He. unfold total_energy in He.
      unfold total_energy. rewrite He. ring.
    + apply nth_error_None in Hr. lia.
  - exact Hreturns.
  - exact Hraises.
Qed.

(** X9. A run on a well-formed series whose correction start is its last
    point returns; every point it emits starts after that last point, the
    recorder keeps all it had and takes the new rows at its end, and the
    series is well formed again, the first new sum continuing the last
    persisted one.  The run as a whole returns with that series. *)
Theorem run_extends_a_well_formed_series :
  forall (tz : TimeZone) (init : Store) (p : StatisticsRow) (now_wall : Z)
         (data : list Reading),
    let store := init ++ [p] in
    series_ok store ->
    correction_start_instant tz (row_start p) now_wall = row_start p ->
    exists stats,
      statistics_to_add tz store now_wall data = Ok stats
      /\ (forall d, In d stats -> exists t, start d = Some t /\ row_start p < t)
      /\ running_from (row_sum p) stats
      /\ store_after store (Ok stats) = store ++ rows_of stats
      /\ series_ok (store_after store (Ok stats))
      /\ _insert_statistics tz store now_wall data = Ok (store ++ rows_of stats).
Proof.
  intros tz init p now_wall data store Hok Hcs.
  pose proof (@merge_on_last_persisted_sum tz init p now_wall data) as Hrun.
  cbv zeta in Hrun. rewrite Hcs in Hrun. specialize (Hrun (Z.le_refl _)).
  set (kept := filter (fun r => gt_filter (timestamp r) (Some (row_start p)))
                 (hourly_table tz data)) in *.
  assert (Hlater : forall b, In b kept -> exists t, timestamp b = Some t /\ row_start p < t)
    by (intros b Hb; apply (kept_rows_later _ _ _ Hb)).
  assert (Hsorted : StronglySorted (fun a b => key_lt (timestamp a) (timestamp b)) kept)
    by (apply filter_sorted, hourly_table_sorted).
  assert (Hlast : forall r, In r store -> row_start r <= row_start p).
  { intros r Hr. apply in_app_iff in Hr. destruct Hr as [Hr|[<-|[]]]; [|lia].
    pose proof (series_last_is_latest init p Hok r Hr). lia. }
  assert (Happ : store_after store (Ok (emitted kept (row_sum p)))
                 = store ++ rows_of (emitted kept (row_sum p))).
  { unfold store_after, async_add_external_statistics, emitted, cum_sum.
    rewrite points_all_started.
    - apply points_append; [|exact Hsorted].
      intros r Hr b Hb. destruct (Hlater b Hb) as (t & Ht & Hlt).
      exists t. split; [exact Ht|]. specialize (Hlast r Hr). lia.
    - intros b Hb. destruct (Hlater b Hb) as (t & Ht & _). congruence. }
  exists (emitted kept (row_sum p)). split; [exact Hrun|].
  split; [|split; [|split; [|split]]].
  5:{ pose proof (later_run_outcome tz init p now_wall data) as Hfull.
      rewrite Hrun in Hfull. unfold store at 1. rewrite Hfull. f_equal. exact Happ. }
  - intros d Hd.
    assert (Hs : In (start d) (map timestamp kept)).
    { unfold emitted, cum_sum in Hd. rewrite <- (points_starts (row_sum p) kept 0%Q).
      apply in_map. exact Hd. }
    apply in_map_iff in Hs. destruct Hs as (b & Hb & Hin).
    destruct (Hlater b Hin) as (t & Ht & Hlt). exists t. split; [congruence | exact Hlt].
  - apply emitted_running.
  - exact Happ.
  - rewrite Happ. unfold store. rewrite <- app_assoc.
    assert (Hchain : chain p (rows_of (emitted kept (row_sum p)))).
    { unfold emitted, cum_sum. apply points_chain; [ring | exact Hlater | exact Hsorted]. }
    destruct init as [|x init].
    + exact Hchain.
    + change (chain x (init ++ [p] ++ rows_of (emitted kept (row_sum p)))).
      change (series_ok ((x :: init) ++ [p])) with (chain x (init ++ [p])) in Hok.
      apply chain_app. apply chain_app in Hok. destruct Hok as [Hinit Hp].
      split; [exact Hinit|]. cbn [app chain]. cbn [chain] in Hp.
      destruct Hp as (H1 & H2 & _). auto.
Qed.

(* ------------------------------------------------------------------ *)
(** * More on the merger: when a run fails *)

Lemma filter_nil_iff {A : Type} (f : A -> bool) (l : list A) :
  filter f l = [] <-> forall x, In x l -> f x = false.
Proof.
  induction l as [|a l IH]; simpl.
  - split; [intros _ x [] | reflexivity].
  - destruct (f a) eqn:Hfa.
    + split; [discriminate|]. intros Hall.
      rewrite Hall in Hfa by (left; reflexivity). discriminate.
    + rewrite IH. split.
      * intros Hall x [<-|Hx]; [exact Hfa | apply Hall, Hx].
      * intros Hall x Hx. apply Hall. right. exact Hx.
Qed.

Lemma run_outcome (tz : TimeZone) (init : Store) (p : StatisticsRow)
    (now_wall : Z) (data : list Reading) :
  let store := init ++ [p] in
  let cs := correction_start_instant tz (row_start p) now_wall in
  ((forall r, In r store -> row_start r < cs)
   /\ statistics_to_add tz store now_wall data = Raise KeyError)
  \/ ((exists r, In r store /\ cs <= row_start r)
      /\ exists stats, statistics_to_add tz store now_wall data = Ok stats).
Proof.
  cbv zeta. rewrite statistics_to_add_unfold.
  pose proof (@correction_window_with_last tz init p now_wall (hourly_table tz data))
    as Hw. cbv zeta in Hw. rewrite Hw. clear Hw.
  destruct (filter _ (init ++ [p])) as [|x found] eqn:Hf.
  - left. split; [|reflexivity].
    intros r Hr. apply (proj1 (filter_nil_iff _ _) Hf) in Hr.
    apply Z.leb_gt in Hr. exact Hr.
  - right. split; [|cbn [bind]; eauto].
    exists x. assert (Hx : In x (x :: found)) by (left; reflexivity).
    rewrite <- Hf in Hx. apply filter_In in Hx. destruct Hx as [Hx Hle].
    split; [exact Hx|]. apply Z.leb_le. exact Hle.
Qed.

Lemma run_raises_only_key_error (tz : TimeZone) (store : Store) (now_wall : Z)
    (data : list Reading) (e : exn) :
  statistics_to_add tz store now_wall data = Raise e ->
  e = KeyError /\ store <> [].
Proof.
  induction store as [|p init _] using rev_ind.
  - rewrite statistics_to_add_unfold, correction_window_first_run. discriminate.
  - intros He.
    destruct (run_outcome tz init p now_wall data) as [(_ & Hr)|(_ & stats & Ho)].
    + rewrite Hr in He. injection He as <-. split; [reflexivity|].
      intros Hnil. apply app_eq_nil in Hnil. destruct Hnil as [_ Hnil]. discriminate.
    + rewrite Ho in He. discriminate.
Qed.

(** The exceptions of a whole run: KeyError from the window of a series
    that is not empty, AttributeError from the call on an empty series when
    a reading has no timestamp. *)
Lemma run_raises_only (tz : TimeZone) (store : Store) (now_wall : Z)
    (data : list Reading) (e : exn) :
  _insert_statistics tz store now_wall data = Raise e ->
  (e = KeyError /\ store <> [])
  \/ (e = Py.AttributeError /\ store = []
      /\ exists r, In r data /\ timestamp r = None).
Proof.
  induction store as [|p init _] using rev_ind; intros He.
  - right.
    assert (Hnull : exists r, In r data /\ timestamp r = None).
    { apply (proj1 (hourly_table_null tz data)).
      destruct (first_run_outcome tz now_wall data) as (Hstats & _ & _).
      pose proof (insert_statistics_outcome tz [] now_wall data) as Hout.
      rewrite Hstats, emitted_started in Hout.
      destruct (forallb _ (hourly_table tz data)) eqn:Hst; [congruence|].
      destruct (forallb_false _ _ Hst) as (b & Hb & Hnone).
      exists b. split; [exact Hb|]. destruct (timestamp b); [discriminate | reflexivity]. }
    destruct (first_run_outcome tz now_wall data) as (_ & _ & Hraise).
    rewrite (Hraise Hnull) in He. injection He as <-. auto.
  - left. pose proof (later_run_outcome tz init p now_wall data) as Hout.
    destruct (statistics_to_add tz (init ++ [p]) now_wall data) as [stats|e0] eqn:Hst;
      [congruence|].
    rewrite Hout in He. injection He as <-.
    exact (@run_raises_only_key_error _ _ _ _ _ Hst).
Qed.

(** A run raises KeyError exactly when the building of its list does. *)
Lemma run_key_error (tz : TimeZone) (store : Store) (now_wall : Z)
    (data : list Reading) :
  _insert_statistics tz store now_wall data = Raise KeyError
  <-> statistics_to_add tz store now_wall data = Raise KeyError.
Proof.
  pose proof (insert_statistics_outcome tz store now_wall data) as Hout.
  destruct (statistics_to_add tz store now_wall data) as [stats|e].
  - destruct (forallb _ stats); rewrite Hout; split; discriminate.
  - rewrite Hout. split; intros [= ->]; reflexivity.
Qed.

(** A run that returns has built its list and imported it. *)
Lemma run_returns (tz : TimeZone) (store : Store) (now_wall : Z)
    (data : list Reading) (written : Store) :
  _insert_statistics tz store now_wall data = Ok written ->
  exists stats,
    statistics_to_add tz store now_wall data = Ok stats
    /\ written = store_after store (Ok stats).
Proof.
  intros Hrun. pose proof (insert_statistics_outcome tz store now_wall data) as Hout.
  destruct (statistics_to_add tz store now_wall data) as [stats|e]; [|congruence].
  exists stats. split; [reflexivity|].
  destruct (forallb _ stats); congruence.
Qed.

(** X10. With a last persisted point that no earlier row of the series
    follows, a run raises KeyError exactly when that point starts before the
    correction start, and returns exactly when it does not.  Whatever the
    series, a run raises nothing but KeyError, which needs a series that is
    not empty, and AttributeError, which needs an empty series and a reading
    without timestamp; on an empty series it raises exactly when a reading
    has no timestamp. *)
Theorem merger_fails_iff_last_point_precedes_correction_start :
  forall (tz : TimeZone) (init : Store) (p : StatisticsRow) (now_wall : Z)
         (data : list Reading),
    let store := init ++ [p] in
    let cs := correction_start_instant tz (row_start p) now_wall in
    (forall r, In r init -> row_start r <= row_start p) ->
    (_insert_statistics tz store now_wall data = Raise KeyError <-> row_start p < cs)
    /\ ((exists written, _insert_statistics tz store now_wall data = Ok written)
        <-> cs <= row_start p)
    /\ (forall any_store e,
          _insert_statistics tz any_store now_wall data = Raise e ->
          (e = KeyError /\ any_store <> [])
          \/ (e = Py.AttributeError /\ any_store = []
              /\ exists r, In r data /\ timestamp r = None))
    /\ (_insert_statistics tz [] now_wall data = Raise Py.AttributeError
        <-> exists r, In r data /\ timestamp r = None).
Proof.
  intros tz init p now_wall data store cs Hlast.
  assert (Hp : In p store) by (apply in_app_iff; right; left; reflexivity).
  assert (Hmax : forall r, In r store -> row_start r <= row_start p).
  { intros r Hr. apply in_app_iff in Hr. destruct Hr as [Hr|[<-|[]]]; [auto | lia]. }
  pose proof (later_run_outcome tz init p now_wall data) as Hfull. fold store in Hfull.
  assert (Hempty : _insert_statistics tz [] now_wall data = Raise Py.AttributeError
                   <-> exists r, In r data /\ timestamp r = None).
  { split.
    - intros He. destruct (run_raises_only _ _ _ _ He) as [(Hk & _)|(_ & _ & Hnull)];
        [discriminate | exact Hnull].
    - apply (first_run_outcome tz now_wall data). }
  destruct (run_outcome tz init p now_wall data)
    as [(Hall & Hr)|((r & Hin & Hle) & stats & Ho)];
    fold store in Hr || fold store in Ho.
  - fold store cs in Hall. specialize (Hall p Hp).
    rewrite Hr in Hfull.
    split; [tauto|]. split; [|split].
    + split; [intros (written & Ho); rewrite Hfull in Ho; discriminate | lia].
    + intros any_store e He. exact (run_raises_only _ _ _ _ He).
    + exact Hempty.
  - fold store in Hin. fold cs in Hle. specialize (Hmax r Hin).
    rewrite Ho in Hfull.
    split; [|split; [|split]].
    + split; [intros Hr; rewrite Hfull in Hr; discriminate | lia].
    + split; [lia | eauto].
    + intros any_store e He. exact (run_raises_only _ _ _ _ He).
    + exact Hempty.
Qed.

(** C5. On a series that ends with a point [p], in a zone with separated
    transitions, when no hourly bucket of the input is later than [p] (as
    after a first run on the same input): if [p] is not older than the
    thirty-day bound, the window keeps no bucket and the run returns without
    a call to the recorder, the series as it was; if [p] is older than the
    bound, on the wall clock and as an instant, nothing is emitted either,
    because the run raises KeyError before it filters.  In general a run
    whose window keeps no bucket returns without a call to the recorder. *)
Theorem remerge_emits_nothing :
  forall (tz : TimeZone) (init : Store) (p : StatisticsRow) (now_wall : Z)
         (data : list Reading),
    let store := init ++ [p] in
    let bound := get_thirty_days_ago now_wall in
    separated tz = true ->
    (forall hourly b t,
        process_for_statistics tz data = Ok hourly ->
        In b hourly -> timestamp b = Some t -> t <= row_start p) ->
    (wall bound <= to_local tz (row_start p) ->
     correction_window tz store now_wall (hourly_table tz data)
     = Ok ([], row_sum p)
     /\ statistics_to_add tz store now_wall data = Ok []
     /\ _insert_statistics tz store now_wall data = Ok store
     /\ store_after store (statistics_to_add tz store now_wall data) = store)
    /\ (to_local tz (row_start p) < wall bound ->
        row_start p < instant tz bound ->
        (forall r, In r init -> row_start r <= row_start p) ->
        statistics_to_add tz store now_wall data = Raise KeyError
        /\ _insert_statistics tz store now_wall data = Raise KeyError
        /\ store_after store (statistics_to_add tz store now_wall data) = store)
    /\ (forall any_store hourly base_sum,
          process_for_statistics tz data = Ok hourly ->
          correction_window tz any_store now_wall hourly = Ok ([], base_sum) ->
          statistics_to_add tz any_store now_wall data = Ok []
          /\ _insert_statistics tz any_store now_wall data = Ok any_store
          /\ store_after any_store (statistics_to_add tz any_store now_wall data)
             = any_store).
Proof.
  intros tz init p now_wall data store bound Hsep Hnewest.
  assert (Hgeneral : forall any_store base_sum,
             correction_window tz any_store now_wall (hourly_table tz data)
             = Ok ([], base_sum) ->
             statistics_to_add tz any_store now_wall data = Ok []
             /\ _insert_statistics tz any_store now_wall data = Ok any_store
             /\ store_after any_store (statistics_to_add tz any_store now_wall data)
                = any_store).
  { intros any_store base_sum Hw.
    assert (Hst : statistics_to_add tz any_store now_wall data = Ok [])
      by (rewrite statistics_to_add_unfold, Hw; reflexivity).
    split; [exact Hst|]. split.
    - rewrite insert_statistics_run, Hst. reflexivity.
    - rewrite Hst. reflexivity. }
  split; [|split].
  - intros Hrecent.
    assert (Hcs : correction_start_instant tz (row_start p) now_wall = row_start p)
      by (apply correction_start_is_last_point; assumption).
    assert (Hw : correction_window tz store now_wall (hourly_table tz data)
                 = Ok ([], row_sum p)).
    { unfold store. rewrite correction_window_with_last, Hcs.
      rewrite filter_after_none.
      2:{ intros b t Hb Ht.
          exact (Hnewest _ b t (process_for_statistics_ok tz data) Hb Ht). }
      rewrite filter_app. cbn [filter]. rewrite Z.leb_refl.
      destruct (filter _ init) as [|x found]; [reflexivity|].
      cbn [app]. cbv iota beta.
      change (x :: found ++ [p]) with ((x :: found) ++ [p]).
      rewrite last_last. reflexivity. }
    split; [exact Hw|]. exact (Hgeneral store (row_sum p) Hw).
  - intros Hold Hinstant Hlast.
    assert (Hcs : correction_start_instant tz (row_start p) now_wall
                  = instant tz bound)
      by (apply correction_start_is_bound; exact Hold).
    assert (Hst : statistics_to_add tz store now_wall data = Raise KeyError).
    { apply stale_series_raises. rewrite Hcs. intros r Hr.
      apply in_app_iff in Hr. destruct Hr as [Hr|[<-|[]]]; [|exact Hinstant].
      specialize (Hlast r Hr). lia. }
    split; [exact Hst|]. split.
    + apply run_key_error. exact Hst.
    + rewrite Hst. reflexivity.
  - intros any_store hourly base_sum Hh Hw.
    rewrite process_for_statistics_ok in Hh. injection Hh as <-.
    exact (Hgeneral any_store base_sum Hw).
Qed.

Lemma fixed_offset_bound (tz : TimeZone) (now_wall : Z) :
  transitions tz = [] ->
  instant tz (get_thirty_days_ago now_wall)
  = now_wall - now_wall mod us_per_day - 30 * us_per_day - initial_offset tz.
Proof.
  intros Hfixed. unfold instant, get_thirty_days_ago. cbn [wall].
  rewrite Hfixed. reflexivity.
Qed.

(** X11. In a zone with one fixed offset: the bound of the correction
    window is the midnight thirty days before the day of the clock; a run on
    a series that ends with its latest point fails exactly when that point,
    on the wall clock, lies before the bound, so it fails for every series
    that is more than 31 days old.  The failure is the KeyError raised while
    the list is built, so it is that of the run as a whole. *)
Theorem merger_fails_on_series_older_than_bound :
  forall (tz : TimeZone) (init : Store) (p : StatisticsRow) (now_wall : Z)
         (data : list Reading),
    let store := init ++ [p] in
    let bound := wall (get_thirty_days_ago now_wall) in
    transitions tz = [] ->
    (forall r, In r init -> row_start r <= row_start p) ->
    bound mod us_per_day = 0
    /\ now_wall - 31 * us_per_day < bound <= now_wall - 30 * us_per_day
    /\ (statistics_to_add tz store now_wall data = Raise KeyError
        <-> to_local tz (row_start p) < bound)
    /\ (to_local tz (row_start p) <= now_wall - 31 * us_per_day ->
        statistics_to_add tz store now_wall data = Raise KeyError)
    /\ (_insert_statistics tz store now_wall data = Raise KeyError
        <-> to_local tz (row_start p) < bound).
Proof.
  intros tz init p now_wall data store bound Hfixed Hlast.
  assert (Hday : 0 < us_per_day) by (unfold us_per_day, us_per_hour, us_per_second; lia).
  pose proof (Z.mod_pos_bound now_wall us_per_day Hday) as Hmod.
  assert (Hbound : bound = now_wall - now_wall mod us_per_day - 30 * us_per_day)
    by reflexivity.
  assert (Hcs : correction_start_instant tz (row_start p) now_wall
                = Z.max (row_start p) (bound - initial_offset tz)).
  { rewrite (@correction_start_fixed_offset tz (row_start p) now_wall Hfixed).
    rewrite (@fixed_offset_bound tz now_wall Hfixed). reflexivity. }
  assert (Hlocal : to_local tz (row_start p) = row_start p + initial_offset tz).
  { unfold to_local, utc_offset. rewrite Hfixed. reflexivity. }
  assert (Hiff : statistics_to_add tz store now_wall data = Raise KeyError
                 <-> to_local tz (row_start p) < bound).
  { assert (Hp : In p store) by (apply in_app_iff; right; left; reflexivity).
    destruct (run_outcome tz init p now_wall data)
      as [(Hall & Hr)|((r & Hin & Hle) & stats & Ho)].
    - fold store in Hall, Hr. specialize (Hall p Hp). rewrite Hcs in Hall.
      split; [intros _; lia | intros _; exact Hr].
    - fold store in Hin, Ho. rewrite Hcs in Hle.
      assert (row_start r <= row_start p).
      { apply in_app_iff in Hin. destruct Hin as [Hin|[<-|[]]]; [auto | lia]. }
      split; [intros Hr; rewrite Ho in Hr; discriminate | lia]. }
  split; [|split; [|split; [|split]]].
  - rewrite Hbound.
    replace (now_wall - now_wall mod us_per_day - 30 * us_per_day)
      with ((now_wall / us_per_day - 30) * us_per_day)
      by (pose proof (Z.div_mod now_wall us_per_day ltac:(lia)); lia).
    apply Z.mod_mul. lia.
  - lia.
  - exact Hiff.
  - intros Hold. apply Hiff. lia.
  - rewrite run_key_error. exact Hiff.
Qed.

(* ------------------------------------------------------------------ *)
(** * The processor as a whole *)

Lemma mapM_raise {A B : Type} (f : A -> result B) (l : list A) (e : exn) :
  mapM f l = Raise e -> exists x, In x l /\ f x = Raise e.
Proof.
  induction l as [|a l IH]; simpl; [discriminate|].
  destruct (f a) as [b|e0] eqn:Hfa; simpl.
  - destruct (mapM f l) as [bs|e1]; simpl; [discriminate|].
    intros [= <-]. destruct (IH eq_refl) as (x & Hx & Hfx). exists x. auto.
  - intros [= <-]. exists a. auto.
Qed.

Lemma transform_raises_only (eo : EmptyOn) (df : WideTable) (e : exn) :
  _transform_to_long_format eo df = Raise e -> e = InvalidOperationError.
Proof.
  unfold _transform_to_long_format. cbv zeta.
  destruct (mapM _ _) as [long|e0] eqn:Hm; simpl; [discriminate|].
  intros [= <-]. apply mapM_raise in Hm. destruct Hm as (u & _ & Hu).
  unfold strptime_date_time in Hu.
  destruct (str_extract_time (time_str u)); simpl in Hu; [|discriminate].
  destruct (parse_time_12h _); simpl in Hu; [discriminate|].
  injection Hu as <-. reflexivity.
Qed.

Lemma clean_outcome (data : RawUsageData) :
  (trimmable (power_df data) /\ trimmable (energy_df data)
   /\ exists p e,
        drop_incomplete_dates (power_df data) = Ok p
        /\ drop_incomplete_dates (energy_df data) = Ok e
        /\ _clean data = Ok (mkRawUsageData p e))
  \/ (~ (trimmable (power_df data) /\ trimmable (energy_df data))
      /\ _clean data = Raise RuntimeError).
Proof.
  unfold _clean.
  destruct (trimmer_outcome (power_df data)) as [(Htp & p & Hp)|(Hntp & Hp)];
    rewrite Hp; simpl.
  - destruct (trimmer_outcome (energy_df data)) as [(Hte & e & He)|(Hnte & He)];
      rewrite He; simpl.
    + left. split; [exact Htp|]. split; [exact Hte|]. exists p, e. auto.
    + right. split; [tauto | reflexivity].
  - right. split; [tauto | reflexivity].
Qed.

(** X12. The processor, from the two sheets on: it raises RuntimeError
    exactly when one of the sheets cannot be trimmed, the only other
    exception it raises is the strict parse error of the reshaper, and every
    reading it returns has a timestamp, taken from a power cell and an
    energy cell of the trimmed sheets that carry one and the same wall
    clock. *)
Theorem processor_outcomes :
  forall (eo : EmptyOn) (tz : TimeZone) (raw_data : RawUsageData),
    (process_for_entities eo tz raw_data = Raise RuntimeError
     <-> ~ (trimmable (power_df raw_data) /\ trimmable (energy_df raw_data)))
    /\ (forall e, process_for_entities eo tz raw_data = Raise e ->
                  e = RuntimeError \/ e = InvalidOperationError)
    /\ (forall data r,
          process_for_entities eo tz raw_data = Ok data ->
          In r data ->
          exists clean_data power_long energy_long p e n t,
            _clean raw_data = Ok clean_data
            /\ _transform_to_long_format eo (power_df clean_data) = Ok power_long
            /\ _transform_to_long_format eo (energy_df clean_data) = Ok energy_long
            /\ In p power_long /\ In e energy_long
            /\ l_timestamp p = Some n /\ l_timestamp e = Some n
            /\ earliest_instant tz n t
            /\ r = mkReading (Some t) (value p) (value e)).
Proof.
  intros eo tz raw_data. unfold process_for_entities.
  destruct (clean_outcome raw_data) as [(Htp & Hte & p & e & _ & _ & Hc)|(Hnt & Hc)];
    rewrite Hc; cbn [bind power_df energy_df].
  2:{ split; [tauto|]. split; [intros e0 [= <-]; auto | discriminate]. }
  destruct (_transform_to_long_format eo p) as [power_long|e1] eqn:Hpl; cbn [bind].
  2:{ apply transform_raises_only in Hpl. subst e1.
      split; [split; [discriminate | tauto]|].
      split; [intros e0 [= <-]; auto | discriminate]. }
  destruct (_transform_to_long_format eo e) as [energy_long|e2] eqn:Hel; cbn [bind].
  2:{ apply transform_raises_only in Hel. subst e2.
      split; [split; [discriminate | tauto]|].
      split; [intros e0 [= <-]; auto | discriminate]. }
  rewrite handle_dst_eq.
  split; [split; [discriminate | tauto]|].
  split; [discriminate|].
  intros data r [= <-] Hr.
  apply (joined_rows_paired tz power_long energy_long) in Hr.
  destruct Hr as (p0 & e0 & n & t & Hp0 & He0 & Hn1 & Hn2 & Hearly & ->).
  exists (mkRawUsageData p e), power_long, energy_long, p0, e0, n, t.
  repeat split; auto; apply Hearly.
Qed.

(** Every reading that the processor returns has a timestamp. *)
Lemma processor_readings_have_timestamps (eo : EmptyOn) (tz : TimeZone)
    (raw_data : RawUsageData) (data : list Reading) :
  process_for_entities eo tz raw_data = Ok data ->
  forall r, In r data -> timestamp r <> None.
Proof.
  unfold process_for_entities.
  destruct (_clean raw_data) as [c|]; cbn [bind]; [|discriminate].
  destruct (_transform_to_long_format eo (power_df c)); cbn [bind]; [|discriminate].
  destruct (_transform_to_long_format eo (energy_df c)); cbn [bind]; [|discriminate].
  rewrite handle_dst_eq. intros [= <-] r Hr Hnull.
  apply filter_In in Hr. destruct Hr as [_ Hnn].
  unfold not_null in Hnn. cbn [ts_of Reading_ts] in Hnn.
  rewrite Hnull in Hnn. discriminate.
Qed.

(* ------------------------------------------------------------------ *)
(** * The sensor attributes: daily statistics *)

Lemma q_max_fold (l : list Q) :
  forall x,
    let m := fold_left (fun m y => if Qle_bool y m then m else y) l x in
    (m = x \/ In m l) /\ (x <= m)%Q /\ forall y, In y l -> (y <= m)%Q.
Proof.
  induction l as [|a l IH]; intros x; cbn [fold_left].
  - split; [left; reflexivity|]. split; [apply Qle_refl | intros y []].
  - destruct (Qle_bool a x) eqn:Hax.
    + apply Qle_bool_iff in Hax.
      destruct (IH x) as (Hin & Hge & Hall). split; [|split].
      * destruct Hin as [Hm|Hin]; [left; exact Hm | right; right; exact Hin].
      * exact Hge.
      * intros y [<-|Hy]; [eapply Qle_trans; eassumption | apply Hall, Hy].
    + assert (Hxa : (x <= a)%Q).
      { apply Qlt_le_weak, Qnot_le_lt. intros Hle.
        apply Qle_bool_iff in Hle. congruence. }
      destruct (IH a) as (Hin & Hge & Hall). split; [|split].
      * right. destruct Hin as [Hm|Hin]; [left; symmetry; exact Hm | right; exact Hin].
      * eapply Qle_trans; eassumption.
      * intros y [<-|Hy]; [exact Hge | apply Hall, Hy].
Qed.

Lemma q_max_spec (l : list Q) (m : Q) :
  q_max l = Some m -> In m l /\ forall x, In x l -> (x <= m)%Q.
Proof.
  destruct l as [|x l]; [discriminate|]. cbn [q_max]. intros [= <-].
  destruct (q_max_fold l x) as (Hin & Hge & Hall). split.
  - destruct Hin as [->|Hin]; [left; reflexivity | right; exact Hin].
  - intros y [<-|Hy]; [exact Hge | apply Hall, Hy].
Qed.

Lemma q_max_some (l : list Q) : l <> [] -> exists m, q_max l = Some m.
Proof. destruct l as [|x l]; [contradiction | intros _; simpl; eauto]. Qed.

Lemma q_mean_spec (l : list Q) :
  l <> [] ->
  exists avg,
    q_mean l = Some avg
    /\ (avg * inject_Z (Z.of_nat (List.length l)) == Polars.sum l)%Q.
Proof.
  destruct l as [|x l]; [contradiction|]. intros _.
  eexists. split; [reflexivity|].
  set (n := List.length (x :: l)).
  assert (Hn : ~ (inject_Z (Z.of_nat n) == 0)%Q).
  { unfold n, Qeq. simpl. lia. }
  field. exact Hn.
Qed.

Lemma max_date_spec (l : list (option Z)) (d : Z) :
  max_date l = Some d ->
  In (Some d) l /\ forall x, In (Some x) l -> x <= d.
Proof.
  unfold max_date.
  set (known := flat_map (fun d0 => match d0 with Some x => [x] | None => [] end) l).
  assert (Hknown : forall x, In x known <-> In (Some x) l).
  { intros x. unfold known. rewrite in_flat_map. split.
    - intros ([y|] & Hy & Hx); [|destruct Hx].
      destruct Hx as [<-|[]]. exact Hy.
    - intros Hx. exists (Some x). split; [exact Hx | left; reflexivity]. }
  destruct known as [|y ys] eqn:Hk; [discriminate|]. cbn [col_max]. intros [= <-].
  destruct (fold_max_bounds ys y) as (Hin & Hge & Hall). split.
  - apply Hknown. destruct Hin as [->|Hin]; [left; reflexivity | right; exact Hin].
  - intros x Hx. apply Hknown in Hx.
    destruct Hx as [<-|Hx]; [exact Hge | apply Hall, Hx].
Qed.

Lemma max_date_some (l : list (option Z)) (x : Z) :
  In (Some x) l -> exists d, max_date l = Some d.
Proof.
  intros Hx. unfold max_date.
  destruct (flat_map _ l) as [|y ys] eqn:Hk; [|simpl; eauto].
  exfalso.
  assert (Hin : In x (flat_map (fun d0 => match d0 with Some z => [z] | None => [] end) l)).
  { apply in_flat_map. exists (Some x). split; [exact Hx | left; reflexivity]. }
  rewrite Hk in Hin. exact Hin.
Qed.

Lemma filter_head_split {A : Type} (f : A -> bool) (l : list A) (x : A)
    (rest : list A) :
  filter f l = x :: rest ->
  exists before after,
    l = before ++ x :: after /\ forall y, In y before -> f y = false.
Proof.
  induction l as [|a l IH]; simpl; [discriminate|].
  destruct (f a) eqn:Hfa.
  - intros [= -> _]. exists [], l. split; [reflexivity | intros y []].
  - intros Hf. destruct (IH Hf) as (before & after & -> & Hnone).
    exists (a :: before), after. split; [reflexivity|].
    intros y [<-|Hy]; auto.
Qed.

(** The reading that gives its timestamp to the peak: the first one of
    the rows whose power is the largest. *)
Lemma peak_spec (rows : list Reading) :
  rows <> [] ->
  exists v rp,
    q_max (map power_kw rows) = Some v
    /\ In rp rows
    /\ (power_kw rp == v)%Q
    /\ (forall r, In r rows -> (power_kw r <= v)%Q)
    /\ first_timestamp (filter (fun r => q_eq_filter (power_kw r) (Some v)) rows)
       = timestamp rp
    /\ exists before after,
         rows = before ++ rp :: after
         /\ forall r, In r before -> ~ (power_kw r == v)%Q.
Proof.
  intros Hne.
  destruct (@q_max_some (map power_kw rows)) as (v & Hv).
  { destruct rows; [contradiction | discriminate]. }
  destruct (@q_max_spec _ _ Hv) as (Hin & Hall).
  apply in_map_iff in Hin. destruct Hin as (r0 & Hr0 & Hin0).
  destruct (filter (fun r => q_eq_filter (power_kw r) (Some v)) rows) as [|rp rest] eqn:Hf.
  - exfalso.
    assert (Hr : In r0 (filter (fun r => q_eq_filter (power_kw r) (Some v)) rows)).
    { apply filter_In. split; [exact Hin0|]. cbn [q_eq_filter]. rewrite Hr0.
      apply Qeq_bool_iff. reflexivity. }
    rewrite Hf in Hr. exact Hr.
  - assert (Hrp : In rp (rp :: rest)) by (left; reflexivity).
    rewrite <- Hf in Hrp. apply filter_In in Hrp. destruct Hrp as [Hrp Heq].
    exists v, rp. split; [exact Hv|]. split; [exact Hrp|].
    split; [apply Qeq_bool_iff; exact Heq|].
    split; [|split; [rewrite Hf; reflexivity|]].
    + intros r Hr. apply Hall. apply in_map. exact Hr.
    + destruct (filter_head_split _ _ Hf) as (before & after & Hrows & Hnone).
      exists before, after. split; [exact Hrows|].
      intros r Hr Hv'. specialize (Hnone r Hr). cbn [q_eq_filter] in Hnone.
      apply Qeq_bool_iff in Hv'. congruence.
Qed.

Lemma eq_filter_key (a : option Z) (d : Z) :
  eq_filter a (Some d) = true <-> a = Some d.
Proof.
  rewrite eq_filter_true. split.
  - intros (t & -> & [= ->]). reflexivity.
  - intros ->. eauto.
Qed.

(** X13. For a frame with at least one timestamp, the daily statistics
    describe the latest calendar day that the frame shows on the wall
    clock: the date is the largest local date, the number of data points is
    the number of its readings (at least one), the total is the sum of their
    energy, the average is their mean power, and the peak is the largest of
    their powers, reported with the timestamp of the first reading that has
    it. *)
Theorem daily_stats_describe_latest_day :
  forall (tz : TimeZone) (data : list Reading) (r0 : Reading) (t0 : Z),
    In r0 data ->
    timestamp r0 = Some t0 ->
    let s := DailyStats.from_dataframe tz data in
    exists d,
      let day := filter (fun r => eq_filter (date_of tz r) (Some d)) data in
      date (DailyStats.usage s) = Day d
      /\ (exists r, In r data /\ date_of tz r = Some d)
      /\ (forall r t, In r data -> timestamp r = Some t -> local_date tz t <= d)
      /\ DailyStats.data_points s = List.length day
      /\ (0 < DailyStats.data_points s)%nat
      /\ total_energy_kwh (DailyStats.usage s) = Polars.sum (map energy_kwh day)
      /\ (exists avg,
            DailyStats.average_power_kw s = Some avg
            /\ avg_power_kw (DailyStats.usage s) = Some avg
            /\ (avg * inject_Z (Z.of_nat (List.length day))
                == Polars.sum (map power_kw day))%Q)
      /\ (exists v rp tp,
            pp_value (DailyStats.peak_power s) = Some v
            /\ peak_power_kw (DailyStats.usage s) = Some v
            /\ pp_timestamp (DailyStats.peak_power s) = Instant tp
            /\ In rp day /\ timestamp rp = Some tp
            /\ (power_kw rp == v)%Q
            /\ (forall r, In r day -> (power_kw r <= v)%Q)
            /\ exists before after,
                 day = before ++ rp :: after
                 /\ forall r, In r before -> ~ (power_kw r == v)%Q).
Proof.
  intros tz data r0 t0 Hr0 Ht0 s.
  assert (Hd0 : In (Some (local_date tz t0)) (map (date_of tz) data)).
  { apply in_map_iff. exists r0. split; [|exact Hr0].
    unfold date_of. rewrite Ht0. reflexivity. }
  destruct (@max_date_some _ _ Hd0) as (d & Hmax).
  destruct (@max_date_spec _ _ Hmax) as (Hin & Hall).
  apply in_map_iff in Hin. destruct Hin as (rd & Hrd & Hind).
  exists d. cbv zeta.
  set (day := filter (fun r => eq_filter (date_of tz r) (Some d)) data).
  assert (Hday : In rd day).
  { apply filter_In. split; [exact Hind|]. apply eq_filter_key. exact Hrd. }
  assert (Hne : day <> []) by (intros Hnil; rewrite Hnil in Hday; exact Hday).
  unfold s, DailyStats.from_dataframe. cbv zeta. rewrite Hmax. fold day.
  cbn [DailyStats.usage DailyStats.peak_power DailyStats.average_power_kw
       DailyStats.data_points date total_energy_kwh avg_power_kw peak_power_kw
       pp_value pp_timestamp day_or_none].
  split; [reflexivity|]. split; [eauto|]. split.
  { intros r t Hr Ht. apply Hall. apply in_map_iff. exists r.
    split; [|exact Hr]. unfold date_of. rewrite Ht. reflexivity. }
  split; [reflexivity|]. split.
  { destruct day; [contradiction | simpl; lia]. }
  split; [reflexivity|]. split.
  { destruct (@q_mean_spec (map power_kw day)) as (avg & Havg & Hsum).
    - destruct day; [contradiction | discriminate].
    - exists avg. rewrite length_map in Hsum. auto. }
  destruct (@peak_spec day Hne) as (v & rp & Hv & Hrp & Heq & Hle & Hfirst & Hsplit).
  rewrite Hv, Hfirst.
  assert (Hts : exists tp, timestamp rp = Some tp).
  { apply filter_In in Hrp. destruct Hrp as [_ Hk].
    apply eq_filter_key in Hk. unfold date_of in Hk.
    destruct (timestamp rp) as [tp|]; [eauto | discriminate]. }
  destruct Hts as (tp & Htp). exists v, rp, tp. rewrite Htp.
  split; [reflexivity|]. split; [reflexivity|]. split; [reflexivity|].
  split; [exact Hrp|]. split; [reflexivity|]. split; [exact Heq|].
  split; [exact Hle | exact Hsplit].
Qed.

Lemma filter_filter_same {A : Type} (f : A -> bool) (l : list A) :
  filter f (filter f l) = filter f l.
Proof.
  induction l as [|a l IH]; simpl; [reflexivity|].
  destruct (f a) eqn:Hfa; simpl; rewrite ?Hfa, IH; reflexivity.
Qed.

(** X14. The daily statistics depend on the readings of the latest local
    day only: computed from those readings alone they are the same. *)
Theorem daily_stats_read_latest_day_only :
  forall (tz : TimeZone) (data : list Reading),
    let latest := max_date (map (date_of tz) data) in
    DailyStats.from_dataframe tz
      (filter (fun r => eq_filter (date_of tz r) latest) data)
    = DailyStats.from_dataframe tz data.
Proof.
  intros tz data latest.
  set (day := filter (fun r => eq_filter (date_of tz r) latest) data).
  assert (Hsame : max_date (map (date_of tz) day) = latest
                  \/ (day = [] /\ latest = None)).
  { destruct latest as [d|] eqn:Hl.
    - left.
      assert (Hdates : forall x, In x day -> date_of tz x = Some d).
      { intros x Hx. apply filter_In in Hx. apply eq_filter_key, Hx. }
      destruct (@max_date_spec _ _ Hl) as (Hin & _).
      apply in_map_iff in Hin. destruct Hin as (r & Hr & Hinr).
      assert (Hday : In r day).
      { apply filter_In. split; [exact Hinr|]. apply eq_filter_key. exact Hr. }
      assert (Hrd : In (Some d) (map (date_of tz) day)).
      { apply in_map_iff. exists r. auto. }
      destruct (@max_date_some _ _ Hrd) as (m & Hm). rewrite Hm. f_equal.
      destruct (@max_date_spec _ _ Hm) as (Hinm & _).
      apply in_map_iff in Hinm. destruct Hinm as (x & Hx & Hinx).
      rewrite (Hdates x Hinx) in Hx. congruence.
    - right. split; [|reflexivity].
      unfold day. apply filter_nil_iff. intros x _.
      destruct (date_of tz x); reflexivity. }
  unfold DailyStats.from_dataframe. cbv zeta. fold latest. fold day.
  destruct Hsame as [Hmax|(Hnil & Hnone)].
  - rewrite Hmax.
    assert (Hd : filter (fun r => eq_filter (date_of tz r) latest) day = day)
      by (unfold day; apply filter_filter_same).
    rewrite Hd. reflexivity.
  - rewrite Hnil. rewrite Hnone. reflexivity.
Qed.

(* ------------------------------------------------------------------ *)
(** * The sensor attributes: the billing period *)

Lemma no_member_nil {A : Type} (l : list A) : (forall x, ~ In x l) -> l = [].
Proof.
  destruct l as [|a l]; [reflexivity|]. intros H. exfalso.
  apply (H a). left. reflexivity.
Qed.

Lemma distinct_In (l : list (option Z)) (k : option Z) :
  In k (BillingPeriodStats.distinct l) <-> In k l.
Proof.
  induction l as [|a l IH]; [reflexivity|].
  cbn [BillingPeriodStats.distinct In]. rewrite filter_In, IH.
  destruct (key_eqb k a) eqn:Hka.
  - apply key_eqb_eq in Hka. subst a. split; [intros _|]; auto.
  - pose proof (proj1 (key_eqb_neq _ _) Hka) as Hne. simpl. split.
    + intros [Heq|[Hin _]]; auto.
    + intros [Heq|Hin]; [subst a; contradiction | auto].
Qed.

Lemma distinct_NoDup (l : list (option Z)) : NoDup (BillingPeriodStats.distinct l).
Proof.
  induction l as [|a l IH]; cbn [BillingPeriodStats.distinct]; constructor.
  - intros Hin. apply filter_In in Hin. destruct Hin as [_ Hne].
    assert (Heq : key_eqb a a = true) by (apply key_eqb_eq; reflexivity).
    rewrite Heq in Hne. discriminate.
  - apply NoDup_filter. exact IH.
Qed.

Lemma sum_map_ext {A : Type} (f g : A -> Q) (l : list A) :
  (forall a, In a l -> (f a == g a)%Q) ->
  (Polars.sum (map f l) == Polars.sum (map g l))%Q.
Proof.
  induction l as [|a l IH]; intros Hfg; simpl; [reflexivity|].
  rewrite (Hfg a) by (left; reflexivity).
  rewrite IH by (intros x Hx; apply Hfg; right; exact Hx). reflexivity.
Qed.

Lemma sum_map_plus {A : Type} (f g : A -> Q) (l : list A) :
  (Polars.sum (map (fun a => f a + g a) l)
   == Polars.sum (map f l) + Polars.sum (map g l))%Q.
Proof.
  induction l as [|a l IH]; simpl; [lra|]. rewrite IH. lra.
Qed.

Lemma sum_one_key (ks : list (option Z)) (k : option Z) (e : Q) :
  NoDup ks ->
  (Polars.sum (map (fun k' => if key_eqb k k' then e else 0) ks)
   == if existsb (key_eqb k) ks then e else 0)%Q.
Proof.
  induction 1 as [|a ks Hnotin Hnd IH]; simpl; [reflexivity|].
  rewrite IH. destruct (key_eqb k a) eqn:Hka; simpl; [|lra].
  apply key_eqb_eq in Hka. subst a.
  destruct (existsb (key_eqb k) ks) eqn:Hex; [|lra].
  exfalso. apply existsb_exists in Hex. destruct Hex as (x & Hx & Hkx).
  apply key_eqb_eq in Hkx. subst x. contradiction.
Qed.

(** Summing group by group is summing the whole frame. *)
Lemma sum_by_key (key : Reading -> option Z) (f : Reading -> Q)
    (ks : list (option Z)) (rows : list Reading) :
  NoDup ks ->
  (forall r, In r rows -> In (key r) ks) ->
  (Polars.sum
     (map (fun k => Polars.sum (map f (filter (fun r => key_eqb (key r) k) rows))) ks)
   == Polars.sum (map f rows))%Q.
Proof.
  intros Hnd. induction rows as [|r rows IH]; intros Hcover.
  - simpl. clear. induction ks as [|k ks IH]; simpl; [reflexivity|]. rewrite IH. lra.
  - cbn [map Polars.sum fold_right].
    rewrite <- IH by (intros x Hx; apply Hcover; right; exact Hx).
    rewrite (@sum_map_ext _ _
               (fun k => (if key_eqb (key r) k then f r else 0)
                         + Polars.sum (map f (filter (fun r0 => key_eqb (key r0) k) rows)))%Q).
    + rewrite sum_map_plus, (sum_one_key (key r) (f r) Hnd).
      assert (Hex : existsb (key_eqb (key r)) ks = true).
      { apply existsb_exists. exists (key r). split.
        - apply Hcover. left. reflexivity.
        - apply key_eqb_eq. reflexivity. }
      rewrite Hex. reflexivity.
    + intros k _. cbn [filter].
      destruct (key_eqb (key r) k); simpl; lra.
Qed.

Lemma sorted_keys_days (rows : list BillingPeriodStats.DayRow) :
  StronglySorted
    (fun a b => key_lt (BillingPeriodStats.d_date a) (BillingPeriodStats.d_date b))
    rows ->
  (forall row, In row rows -> BillingPeriodStats.d_date row <> None) ->
  exists days,
    map BillingPeriodStats.d_date rows = map Some days /\ StronglySorted Z.lt days.
Proof.
  induction 1 as [|row rows Hs IH Hall]; intros Hsome.
  - exists []. split; [reflexivity | constructor].
  - destruct IH as (days & Hmap & Hdays);
      [intros x Hx; apply Hsome; right; exact Hx|].
    destruct (BillingPeriodStats.d_date row) as [d0|] eqn:Hd0;
      [|exfalso; apply (Hsome row (or_introl eq_refl)); exact Hd0].
    exists (d0 :: days). cbn [map]. rewrite Hd0, Hmap.
    split; [reflexivity|]. constructor; [exact Hdays|].
    rewrite Forall_forall in *. intros d Hd.
    assert (Hin : In (Some d) (map BillingPeriodStats.d_date rows))
      by (rewrite Hmap; apply in_map; exact Hd).
    apply in_map_iff in Hin. destruct Hin as (x & Hxd & Hx).
    destruct (Hall x Hx) as [Hle Hneq]. rewrite ?Hd0, ?Hxd in Hle, Hneq.
    cbn in Hle. apply Z.leb_le in Hle.
    assert (d0 <> d) by congruence. lia.
Qed.

Section Billing.

Variable tz : TimeZone.
Variable now : Z.
Variable data : list Reading.
Variable bill : BillSummary.
Variable previous_end : Z.
Hypothesis Hprevious : previous_bill_period_end bill = Some previous_end.

Let period : list Reading := period_readings tz bill previous_end data.

Let daily_data : list BillingPeriodStats.DayRow := daily_table tz period.

Let best (row : BillingPeriodStats.DayRow) : bool :=
  q_eq_filter (BillingPeriodStats.d_total_energy_kwh row)
    (q_max (map BillingPeriodStats.d_total_energy_kwh daily_data)).

Lemma billing_unfold :
  BillingPeriodStats.from_dataframe tz now data (Some bill)
  = match filter best daily_data with
    | [] => inl OutOfBoundsError
    | peak_day_data :: _ =>
        let total_energy :=
          Polars.sum (map BillingPeriodStats.d_total_energy_kwh daily_data) in
        let days := List.length (map BillingPeriodStats.to_usage daily_data) in
        inr (BillingPeriodStats.mk (Moment (previous_end + us_per_day))
               ((next_meter_read_date bill - (previous_end + us_per_day)) / us_per_day)
               total_energy
               (if (0 <? Z.of_nat days)
                then (total_energy / inject_Z (Z.of_nat days))%Q
                else 0%Q)
               (map BillingPeriodStats.to_usage daily_data)
               (BillingPeriodStats.to_usage peak_day_data)
               (mkPeakPower (q_max (map power_kw period))
                  (instant_or_none
                     (first_timestamp
                        (filter
                           (fun r => q_eq_filter (power_kw r)
                                       (q_max (map power_kw period)))
                           period)))))
    end.
Proof.
  unfold BillingPeriodStats.from_dataframe. rewrite Hprevious. reflexivity.
Qed.

Lemma period_dates (r : Reading) :
  In r period ->
  exists d,
    date_of tz r = Some d
    /\ (previous_end + us_per_day) / us_per_day <= d
       <= next_meter_read_date bill / us_per_day.
Proof.
  intros Hr. apply filter_In in Hr. destruct Hr as [_ Hin].
  apply andb_true_iff in Hin. destruct Hin as [Hge Hle].
  unfold BillingPeriodStats.ge_filter, BillingPeriodStats.le_filter in *.
  destruct (date_of tz r) as [d|]; [|discriminate].
  exists d. split; [reflexivity|].
  apply Z.leb_le in Hge, Hle. lia.
Qed.

Lemma daily_data_rows (row : BillingPeriodStats.DayRow) :
  In row daily_data <->
  exists d,
    (exists r, In r period /\ date_of tz r = Some d)
    /\ row = BillingPeriodStats.mkDayRow (Some d)
               (Polars.sum (map energy_kwh (readings_of_day tz d period)))
               (q_mean (map power_kw (readings_of_day tz d period)))
               (q_max (map power_kw (readings_of_day tz d period))).
Proof.
  unfold daily_data, daily_table. rewrite sort_In. unfold BillingPeriodStats.group_by_date.
  rewrite in_map_iff. split.
  - intros (k & <- & Hk). apply (proj1 (distinct_In _ _)) in Hk. apply in_map_iff in Hk.
    destruct Hk as (r & <- & Hr).
    destruct (period_dates r Hr) as (d & Hd & _). rewrite Hd.
    exists d. split; [eauto | reflexivity].
  - intros (d & (r & Hr & Hd) & ->). exists (Some d). split; [reflexivity|].
    apply distinct_In. apply in_map_iff. eauto.
Qed.

Lemma daily_data_keys :
  NoDup (map BillingPeriodStats.d_date daily_data)
  /\ StronglySorted
       (fun a b => key_lt (BillingPeriodStats.d_date a) (BillingPeriodStats.d_date b))
       daily_data.
Proof.
  assert (Hnd : NoDup (map BillingPeriodStats.d_date daily_data)).
  { unfold daily_data, daily_table. apply sort_NoDup.
    unfold BillingPeriodStats.group_by_date. rewrite map_map. cbn [BillingPeriodStats.d_date].
    rewrite map_id. apply distinct_NoDup. }
  split; [exact Hnd|].
  apply sorted_NoDup_strict; [apply sort_sorted | exact Hnd].
Qed.

Lemma daily_data_total :
  (Polars.sum (map BillingPeriodStats.d_total_energy_kwh daily_data)
   == total_energy period)%Q.
Proof.
  unfold daily_data, daily_table. rewrite sort_sum.
  unfold BillingPeriodStats.group_by_date. rewrite map_map.
  cbn [BillingPeriodStats.d_total_energy_kwh].
  apply (sum_by_key (date_of tz) energy_kwh).
  - apply distinct_NoDup.
  - intros r Hr. apply distinct_In. apply in_map. exact Hr.
Qed.

Lemma daily_data_nil : daily_data = [] <-> period = [].
Proof.
  split.
  - intros Hnil. apply no_member_nil. intros r Hr.
    destruct (period_dates r Hr) as (d & Hd & _).
    assert (Hrow : exists row, In row daily_data).
    { eexists. apply daily_data_rows. exists d. split; [eauto | reflexivity]. }
    destruct Hrow as (row & Hrow). rewrite Hnil in Hrow. exact Hrow.
  - intros Hnil. unfold daily_data, daily_table. rewrite Hnil. reflexivity.
Qed.

Lemma daily_data_days :
  exists days,
    map BillingPeriodStats.d_date daily_data = map Some days
    /\ StronglySorted Z.lt days
    /\ (forall d, In d days <-> exists r, In r period /\ date_of tz r = Some d).
Proof.
  destruct daily_data_keys as [_ Hsorted].
  destruct (@sorted_keys_days daily_data Hsorted) as (days & Hmap & Hdays).
  { intros row Hrow. apply daily_data_rows in Hrow.
    destruct Hrow as (d & _ & ->). discriminate. }
  exists days. split; [exact Hmap|]. split; [exact Hdays|].
  intros d. split.
  - intros Hd.
    assert (Hin : In (Some d) (map BillingPeriodStats.d_date daily_data))
      by (rewrite Hmap; apply in_map; exact Hd).
    apply in_map_iff in Hin. destruct Hin as (row & Hkey & Hrow).
    apply daily_data_rows in Hrow. destruct Hrow as (d' & Hr & ->).
    cbn in Hkey. injection Hkey as ->. exact Hr.
  - intros Hr.
    assert (Hin : In (Some d) (map Some days)).
    { rewrite <- Hmap. apply in_map_iff. eexists.
      split; [|apply daily_data_rows; exists d; split; [exact Hr | reflexivity]].
      reflexivity. }
    apply in_map_iff in Hin. destruct Hin as (y & [= ->] & Hy). exact Hy.
Qed.

Lemma best_day :
  daily_data <> [] ->
  exists peak rest,
    filter best daily_data = peak :: rest
    /\ In peak daily_data
    /\ forall row, In row daily_data ->
         (BillingPeriodStats.d_total_energy_kwh row
          <= BillingPeriodStats.d_total_energy_kwh peak)%Q.
Proof.
  intros Hne.
  destruct (@q_max_some (map BillingPeriodStats.d_total_energy_kwh daily_data))
    as (m & Hm).
  { destruct daily_data; [contradiction | discriminate]. }
  destruct (@q_max_spec _ _ Hm) as (Hin & Hall).
  apply in_map_iff in Hin. destruct Hin as (row0 & Hrow0 & Hin0).
  unfold best. rewrite Hm.
  destruct (filter _ daily_data) as [|peak rest] eqn:Hf.
  - exfalso.
    assert (Hr : In row0 (filter (fun row => q_eq_filter
                 (BillingPeriodStats.d_total_energy_kwh row) (Some m)) daily_data)).
    { apply filter_In. split; [exact Hin0|]. cbn [q_eq_filter]. rewrite Hrow0.
      apply Qeq_bool_iff. reflexivity. }
    rewrite Hf in Hr. exact Hr.
  - exists peak, rest. split; [reflexivity|].
    assert (Hp : In peak (peak :: rest)) by (left; reflexivity).
    rewrite <- Hf in Hp. apply filter_In in Hp. destruct Hp as [Hp Heq].
    split; [exact Hp|].
    intros row Hrow. cbn [q_eq_filter] in Heq. apply Qeq_bool_iff in Heq.
    rewrite Heq. apply Hall. apply in_map. exact Hrow.
Qed.

End Billing.

Lemma billing_run (tz : TimeZone) (now : Z) (data : list Reading)
    (bill : BillSummary) (previous_end : Z) :
  previous_bill_period_end bill = Some previous_end ->
  let period := period_readings tz bill previous_end data in
  (period = []
   /\ BillingPeriodStats.from_dataframe tz now data (Some bill) = inl OutOfBoundsError)
  \/ (period <> []
      /\ exists peak rest,
           filter
             (fun row =>
                q_eq_filter (BillingPeriodStats.d_total_energy_kwh row)
                  (q_max (map BillingPeriodStats.d_total_energy_kwh
                            (daily_table tz period))))
             (daily_table tz period)
           = peak :: rest
           /\ BillingPeriodStats.from_dataframe tz now data (Some bill)
              = inr (BillingPeriodStats.mk (Moment (previous_end + us_per_day))
                       ((next_meter_read_date bill - (previous_end + us_per_day))
                        / us_per_day)
                       (Polars.sum (map BillingPeriodStats.d_total_energy_kwh
                                      (daily_table tz period)))
                       (if (0 <? Z.of_nat
                                   (List.length (map BillingPeriodStats.to_usage
                                                   (daily_table tz period))))
                        then (Polars.sum (map BillingPeriodStats.d_total_energy_kwh
                                            (daily_table tz period))
                              / inject_Z
                                  (Z.of_nat
                                     (List.length (map BillingPeriodStats.to_usage
                                                     (daily_table tz period)))))%Q
                        else 0%Q)
                       (map BillingPeriodStats.to_usage (daily_table tz period))
                       (BillingPeriodStats.to_usage peak)
                       (mkPeakPower (q_max (map power_kw period))
                          (instant_or_none
                             (first_timestamp
                                (filter
                                   (fun r => q_eq_filter (power_kw r)
                                               (q_max (map power_kw period)))
                                   period)))))).
Proof.
  intros Hprev period.
  pose proof (@billing_unfold tz now data bill previous_end Hprev) as Hrun.
  assert (Hcases : period = [] \/ period <> [])
    by (destruct period; [left; reflexivity | right; discriminate]).
  destruct Hcases as [Hnil|Hne].
  - left. split; [exact Hnil|].
    rewrite Hrun, (proj2 (daily_data_nil tz data bill previous_end) Hnil).
    reflexivity.
  - right. split; [exact Hne|].
    destruct (@best_day tz data bill previous_end) as (peak & rest & Hf & _).
    { intros Hnil. apply Hne. apply (daily_data_nil tz data bill previous_end). exact Hnil. }
    exists peak, rest. split; [exact Hf|].
    rewrite Hrun, Hf. reflexivity.
Qed.

(** X15. With a previous period end on the bill, the billing statistics
    fail (polars' out-of-bounds error of [row(0)]) exactly when no reading
    falls into the billing period, and are returned exactly when one does;
    no other error occurs.  Without a previous period end the all-zero
    statistic is returned whatever the readings, and without a bill the
    attribute read on [None] fails. *)
Theorem billing_stats_fail_iff_period_is_empty :
  forall (tz : TimeZone) (now : Z) (data : list Reading) (bill : BillSummary)
         (previous_end : Z),
    previous_bill_period_end bill = Some previous_end ->
    let period := period_readings tz bill previous_end data in
    (BillingPeriodStats.from_dataframe tz now data (Some bill) = inl OutOfBoundsError
     <-> period = [])
    /\ ((exists s, BillingPeriodStats.from_dataframe tz now data (Some bill) = inr s)
        <-> period <> [])
    /\ (forall e, BillingPeriodStats.from_dataframe tz now data (Some bill) = inl e ->
                  e = OutOfBoundsError)
    /\ (forall other,
          previous_bill_period_end other = None ->
          exists s,
            BillingPeriodStats.from_dataframe tz now data (Some other) = inr s
            /\ BillingPeriodStats.total_energy_kwh s = 0%Q
            /\ BillingPeriodStats.daily_usages s = []
            /\ BillingPeriodStats.days_in_period s = 0)
    /\ BillingPeriodStats.from_dataframe tz now data None = inl AttributeError.
Proof.
  intros tz now data bill previous_end Hprev period.
  destruct (@billing_run tz now data bill previous_end Hprev)
    as [(Hnil & Hrun)|(Hne & peak & rest & _ & Hrun)]; fold period in Hnil || fold period in Hne.
  - rewrite Hrun. split; [tauto|]. split.
    + split; [intros (s & Hs); discriminate | contradiction].
    + split; [intros e [= <-]; reflexivity|]. split; [|reflexivity].
      intros other Hother. unfold BillingPeriodStats.from_dataframe.
      rewrite Hother. eexists. split; [reflexivity|]. auto.
  - rewrite Hrun. split; [split; [discriminate | contradiction]|]. split.
    + split; [intros _; exact Hne | eauto].
    + split; [discriminate|]. split; [|reflexivity].
      intros other Hother. unfold BillingPeriodStats.from_dataframe.
      rewrite Hother. eexists. split; [reflexivity|]. auto.
Qed.

(** X16. Returned billing statistics total the period: the total energy
    is the energy of the readings whose local date lies between the day
    after the previous period end and the day of the next meter reading; the
    daily usages are the days of the period that have a reading, in
    ascending order and each once, every one with the sum, the mean and the
    maximum of its own readings; the daily average times the number of those
    days is the total. *)
Theorem billing_stats_total_the_period :
  forall (tz : TimeZone) (now : Z) (data : list Reading) (bill : BillSummary)
         (previous_end : Z) (s : BillingPeriodStats.t),
    previous_bill_period_end bill = Some previous_end ->
    BillingPeriodStats.from_dataframe tz now data (Some bill) = inr s ->
    let period := period_readings tz bill previous_end data in
    (BillingPeriodStats.total_energy_kwh s == total_energy period)%Q
    /\ (BillingPeriodStats.daily_average_kwh s
        * inject_Z (Z.of_nat (List.length (BillingPeriodStats.daily_usages s)))
        == total_energy period)%Q
    /\ BillingPeriodStats.days_in_period s
       = (next_meter_read_date bill - previous_end) / us_per_day - 1
    /\ exists days,
         map date (BillingPeriodStats.daily_usages s) = map Day days
         /\ StronglySorted Z.lt days
         /\ days <> []
         /\ (forall d, In d days <-> exists r, In r period /\ date_of tz r = Some d)
         /\ (forall d, In d days ->
               previous_end / us_per_day + 1 <= d
               <= next_meter_read_date bill / us_per_day)
         /\ (forall u d,
               In u (BillingPeriodStats.daily_usages s) -> date u = Day d ->
               total_energy_kwh u
               = Polars.sum (map energy_kwh (readings_of_day tz d period))
               /\ avg_power_kw u = q_mean (map power_kw (readings_of_day tz d period))
               /\ peak_power_kw u = q_max (map power_kw (readings_of_day tz d period))).
Proof.
  intros tz now data bill previous_end s Hprev Hs period.
  assert (Hday : 0 < us_per_day) by (unfold us_per_day, us_per_hour, us_per_second; lia).
  destruct (@billing_run tz now data bill previous_end Hprev)
    as [(Hnil & Hrun)|(Hne & peak & rest & _ & Hrun)];
    rewrite Hrun in Hs; [discriminate|].
  injection Hs as <-. fold period.
  cbn [BillingPeriodStats.total_energy_kwh BillingPeriodStats.daily_average_kwh
       BillingPeriodStats.days_in_period BillingPeriodStats.daily_usages].
  pose proof (daily_data_total tz data bill previous_end) as Htotal.
  fold period in Htotal.
  destruct (daily_data_days tz data bill previous_end) as (days & Hmap & Hsorted & Hiff).
  fold period in Hmap, Hiff.
  assert (Hlen : List.length (map BillingPeriodStats.to_usage (daily_table tz period))
                 = List.length days).
  { rewrite length_map, <- (length_map BillingPeriodStats.d_date), Hmap, length_map.
    reflexivity. }
  assert (Hdays : days <> []).
  { destruct period as [|r0 rest0] eqn:Hp; [contradiction|].
    assert (Hr0 : In r0 (period_readings tz bill previous_end data))
      by (fold period; rewrite Hp; left; reflexivity).
    destruct (period_dates tz data bill previous_end r0 Hr0) as (d & Hd & _).
    intros Hnil. assert (Hin : In d days).
    { apply Hiff. exists r0. split; [left; reflexivity | exact Hd]. }
    rewrite Hnil in Hin. exact Hin. }
  split; [exact Htotal|]. split; [|split].
  - rewrite Hlen.
    assert (Hpos : (0 < List.length days)%nat)
      by (destruct days; [contradiction | simpl; lia]).
    destruct (Z.ltb_spec 0 (Z.of_nat (List.length days))) as [_|Hle]; [|lia].
    rewrite <- Htotal. field. unfold Qeq. simpl. lia.
  - replace (next_meter_read_date bill - (previous_end + us_per_day))
      with (next_meter_read_date bill - previous_end + (-1) * us_per_day) by lia.
    rewrite Z.div_add by lia. lia.
  - exists days. split.
    { rewrite map_map.
      change (fun x => date (BillingPeriodStats.to_usage x))
        with (fun x => day_or_none (BillingPeriodStats.d_date x)).
      rewrite <- (map_map BillingPeriodStats.d_date day_or_none), Hmap, map_map.
      reflexivity. }
    split; [exact Hsorted|]. split; [exact Hdays|]. split; [exact Hiff|]. split.
    + intros d Hd. apply Hiff in Hd. destruct Hd as (r & Hr & Hrd).
      destruct (period_dates tz data bill previous_end r Hr) as (d' & Hd' & Hrange).
      rewrite Hrd in Hd'. injection Hd' as <-.
      replace (previous_end + us_per_day) with (previous_end + 1 * us_per_day) in Hrange
        by lia.
      rewrite Z.div_add in Hrange by lia. exact Hrange.
    + intros u d Hu Hud. apply in_map_iff in Hu. destruct Hu as (row & <- & Hrow).
      apply (daily_data_rows tz data bill previous_end) in Hrow.
      destruct Hrow as (d' & _ & ->). cbn in Hud. injection Hud as ->.
      cbn. auto.
Qed.

Lemma filter_head_first {A : Type} (R : A -> A -> Prop) (f : A -> bool)
    (l : list A) (x : A) (rest : list A) :
  StronglySorted R l ->
  filter f l = x :: rest ->
  In x l /\ forall y, In y l -> f y = true -> y = x \/ R x y.
Proof.
  intros Hsorted Hf.
  pose proof (filter_sorted f Hsorted) as Hs. rewrite Hf in Hs.
  inversion Hs as [|? ? _ Hall]; subst. rewrite Forall_forall in Hall.
  assert (Hx : In x (filter f l)) by (rewrite Hf; left; reflexivity).
  apply filter_In in Hx. split; [apply Hx|].
  intros y Hy Hfy.
  assert (Hin : In y (filter f l)) by (apply filter_In; auto).
  rewrite Hf in Hin. destruct Hin as [<-|Hin]; [left; reflexivity | right; apply Hall, Hin].
Qed.

(** X17. The peaks of returned billing statistics: the peak day is one
    of the daily usages, no day of the period has more energy, and among the
    days with that much energy it is the earliest; the peak power is the
    largest power of the period's readings, reported with the timestamp of
    the first reading that has it. *)
Theorem billing_stats_peaks :
  forall (tz : TimeZone) (now : Z) (data : list Reading) (bill : BillSummary)
         (previous_end : Z) (s : BillingPeriodStats.t),
    previous_bill_period_end bill = Some previous_end ->
    BillingPeriodStats.from_dataframe tz now data (Some bill) = inr s ->
    let period := period_readings tz bill previous_end data in
    In (BillingPeriodStats.peak_day s) (BillingPeriodStats.daily_usages s)
    /\ (forall u, In u (BillingPeriodStats.daily_usages s) ->
          (total_energy_kwh u <= total_energy_kwh (BillingPeriodStats.peak_day s))%Q)
    /\ (exists dp,
          date (BillingPeriodStats.peak_day s) = Day dp
          /\ forall u d,
               In u (BillingPeriodStats.daily_usages s) -> date u = Day d ->
               (total_energy_kwh u == total_energy_kwh (BillingPeriodStats.peak_day s))%Q ->
               dp <= d)
    /\ (exists v rp tp,
          pp_value (BillingPeriodStats.peak_power s) = Some v
          /\ pp_timestamp (BillingPeriodStats.peak_power s) = Instant tp
          /\ In rp period /\ timestamp rp = Some tp
          /\ (power_kw rp == v)%Q
          /\ (forall r, In r period -> (power_kw r <= v)%Q)
          /\ exists before after,
               period = before ++ rp :: after
               /\ forall r, In r before -> ~ (power_kw r == v)%Q).
Proof.
  intros tz now data bill previous_end s Hprev Hs period.
  destruct (@billing_run tz now data bill previous_end Hprev)
    as [(Hnil & Hrun)|(Hne & peak & rest & Hf & Hrun)];
    rewrite Hrun in Hs; [discriminate|].
  injection Hs as <-. fold period in Hne, Hf |- *.
  cbn [BillingPeriodStats.peak_day BillingPeriodStats.daily_usages
       BillingPeriodStats.peak_power pp_value pp_timestamp].
  destruct (daily_data_keys tz data bill previous_end) as [_ Hsorted].
  fold period in Hsorted.
  destruct (filter_head_first _ Hsorted Hf) as (Hpeak & Hfirst).
  destruct (@best_day tz data bill previous_end) as (peak' & rest' & Hf' & _ & Hbest).
  { intros Hnil. apply Hne. apply (daily_data_nil tz data bill previous_end). exact Hnil. }
  fold period in Hf', Hbest. rewrite Hf in Hf'. injection Hf' as <- <-.
  assert (Hkey : exists dp, BillingPeriodStats.d_date peak = Some dp).
  { apply (daily_data_rows tz data bill previous_end) in Hpeak.
    destruct Hpeak as (dp & _ & ->). exists dp. reflexivity. }
  destruct Hkey as (dp & Hdp).
  split; [apply in_map; exact Hpeak|]. split; [|split].
  - intros u Hu. apply in_map_iff in Hu. destruct Hu as (row & <- & Hrow).
    apply Hbest. exact Hrow.
  - exists dp. split; [cbn; rewrite Hdp; reflexivity|].
    intros u d Hu Hud Heq. apply in_map_iff in Hu. destruct Hu as (row & <- & Hrow).
    cbn in Hud, Heq.
    destruct (BillingPeriodStats.d_date row) as [d'|] eqn:Hrd; [|discriminate].
    injection Hud as ->.
    assert (Hsel : q_eq_filter (BillingPeriodStats.d_total_energy_kwh row)
                     (q_max (map BillingPeriodStats.d_total_energy_kwh
                               (daily_table tz period))) = true).
    { assert (Hp : In peak (filter
                (fun row0 => q_eq_filter (BillingPeriodStats.d_total_energy_kwh row0)
                   (q_max (map BillingPeriodStats.d_total_energy_kwh
                             (daily_table tz period))))
                (daily_table tz period))) by (rewrite Hf; left; reflexivity).
      apply filter_In in Hp. destruct Hp as [_ Hp].
      destruct (q_max _) as [m|]; [|discriminate]. cbn [q_eq_filter] in *.
      apply Qeq_bool_iff in Hp. apply Qeq_bool_iff. rewrite Heq. exact Hp. }
    destruct (Hfirst row Hrow Hsel) as [->|[Hle Hneq]].
    + rewrite Hdp in Hrd. injection Hrd as ->. lia.
    + rewrite Hdp, Hrd in Hle. cbn in Hle. apply Z.leb_le in Hle. exact Hle.
  - destruct (@peak_spec period Hne)
      as (v & rp & Hv & Hrp & Heq & Hle & Hfirstp & Hsplit).
    rewrite Hv, Hfirstp.
    destruct (period_dates tz data bill previous_end rp Hrp) as (d & Hd & _).
    unfold date_of in Hd. destruct (timestamp rp) as [tp|] eqn:Htp; [|discriminate].
    exists v, rp, tp.
    split; [reflexivity|]. split; [reflexivity|]. split; [exact Hrp|].
    split; [exact Htp|]. split; [exact Heq|]. split; [exact Hle | exact Hsplit].
Qed.

(* ------------------------------------------------------------------ *)
(** * Reading the workbook *)

Lemma validate_sheets_outcome (file : Reader.Workbook) :
  match file with
  | Some sheets =>
      if (List.length sheets <? 2)%nat
      then Reader._validate_excel_sheets file = inl Reader.IOError
      else Reader._validate_excel_sheets file = inr sheets
  | None => Reader._validate_excel_sheets file = inl Reader.IOError
  end.
Proof.
  destruct file as [sheets|]; [|reflexivity].
  unfold Reader._validate_excel_sheets. rewrite length_map.
  destruct (List.length sheets <? 2)%nat; reflexivity.
Qed.

Lemma with_columns_error (to_date : string -> option Z) (sheet : Reader.RawSheet)
    (e : Reader.error) :
  Reader.with_columns to_date sheet = inl e -> e = Reader.PolarsError.
Proof.
  unfold Reader.with_columns.
  destruct (filter (str_contains "kW") (Reader.raw_names sheet)); [congruence|].
  destruct (forallb _ _); [discriminate | congruence].
Qed.

Ltac reader_cases :=
  solve
    [ repeat split; intros;
      repeat match goal with
             | H : Some _ = Some _ |- _ => injection H as <-
             | H : inl _ = inl _ |- _ => injection H as <-
             end;
      first [ congruence | lia | exact I | auto ] ].

(** X18. Reading the workbook: it fails with IOError exactly when the
    file cannot be read or holds fewer than two sheets (the ValueError of
    the validation never leaves it); with two or more sheets, a missing
    sheet name fails with AttributeError, the energy sheet being looked up
    first; a result comes from the two sheets of the expected names, each
    with its dates converted and its total added. *)
Theorem reader_outcomes :
  forall (to_date : string -> option Z) (file : Reader.Workbook),
    (Reader._read_excel_sheets to_date file = inl Reader.IOError
     <-> match file with
         | None => True
         | Some sheets => (List.length sheets < 2)%nat
         end)
    /\ (forall sheets,
          file = Some sheets -> (2 <= List.length sheets)%nat ->
          Reader.get "kWH Usage Data" sheets = None ->
          Reader._read_excel_sheets to_date file = inl Reader.AttributeError)
    /\ (forall sheets energy energy_df,
          file = Some sheets -> (2 <= List.length sheets)%nat ->
          Reader.get "kWH Usage Data" sheets = Some energy ->
          Reader.with_columns to_date energy = inr energy_df ->
          Reader.get "kW Usage Data" sheets = None ->
          Reader._read_excel_sheets to_date file = inl Reader.AttributeError)
    /\ (forall e,
          Reader._read_excel_sheets to_date file = inl e ->
          e = Reader.IOError \/ e = Reader.AttributeError \/ e = Reader.PolarsError)
    /\ (forall raw,
          Reader._read_excel_sheets to_date file = inr raw ->
          exists sheets energy power,
            file = Some sheets /\ (2 <= List.length sheets)%nat
            /\ Reader.get "kWH Usage Data" sheets = Some energy
            /\ Reader.get "kW Usage Data" sheets = Some power
            /\ Reader.with_columns to_date energy = inr (energy_df raw)
            /\ Reader.with_columns to_date power = inr (power_df raw)).
Proof.
  intros to_date file. unfold Reader._read_excel_sheets.
  pose proof (validate_sheets_outcome file) as Hv.
  destruct file as [sheets|]; [|rewrite Hv; reader_cases].
  destruct (Nat.ltb_spec (List.length sheets) 2) as [Hfew|Hmany]; rewrite Hv;
    [reader_cases|].
  destruct (Reader.get "kWH Usage Data" sheets) as [energy|] eqn:Hen;
    [|reader_cases].
  destruct (Reader.with_columns to_date energy) as [e1|edf] eqn:Hedf.
  { pose proof (with_columns_error _ _ Hedf) as ->. reader_cases. }
  destruct (Reader.get "kW Usage Data" sheets) as [power|] eqn:Hpw;
    [|reader_cases].
  destruct (Reader.with_columns to_date power) as [e2|pdf] eqn:Hpdf.
  { pose proof (with_columns_error _ _ Hpdf) as ->. reader_cases. }
  split; [split; [discriminate | lia]|]. split; [intros; congruence|].
  split; [intros; congruence|]. split; [discriminate|].
  intros raw [= <-]. exists sheets, energy, power. cbn. auto 10.
Qed.

Lemma set_cell_total (v : Q) (names : list string) :
  forall cs,
    List.length cs = List.length names ->
    cell_of "Total" (Reader.set_name "Total" names) (Reader.set_cell "Total" v names cs)
    = v.
Proof.
  induction names as [|n names IH]; intros cs Hlen.
  - destruct cs; [reflexivity | discriminate].
  - destruct cs as [|c cs]; [discriminate|].
    cbn [Reader.set_name Reader.set_cell].
    destruct (String.eqb n "Total") eqn:Hn.
    + cbn [cell_of]. rewrite Hn. reflexivity.
    + cbn [cell_of]. rewrite Hn. apply IH. simpl in Hlen. lia.
Qed.

(** X19. What the conversion of a sheet adds: a returned table has the
    header of the sheet with the Total column (in its place if the sheet had
    one, at the end if not) and one row per row of the sheet, in order, with
    the date that the text of the row stands for; the Total cell of a row as
    wide as the header is the sum of the row's cells in the columns whose
    name holds kW, and there is such a column. *)
Theorem reader_adds_date_and_total :
  forall (to_date : string -> option Z) (sheet : Reader.RawSheet) (df : WideTable),
    Reader.with_columns to_date sheet = inr df ->
    col_names df = Reader.set_name "Total" (Reader.raw_names sheet)
    /\ (exists name, In name (Reader.raw_names sheet) /\ str_contains "kW" name = true)
    /\ Forall2
         (fun raw w =>
            to_date (Reader.raw_Date raw) = Some (Date w)
            /\ cells w
               = Reader.set_cell "Total"
                   (Polars.sum (select_cells (str_contains "kW")
                                  (Reader.raw_names sheet) (Reader.raw_cells raw)))
                   (Reader.raw_names sheet) (Reader.raw_cells raw)
            /\ (List.length (Reader.raw_cells raw)
                = List.length (Reader.raw_names sheet) ->
                cell_of "Total" (col_names df) (cells w)
                = Polars.sum (select_cells (str_contains "kW")
                                (Reader.raw_names sheet) (Reader.raw_cells raw))))
         (Reader.raw_rows sheet) (rows df).
Proof.
  intros to_date sheet df. unfold Reader.with_columns.
  destruct (filter (str_contains "kW") (Reader.raw_names sheet)) as [|n ns] eqn:Hkw;
    [discriminate|].
  destruct (forallb _ (Reader.raw_rows sheet)) eqn:Hall; [|discriminate].
  intros [= <-]. cbn [col_names rows].
  split; [reflexivity|]. split.
  { exists n. apply filter_In. rewrite Hkw. left. reflexivity. }
  rewrite forallb_forall in Hall.
  induction (Reader.raw_rows sheet) as [|raw raws IH]; [constructor|].
  cbn [flat_map].
  assert (Hraw := Hall raw (or_introl eq_refl)).
  destruct (to_date (Reader.raw_Date raw)) as [d|] eqn:Hd; [|discriminate].
  cbn [app]. constructor.
  - cbn [Date cells]. split; [exact Hd|]. split; [reflexivity|].
    intros Hlen. apply set_cell_total. exact Hlen.
  - apply IH. intros x Hx. apply Hall. right. exact Hx.
Qed.

(* ------------------------------------------------------------------ *)
(** * The Total column is never read *)

Lemma set_name_filter (g : string -> bool) (names : list string) :
  g "Total"%string = false ->
  filter g (Reader.set_name "Total" names) = filter g names.
Proof.
  intros Hg. induction names as [|n names IH]; cbn [Reader.set_name].
  - cbn [filter]. rewrite Hg. reflexivity.
  - destruct (String.eqb n "Total"); [reflexivity|].
    cbn [filter]. rewrite IH. reflexivity.
Qed.

Lemma set_cell_select (g : string -> bool) (v : Q) (names : list string) :
  g "Total"%string = false ->
  forall cs,
    List.length cs = List.length names ->
    select_cells g (Reader.set_name "Total" names) (Reader.set_cell "Total" v names cs)
    = select_cells g names cs.
Proof.
  intros Hg. unfold select_cells.
  induction names as [|n names IH]; intros cs Hlen.
  - destruct cs; [|discriminate].
    cbn [Reader.set_name Reader.set_cell combine filter fst]. rewrite Hg. reflexivity.
  - destruct cs as [|c cs]; [discriminate|].
    cbn [Reader.set_name Reader.set_cell].
    destruct (String.eqb_spec n "Total") as [->|Hn].
    + cbn [combine filter fst]. rewrite Hg. reflexivity.
    + cbn [combine filter fst]. simpl in Hlen.
      destruct (g n); cbn [map snd]; rewrite (IH cs) by lia; reflexivity.
Qed.

Lemma set_cell_other (name : string) (v : Q) (names : list string) :
  name <> "Total"%string ->
  forall cs,
    List.length cs = List.length names ->
    cell_of name (Reader.set_name "Total" names) (Reader.set_cell "Total" v names cs)
    = cell_of name names cs.
Proof.
  intros Hname. induction names as [|n names IH]; intros cs Hlen.
  - destruct cs; [|discriminate]. cbn [Reader.set_name Reader.set_cell cell_of].
    destruct (String.eqb_spec "Total" name); [congruence | reflexivity].
  - destruct cs as [|c cs]; [discriminate|].
    cbn [Reader.set_name Reader.set_cell].
    destruct (String.eqb_spec n "Total") as [->|Hn].
    + cbn [cell_of]. destruct (String.eqb_spec "Total" name); [congruence | reflexivity].
    + cbn [cell_of]. destruct (String.eqb n name); [reflexivity|].
      apply IH. simpl in Hlen. lia.
Qed.

Lemma Forall2_filter {A B : Type} (R : A -> B -> Prop) (f : A -> bool) (g : B -> bool)
    (l : list A) (l' : list B) :
  Forall2 (fun a b => R a b /\ f a = g b) l l' ->
  Forall2 R (filter f l) (filter g l').
Proof.
  induction 1 as [|a b l l' [Hab Hfg] _ IH]; cbn [filter]; [constructor|].
  rewrite Hfg. destruct (g b); [constructor; assumption | exact IH].
Qed.

Lemma Forall2_map_eq {A B C : Type} (R : A -> B -> Prop) (f : A -> C) (g : B -> C)
    (l : list A) (l' : list B) :
  Forall2 R l l' -> (forall a b, R a b -> f a = g b) -> map f l = map g l'.
Proof.
  induction 1 as [|a b l l' Hab _ IH]; intros Hfg; [reflexivity|].
  cbn [map]. rewrite (Hfg a b Hab), IH by exact Hfg. reflexivity.
Qed.

Lemma Forall2_weaken {A B : Type} (R R' : A -> B -> Prop) (l : list A) (l' : list B) :
  (forall a b, R a b -> R' a b) -> Forall2 R l l' -> Forall2 R' l l'.
Proof. intros HR. induction 1; constructor; auto. Qed.

Section Totalled.

Variable eo : EmptyOn.
Variables df plain : WideTable.
Hypothesis Htotalled : totalled df plain.

Let related (w p : WideRow) : Prop :=
  Date w = Date p
  /\ List.length (cells p) = List.length (col_names plain)
  /\ exists v, cells w = Reader.set_cell "Total" v (col_names plain) (cells p).

Lemma totalled_dates : map Date (rows df) = map Date (rows plain).
Proof.
  destruct Htotalled as [_ Hrows].
  apply (Forall2_map_eq Date Date Hrows). intros a b (Hd & _). exact Hd.
Qed.

Lemma totalled_filter (f : option Z -> bool) :
  Forall2 related
    (filter (fun r => f (Some (Date r))) (rows df))
    (filter (fun r => f (Some (Date r))) (rows plain)).
Proof.
  destruct Htotalled as [_ Hrows].
  apply Forall2_filter. eapply Forall2_weaken; [|exact Hrows].
  intros w p Hwp. split; [exact Hwp|]. destruct Hwp as (-> & _). reflexivity.
Qed.

Lemma totalled_pm_sums (l l' : list WideRow) :
  Forall2 related l l' ->
  map (fun r => Polars.sum (select_cells (str_contains " PM") (col_names df) (cells r))) l
  = map (fun r => Polars.sum (select_cells (str_contains " PM") (col_names plain) (cells r)))
      l'.
Proof.
  intros Hl. apply (Forall2_map_eq _ _ Hl).
  intros w p (_ & Hlen & v & Hcells).
  destruct Htotalled as [Hnames _]. rewrite Hnames, Hcells.
  rewrite set_cell_select by (reflexivity || exact Hlen). reflexivity.
Qed.

Lemma totalled_trimmer :
  match drop_incomplete_dates df, drop_incomplete_dates plain with
  | Ok out, Ok out' => totalled out out'
  | Raise e, Raise e' => e = e'
  | _, _ => False
  end.
Proof.
  unfold drop_incomplete_dates. cbv zeta.
  rewrite totalled_dates.
  set (latest := col_max (map Date (rows plain))).
  pose proof (totalled_filter (fun d => eq_filter d latest)) as Hlatest.
  pose proof (totalled_filter (fun d => ne_filter d latest)) as Hrest.
  cbv beta in Hlatest, Hrest.
  destruct Htotalled as [Hnames Hrows].
  assert (Hpm : filter (str_contains " PM") (col_names df)
                = filter (str_contains " PM") (col_names plain))
    by (rewrite Hnames; apply set_name_filter; reflexivity).
  rewrite Hpm.
  destruct (filter (str_contains " PM") (col_names plain)) as [|n ns]; [reflexivity|].
  rewrite (totalled_pm_sums Hlatest).
  destruct (item _) as [total|e]; cbn [bind]; [|reflexivity].
  destruct (Qeq_bool total 0).
  - split; [exact Hnames | exact Hrest].
  - exact Htotalled.
Qed.

Lemma totalled_reshaper :
  has_time_column plain ->
  _transform_to_long_format eo df = _transform_to_long_format eo plain.
Proof.
  intros (name0 & Hin0 & Hmark0).
  unfold _transform_to_long_format. cbv zeta.
  destruct Htotalled as [Hnames Hrows].
  assert (Htc : filter (fun n => str_contains "AM" n || str_contains "PM" n)
                  (col_names df)
                = filter (fun n => str_contains "AM" n || str_contains "PM" n)
                    (col_names plain))
    by (rewrite Hnames; apply set_name_filter; reflexivity).
  rewrite Htc.
  set (time_cols := filter (fun n => str_contains "AM" n || str_contains "PM" n)
                      (col_names plain)).
  assert (Hne : time_cols <> []).
  { intros Hnil. assert (Hin : In name0 time_cols) by (apply filter_In; auto).
    rewrite Hnil in Hin. exact Hin. }
  assert (Hun : unpivot eo df time_cols = unpivot eo plain time_cols).
  { unfold unpivot.
    assert (Huse : forall t, unpivoted eo t time_cols = time_cols).
    { intros t. unfold unpivoted. destruct time_cols; [contradiction | reflexivity]. }
    rewrite !Huse. clear Hne Huse.
    assert (Hmarks : forall name, In name time_cols -> name <> "Total"%string).
    { intros name Hname -> . apply filter_In in Hname. destruct Hname as [_ Hm].
      discriminate. }
    induction time_cols as [|name names IH]; [reflexivity|].
    cbn [flat_map]. rewrite IH by (intros x Hx; apply Hmarks; right; exact Hx).
    f_equal. apply (Forall2_map_eq _ _ Hrows).
    intros w p (Hd & Hlen & v & Hcells).
    rewrite Hd, Hnames, Hcells.
    rewrite set_cell_other by (try exact Hlen; apply Hmarks; left; reflexivity).
    reflexivity. }
  rewrite Hun. reflexivity.
Qed.

End Totalled.

Lemma trimmer_keeps_header (df out : WideTable) :
  drop_incomplete_dates df = Ok out -> col_names out = col_names df.
Proof.
  unfold drop_incomplete_dates. cbv zeta.
  destruct (item _) as [total|]; cbn [bind]; [|discriminate].
  intros [= <-]. destruct (Qeq_bool total 0); reflexivity.
Qed.

Lemma with_columns_totalled (to_date : string -> option Z) (sheet : Reader.RawSheet)
    (df : WideTable) :
  Reader.with_columns to_date sheet = inr df ->
  (forall r, In r (Reader.raw_rows sheet) ->
             List.length (Reader.raw_cells r) = List.length (Reader.raw_names sheet)) ->
  totalled df (dated to_date sheet).
Proof.
  unfold Reader.with_columns.
  destruct (filter (str_contains "kW") (Reader.raw_names sheet)); [discriminate|].
  destruct (forallb _ (Reader.raw_rows sheet)); [|discriminate].
  intros [= <-] Hwide. split; [reflexivity|].
  unfold dated. cbn [rows col_names].
  induction (Reader.raw_rows sheet) as [|raw raws IH]; [constructor|].
  cbn [flat_map].
  destruct (to_date (Reader.raw_Date raw)) as [d|].
  - cbn [app]. constructor.
    + cbn [Date cells]. split; [reflexivity|].
      split; [apply Hwide; left; reflexivity | eauto].
    + apply IH. intros r Hr. apply Hwide. right. exact Hr.
  - cbn [app]. apply IH. intros r Hr. apply Hwide. right. exact Hr.
Qed.

Lemma totalled_processor (eo : EmptyOn) (tz : TimeZone)
    (ptab etab power energy : WideTable) :
  totalled ptab power ->
  totalled etab energy ->
  has_time_column power ->
  has_time_column energy ->
  process_for_entities eo tz (mkRawUsageData ptab etab)
  = process_for_entities eo tz (mkRawUsageData power energy).
Proof.
  intros Hp He Htp Hte. unfold process_for_entities, _clean. cbn [power_df energy_df].
  pose proof (totalled_trimmer Hp) as Tp. pose proof (totalled_trimmer He) as Te.
  destruct (drop_incomplete_dates ptab) as [pout|];
    destruct (drop_incomplete_dates power) as [pout'|] eqn:Hdp;
    try contradiction; cbn [bind]; [|reflexivity].
  destruct (drop_incomplete_dates etab) as [eout|];
    destruct (drop_incomplete_dates energy) as [eout'|] eqn:Hde;
    try contradiction; cbn [bind]; [|reflexivity].
  cbn [power_df energy_df].
  rewrite (totalled_reshaper eo Tp), (totalled_reshaper eo Te); [reflexivity| |].
  - destruct Hte as (name & Hin & Hm). exists name.
    rewrite (trimmer_keeps_header _ Hde). auto.
  - destruct Htp as (name & Hin & Hm). exists name.
    rewrite (trimmer_keeps_header _ Hdp). auto.
Qed.

(** X20. The Total column that reading adds is never read: for sheets
    whose rows are as wide as their header and which have a half-hour
    column, the processor returns (or raises) the same from the converted
    sheets as from the sheets with only their dates converted. *)
Theorem total_column_is_never_read :
  forall (eo : EmptyOn) (tz : TimeZone) (to_date : string -> option Z)
         (power energy : Reader.RawSheet) (power_table energy_table : WideTable),
    Reader.with_columns to_date power = inr power_table ->
    Reader.with_columns to_date energy = inr energy_table ->
    (forall r, In r (Reader.raw_rows power) ->
               List.length (Reader.raw_cells r) = List.length (Reader.raw_names power)) ->
    (forall r, In r (Reader.raw_rows energy) ->
               List.length (Reader.raw_cells r) = List.length (Reader.raw_names energy)) ->
    has_time_column (dated to_date power) ->
    has_time_column (dated to_date energy) ->
    process_for_entities eo tz (mkRawUsageData power_table energy_table)
    = process_for_entities eo tz
        (mkRawUsageData (dated to_date power) (dated to_date energy)).
Proof.
  intros eo tz to_date power energy power_table energy_table Hp He Hwp Hwe Htp Hte.
  apply totalled_processor.
  - apply (with_columns_totalled _ _ Hp Hwp).
  - apply (with_columns_totalled _ _ He Hwe).
  - exact Htp.
  - exact Hte.
Qed.

(* ------------------------------------------------------------------ *)
(** * The scraper: what a fetch reports *)

(** One case of the calls of [login]: every part of the statement is
    settled by computing the outcome. *)
Ltac login_case :=
  cbn;
  split; [discriminate|];
  split; [intros result H; first [discriminate H | injection H as <-; reflexivity]|];
  split;
    [split;
       [intros (result & H); first [discriminate H | repeat split; eauto]
       |intros (H1 & H2 & H3 & H4 & (m & H5) & H6); first [discriminate | eauto]]|];
  repeat split; intros; first [discriminate | reflexivity].

(** X21. Whatever the browser does, [login] never raises InvalidAuth and
    never returns an unsuccessful result: it returns exactly when every call
    returns and a submit button is found.  A timeout while waiting for the
    e-mail field is not reported as CannotConnect: the CannotConnect raised
    for it is caught again and leaves as the base class, as does a missing
    submit button; a timeout of any other call leaves as CannotConnect. *)
Theorem login_never_raises_invalid_auth :
  forall (page : Scraper.LoginPage),
    Scraper.login page <> inl Scraper.InvalidAuth
    /\ (forall result, Scraper.login page = inr result ->
          Scraper.login_success result = true)
    /\ ((exists result, Scraper.login page = inr result) <->
        Scraper.open_login page = None /\ Scraper.wait_email page = None
        /\ Scraper.find_password page = None /\ Scraper.fill_form page = None
        /\ (exists n, Scraper.submit_buttons page = inr (S n))
        /\ Scraper.click_submit page = None)
    /\ (Scraper.open_login page = None ->
        Scraper.wait_email page = Some Scraper.TimeoutException ->
        Scraper.login page = inl Scraper.DominionEnergyException)
    /\ (Scraper.open_login page = None -> Scraper.wait_email page = None ->
        Scraper.find_password page = None -> Scraper.fill_form page = None ->
        Scraper.submit_buttons page = inr 0%nat ->
        Scraper.login page = inl Scraper.DominionEnergyException)
    /\ (Scraper.open_login page = Some Scraper.TimeoutException ->
        Scraper.login page = inl Scraper.CannotConnect).
Proof.
  intros [o w f fl sb c]. unfold Scraper.login, Scraper.login_body.
  cbn [Scraper.open_login Scraper.wait_email Scraper.find_password Scraper.fill_form
       Scraper.submit_buttons Scraper.click_submit].
  destruct o as [[]|]; [login_case ..|].
  destruct w as [[]|]; [login_case ..|].
  destruct f as [[]|]; [login_case ..|].
  destruct fl as [[]|]; [login_case ..|].
  destruct sb as [[]|[|n]]; [login_case ..|].
  destruct c as [[]|]; login_case.
Qed.

Lemma login_result_success (page : Scraper.LoginPage) (result : Scraper.LoginResult) :
  Scraper.login page = inr result -> Scraper.login_success result = true.
Proof.
  destruct page as [o w f fl sb c]. unfold Scraper.login, Scraper.login_body.
  cbn [Scraper.open_login Scraper.wait_email Scraper.find_password Scraper.fill_form
       Scraper.submit_buttons Scraper.click_submit].
  destruct o as [[]|]; cbn; try discriminate.
  destruct w as [[]|]; cbn; try discriminate.
  destruct f as [[]|]; cbn; try discriminate.
  destruct fl as [[]|]; cbn; try discriminate.
  destruct sb as [[]|[|n]]; cbn; try discriminate.
  destruct c as [[]|]; cbn; try discriminate.
  intros [= <-]. reflexivity.
Qed.

(** The outcome of a fetch, by what the visit leaves behind. *)
Lemma fetch_cases (tzinfo : TimeZone) (site : Scraper.Site) :
  match Scraper.mkdir site with
  | Some f => Scraper.fetch_usage_data tzinfo site = inl f
  | None =>
      match Scraper.downloaded site, Scraper._fetch_bill_summary site with
      | Some path, Some bill =>
          Scraper.fetch_usage_data tzinfo site
          = inr (Scraper.mkDownloadResult path true
                   (Some (update_timezone bill (Some tzinfo))))
      | _, _ => Scraper.fetch_usage_data tzinfo site = inr Scraper.failed
      end
  end.
Proof.
  unfold Scraper.fetch_usage_data, Scraper.downloaded.
  destruct (Scraper.mkdir site); [reflexivity|].
  destruct (Scraper.initialize_driver site); [reflexivity|].
  destruct (Scraper.login (Scraper.login_page site)) as [e|result] eqn:Hlogin;
    [reflexivity|].
  rewrite (login_result_success _ Hlogin). cbn [negb andb].
  destruct (Scraper._navigate_to_usage site); cbn [negb]; [|reflexivity].
  destruct (Scraper._download_usage_data site); [|reflexivity].
  destruct (Scraper._fetch_bill_summary site); reflexivity.
Qed.

(** X22. A fetch raises only what creating the download directory
    raises; every other failure, of the driver, the login, the
    navigation, the download or the bill summary, gives an unsuccessful
    result whose path is empty and which has no bill summary, even when a
    file was downloaded.  A successful result names the downloaded file and
    carries the bill summary with the time zone set. *)
Theorem fetch_reports_failures_as_results :
  forall (tzinfo : TimeZone) (site : Scraper.Site),
    (forall f, Scraper.fetch_usage_data tzinfo site = inl f <-> Scraper.mkdir site = Some f)
    /\ (forall result,
          Scraper.fetch_usage_data tzinfo site = inr result ->
          Scraper.success result = true ->
          exists bill,
            Scraper.downloaded site = Some (Scraper.filepath result)
            /\ Scraper._fetch_bill_summary site = Some bill
            /\ Scraper.bill_summary result = Some (update_timezone bill (Some tzinfo)))
    /\ (forall result,
          Scraper.fetch_usage_data tzinfo site = inr result ->
          Scraper.success result = false ->
          result = Scraper.failed)
    /\ (forall path,
          Scraper.mkdir site = None ->
          Scraper.downloaded site = Some path ->
          Scraper._fetch_bill_summary site = None ->
          Scraper.fetch_usage_data tzinfo site = inr Scraper.failed).
Proof.
  intros tzinfo site. pose proof (fetch_cases tzinfo site) as Hf.
  destruct (Scraper.mkdir site) as [f0|].
  { rewrite Hf. split; [intros f; split; congruence|].
    split; [discriminate|]. split; discriminate. }
  destruct (Scraper.downloaded site) as [path|],
           (Scraper._fetch_bill_summary site) as [bill|]; rewrite Hf.
  - split; [intros f; split; discriminate|]. split.
    + intros result [= <-] _. exists bill. auto.
    + split; [intros result [= <-]; discriminate | discriminate].
  - split; [intros f; split; discriminate|]. split.
    + intros result [= <-]; discriminate.
    + split; [intros result [= <-] _; reflexivity | reflexivity].
  - split; [intros f; split; discriminate|]. split.
    + intros result [= <-]; discriminate.
    + split; [intros result [= <-] _; reflexivity | discriminate].
  - split; [intros f; split; discriminate|]. split.
    + intros result [= <-]; discriminate.
    + split; [intros result [= <-] _; reflexivity | discriminate].
Qed.

(* ------------------------------------------------------------------ *)
(** * One update of the coordinator *)

Section OneUpdate.

Variable eo : EmptyOn.
Variable to_date : string -> option Z.
Variable tz : TimeZone.
Variable now_wall : Z.
Variable site : Scraper.Site.
Variable file : Reader.Workbook.
Variable unlink_fails : bool.
Variable self : Update.Coordinator.
Variable world : Update.World.

Let run := Update._async_update_data eo to_date tz now_wall site file unlink_fails self world.
Let self' : Update.Coordinator := fst (fst run).
Let world' : Update.World := snd (fst run).
Let outcome : Update.error + list Reading := snd run.

Let disk : list string :=
  match Scraper.downloaded site with
  | Some path => path :: Update.files world
  | None => Update.files world
  end.

(** The update, case by case. *)
Lemma update_cases :
  match Scraper.fetch_usage_data tz site with
  | inl f =>
      run = (self, Update.mkWorld disk (Update.series world), inl (Update.Library f))
  | inr download_result =>
      if Scraper.success download_result
      then
        let cleaned :=
          Update.cleanup unlink_fails (Some (Scraper.filepath download_result)) disk in
        match Update.process_for_entities eo to_date tz file with
        | inl e =>
            run = (self, Update.mkWorld cleaned (Update.series world), inl e)
            /\ e <> Update.ConfigEntryAuthFailed
            /\ (forall own, e <> Update.Own own)
        | inr data =>
            let self1 :=
              Update.mkCoordinator (Scraper.bill_summary download_result)
                (Update._last_data self) in
            match Scraper.bill_summary download_result with
            | None =>
                run = (self1, Update.mkWorld cleaned (Update.series world),
                       inl Update.AttributeError)
            | Some _ =>
                match _insert_statistics tz (Update.series world) now_wall data with
                | Raise e =>
                    run = (self1, Update.mkWorld cleaned (Update.series world),
                           inl (Update.Python e))
                | Ok series1 =>
                    run = (Update.mkCoordinator (Scraper.bill_summary download_result)
                             (Some data),
                           Update.mkWorld cleaned series1,
                           inr data)
                end
            end
        end
      else
        run = (self, Update.mkWorld disk (Update.series world),
               inl (Update.Python RuntimeError))
  end.
Proof.
  unfold run, Update._async_update_data. fold disk.
  destruct (Scraper.fetch_usage_data tz site) as [f|download_result]; [reflexivity|].
  destruct (Scraper.success download_result); cbn [negb]; [|reflexivity].
  cbv zeta.
  destruct (Update.process_for_entities eo to_date tz file) as [e|data] eqn:Hp.
  - assert (He : e <> Update.ConfigEntryAuthFailed /\ forall own, e <> Update.Own own).
    { unfold Update.process_for_entities in Hp.
      destruct (Reader._read_excel_sheets to_date file); [injection Hp as <-|].
      - split; [discriminate | intros own; discriminate].
      - destruct (DominionDataProcessor.process_for_entities eo tz r);
          [discriminate | injection Hp as <-].
        split; [discriminate | intros own; discriminate]. }
    destruct He as [He1 He2]. split; [|split; assumption].
    destruct e as [| | |own| |]; try reflexivity.
    exfalso. apply (He2 own). reflexivity.
  - destruct (Scraper.bill_summary download_result); [|reflexivity].
    destruct (_insert_statistics tz (Update.series world) now_wall data); reflexivity.
Qed.

End OneUpdate.

(** X23. An update never raises ConfigEntryAuthFailed, and no exception
    of the integration leaves it: a fetch reports every failure of the site
    as an unsuccessful result, so a failed login, like a failed navigation,
    download or bill summary, leaves as RuntimeError; the coordinator and the
    recorder's series are then as they were. *)
Theorem update_never_asks_for_reauthentication :
  forall (eo : EmptyOn) (to_date : string -> option Z) (tz : TimeZone) (now_wall : Z)
         (site : Scraper.Site) (file : Reader.Workbook) (unlink_fails : bool)
         (self : Update.Coordinator) (world : Update.World),
    let run := Update._async_update_data eo to_date tz now_wall site file
                 unlink_fails self world in
    snd run <> inl Update.ConfigEntryAuthFailed
    /\ (forall own, snd run <> inl (Update.Own own))
    /\ (Scraper.mkdir site = None ->
        Scraper.downloaded site = None \/ Scraper._fetch_bill_summary site = None ->
        snd run = inl (Update.Python RuntimeError)
        /\ fst (fst run) = self
        /\ Update.series (snd (fst run)) = Update.series world)
    /\ (forall e,
          Scraper.mkdir site = None ->
          Scraper.initialize_driver site = None ->
          Scraper.login (Scraper.login_page site) = inl e ->
          snd run = inl (Update.Python RuntimeError)).
Proof.
  intros eo to_date tz now_wall site file unlink_fails self world run.
  pose proof (update_cases eo to_date tz now_wall site file unlink_fails self world) as Hu.
  pose proof (fetch_cases tz site) as Hf.
  fold run in Hu.
  assert (Hfailed : Scraper.fetch_usage_data tz site = inr Scraper.failed ->
                    snd run = inl (Update.Python RuntimeError)
                    /\ fst (fst run) = self
                    /\ Update.series (snd (fst run)) = Update.series world).
  { intros Hfail. rewrite Hfail in Hu. cbn in Hu. rewrite Hu. cbn. auto. }
  assert (Hnever : snd run <> inl Update.ConfigEntryAuthFailed
                   /\ forall own, snd run <> inl (Update.Own own)).
  { destruct (Scraper.fetch_usage_data tz site) as [f|download_result].
    - rewrite Hu. cbn. split; [discriminate | intros own; discriminate].
    - destruct (Scraper.success download_result).
      + cbv zeta in Hu.
        destruct (Update.process_for_entities eo to_date tz file) as [e|data].
        * destruct Hu as (Hrun & He1 & He2). rewrite Hrun. cbn.
          split; [congruence | intros own; specialize (He2 own); congruence].
        * destruct (Scraper.bill_summary download_result).
          -- destruct (_insert_statistics tz (Update.series world) now_wall data);
               rewrite Hu; cbn; split; try discriminate; intros own; discriminate.
          -- rewrite Hu. cbn. split; [discriminate | intros own; discriminate].
      + rewrite Hu. cbn. split; [discriminate | intros own; discriminate]. }
  destruct Hnever as [Hn1 Hn2].
  split; [exact Hn1|]. split; [exact Hn2|]. split.
  - intros Hmk Hnone. rewrite Hmk in Hf. apply Hfailed.
    destruct Hnone as [Hd|Hb].
    + rewrite Hd in Hf. exact Hf.
    + rewrite Hb in Hf. destruct (Scraper.downloaded site); exact Hf.
  - intros e Hmk Hinit Hlogin. apply Hfailed.
    unfold Scraper.fetch_usage_data. rewrite Hmk, Hinit, Hlogin. reflexivity.
Qed.

(** X24. The downloaded file and the update: when the fetch succeeded,
    the file it names is gone after the update, whatever the processing and
    the merge did (unless the removal itself fails); when the file was
    downloaded but the bill summary could not be read, the file stays in the
    download directory.  No other file of the directory is touched. *)
Theorem update_removes_only_the_reported_file :
  forall (eo : EmptyOn) (to_date : string -> option Z) (tz : TimeZone) (now_wall : Z)
         (site : Scraper.Site) (file : Reader.Workbook)
         (self : Update.Coordinator) (world : Update.World) (path : string),
    Scraper.mkdir site = None ->
    Scraper.downloaded site = Some path ->
    let after :=
      Update.files
        (snd (fst (Update._async_update_data eo to_date tz now_wall site file false
                     self world))) in
    (Scraper._fetch_bill_summary site <> None -> ~ In path after)
    /\ (Scraper._fetch_bill_summary site = None -> In path after)
    /\ (forall other, other <> path -> (In other after <-> In other (Update.files world))).
Proof.
  intros eo to_date tz now_wall site file self world path Hmk Hdown after.
  pose proof (update_cases eo to_date tz now_wall site file false self world) as Hu.
  pose proof (fetch_cases tz site) as Hf.
  rewrite Hmk, Hdown in Hf. rewrite Hdown in Hu.
  assert (Hclean : Update.cleanup false (Some path) (path :: Update.files world)
                   = filter (fun p => negb (String.eqb p path)) (Update.files world)).
  { unfold Update.cleanup, Update.unlink. cbn [existsb filter].
    rewrite String.eqb_refl. reflexivity. }
  assert (Hgone : forall other,
             In other (filter (fun p => negb (String.eqb p path)) (Update.files world))
             <-> other <> path /\ In other (Update.files world)).
  { intros other. rewrite filter_In.
    destruct (String.eqb_spec other path) as [->|Hne]; simpl; split.
    - intros [_ H]; discriminate.
    - intros [H _]; contradiction.
    - intros [H _]. auto.
    - intros [_ H]. auto. }
  destruct (Scraper._fetch_bill_summary site) as [bill|].
  - rewrite Hf in Hu. cbn [Scraper.success Scraper.filepath Scraper.bill_summary] in Hu.
    cbv zeta in Hu. rewrite Hclean in Hu.
    assert (Hafter : after = filter (fun p => negb (String.eqb p path)) (Update.files world)).
    { unfold after.
      destruct (Update.process_for_entities eo to_date tz file) as [e|data].
      - destruct Hu as (Hrun & _). rewrite Hrun. reflexivity.
      - destruct (_insert_statistics tz (Update.series world) now_wall data);
          rewrite Hu; reflexivity. }
    rewrite Hafter. split; [|split].
    + intros _ Hin. apply Hgone in Hin. destruct Hin as [Hne _]. apply Hne. reflexivity.
    + intros Hnone. congruence.
    + intros other Hne. rewrite Hgone. tauto.
  - rewrite Hf in Hu. cbn in Hu.
    assert (Hafter : after = path :: Update.files world)
      by (unfold after; rewrite Hu; reflexivity).
    rewrite Hafter. split; [|split].
    + intros Hsome. contradiction.
    + intros _. left. reflexivity.
    + intros other Hne. simpl. split; [intros [H|H]; [congruence | exact H] | auto].
Qed.

Lemma update_readings_have_timestamps (eo : EmptyOn) (to_date : string -> option Z)
    (tz : TimeZone) (file : Reader.Workbook) (data : list Reading) :
  Update.process_for_entities eo to_date tz file = inr data ->
  forall r, In r data -> timestamp r <> None.
Proof.
  unfold Update.process_for_entities.
  destruct (Reader._read_excel_sheets to_date file) as [|raw]; [discriminate|].
  destruct (DominionDataProcessor.process_for_entities eo tz raw) as [out|] eqn:Hp;
    [|discriminate].
  intros [= <-]. exact (processor_readings_have_timestamps _ _ _ Hp).
Qed.

(** X25. What an update leaves: when it returns, it returns the readings
    of the workbook, which are then the coordinator's last data, and the
    recorder has taken the statistics of the merge; when it raises, the last
    data and the series are as before, but the bill summary is already the
    new one if the failure came from the merge, which can only raise
    KeyError: the readings of the workbook all have a timestamp, so the call
    of the recorder does not raise. *)
Theorem update_writes_state_in_two_steps :
  forall (eo : EmptyOn) (to_date : string -> option Z) (tz : TimeZone) (now_wall : Z)
         (site : Scraper.Site) (file : Reader.Workbook) (unlink_fails : bool)
         (self : Update.Coordinator) (world : Update.World),
    let run := Update._async_update_data eo to_date tz now_wall site file
                 unlink_fails self world in
    (forall data,
        snd run = inr data ->
        Update.process_for_entities eo to_date tz file = inr data
        /\ Update._last_data (fst (fst run)) = Some data
        /\ Update.bill_summary (fst (fst run)) <> None
        /\ exists stats,
             statistics_to_add tz (Update.series world) now_wall data = Ok stats
             /\ _insert_statistics tz (Update.series world) now_wall data
                = Ok (Update.series (snd (fst run)))
             /\ Update.series (snd (fst run))
                = store_after (Update.series world) (Ok stats))
    /\ (forall e,
          snd run = inl e ->
          Update._last_data (fst (fst run)) = Update._last_data self
          /\ Update.series (snd (fst run)) = Update.series world)
    /\ (forall path bill data e,
          Scraper.mkdir site = None ->
          Scraper.downloaded site = Some path ->
          Scraper._fetch_bill_summary site = Some bill ->
          Update.process_for_entities eo to_date tz file = inr data ->
          _insert_statistics tz (Update.series world) now_wall data = Raise e ->
          e = KeyError
          /\ snd run = inl (Update.Python KeyError)
          /\ Update.bill_summary (fst (fst run))
             = Some (update_timezone bill (Some tz))
          /\ Update._last_data (fst (fst run)) = Update._last_data self).
Proof.
  intros eo to_date tz now_wall site file unlink_fails self world run.
  pose proof (update_cases eo to_date tz now_wall site file unlink_fails self world) as Hu.
  fold run in Hu.
  split; [|split].
  - intros data Hret.
    destruct (Scraper.fetch_usage_data tz site) as [f|download_result];
      [rewrite Hu in Hret; discriminate|].
    destruct (Scraper.success download_result);
      [|rewrite Hu in Hret; discriminate].
    cbv zeta in Hu.
    destruct (Update.process_for_entities eo to_date tz file) as [e|data'].
    { destruct Hu as (Hrun & _). rewrite Hrun in Hret. discriminate. }
    destruct (Scraper.bill_summary download_result) as [b|] eqn:Hb;
      [|rewrite Hu in Hret; discriminate].
    destruct (_insert_statistics tz (Update.series world) now_wall data')
      as [written|e] eqn:Hins; [|rewrite Hu in Hret; discriminate].
    rewrite Hu in Hret |- *. cbn in Hret |- *. injection Hret as ->.
    split; [reflexivity|]. split; [reflexivity|]. split; [discriminate|].
    destruct (run_returns _ _ _ _ Hins) as (stats & Hst & Hwritten).
    exists stats. rewrite Hins. auto.
  - intros e Hraise.
    destruct (Scraper.fetch_usage_data tz site) as [f|download_result];
      [rewrite Hu; auto|].
    destruct (Scraper.success download_result); [|rewrite Hu; auto].
    cbv zeta in Hu.
    destruct (Update.process_for_entities eo to_date tz file) as [e0|data'].
    { destruct Hu as (Hrun & _). rewrite Hrun. auto. }
    destruct (Scraper.bill_summary download_result) as [b|]; [|rewrite Hu; auto].
    destruct (_insert_statistics tz (Update.series world) now_wall data')
      as [written|e1]; [rewrite Hu in Hraise; discriminate | rewrite Hu; auto].
  - intros path bill data e Hmk Hdown Hbill Hproc Hins.
    pose proof (fetch_cases tz site) as Hf. rewrite Hmk, Hdown, Hbill in Hf.
    rewrite Hf in Hu. cbn [Scraper.success Scraper.filepath Scraper.bill_summary] in Hu.
    cbv zeta in Hu. rewrite Hproc, Hins in Hu.
    assert (He : e = KeyError).
    { destruct (run_raises_only _ _ _ _ Hins) as [(Hk & _)|(_ & _ & r & Hr & Hnull)];
        [exact Hk|].
      exfalso. exact (update_readings_have_timestamps _ _ _ _ Hproc r Hr Hnull). }
    subst e. split; [reflexivity|]. rewrite Hu. cbn. auto.
Qed.

(* ------------------------------------------------------------------ *)
(** * The entry that the config flow creates *)

Lemma getitem_absent (k : string) (d : ConfigFlow.Mapping) :
  forallb (fun kv => negb (String.eqb (fst kv) k)) d = true ->
  ConfigFlow.getitem_key k d = Raise KeyError.
Proof.
  induction d as [|[k' v] d IH]; cbn [forallb ConfigFlow.getitem_key fst]; [reflexivity|].
  intros H. apply andb_true_iff in H. destruct H as [Hk Hd].
  destruct (String.eqb k' k); [discriminate|]. apply IH. exact Hd.
Qed.

(** X26. The entry that the user step creates cannot be read by the
    coordinator: the step stores the user input, whose keys are those of
    the form (the e-mail and the password), while the constructor of the
    coordinator reads the user name, so for every input that the form
    admits the constructor raises KeyError. *)
Theorem created_entry_has_no_username :
  forall (user_input entry_data : ConfigFlow.Mapping),
    ConfigFlow.STEP_USER_DATA_SCHEMA user_input = true ->
    ConfigFlow.async_step_user true user_input = Some entry_data ->
    DominionEnergyUpdateCoordinator.__init__ entry_data = Raise KeyError.
Proof.
  intros user_input entry_data Hschema [= <-].
  unfold DominionEnergyUpdateCoordinator.__init__.
  rewrite getitem_absent; [reflexivity|].
  unfold ConfigFlow.STEP_USER_DATA_SCHEMA in Hschema.
  destruct (ConfigFlow.getitem_key ConfigFlow.CONF_EMAIL user_input); [|discriminate].
  destruct (ConfigFlow.getitem_key ConfigFlow.CONF_PASSWORD user_input); [|discriminate].
  rewrite forallb_forall in Hschema |- *. intros [k v] Hkv.
  specialize (Hschema (k, v) Hkv). cbn [fst] in Hschema |- *.
  apply orb_true_iff in Hschema.
  destruct Hschema as [Hk|Hk]; apply String.eqb_eq in Hk; subst k; reflexivity.
Qed.

(* ------------------------------------------------------------------ *)
(** * The comparison of two periods *)

Lemma truediv_defined (a b : Q) :
  ~ (b == 0)%Q -> EnergyUsagePeriodComparison.truediv a b = Some (a / b)%Q.
Proof.
  intros Hb. unfold EnergyUsagePeriodComparison.truediv.
  destruct (Qeq_bool b 0) eqn:Heq; [|reflexivity].
  apply Qeq_bool_iff in Heq. contradiction.
Qed.

(** X27. The comparison never divides by zero: [create] returns for all
    arguments, with a percent change of zero when the previous usage is zero
    and otherwise the change in hundredths of the previous usage; [to_dict]
    returns for every comparison, because a number of days below one counts
    as one day. *)
Theorem comparison_never_divides_by_zero :
  forall (current_kwh previous_kwh : Q) (days_current days_previous : Z),
  exists c,
    EnergyUsagePeriodComparison.create current_kwh previous_kwh days_current
      days_previous = Some c
    /\ (EnergyUsagePeriodComparison.absolute_change_kwh c
        == current_kwh - previous_kwh)%Q
    /\ ((previous_kwh == 0)%Q -> EnergyUsagePeriodComparison.percent_change c = 0%Q)
    /\ (~ (previous_kwh == 0)%Q ->
        (EnergyUsagePeriodComparison.percent_change c * previous_kwh
         == 100 * (current_kwh - previous_kwh))%Q)
    /\ exists averages,
         EnergyUsagePeriodComparison.to_dict c = Some averages
         /\ (EnergyUsagePeriodComparison.current_daily_average_kwh averages
             * inject_Z (Z.max days_current 1) == current_kwh)%Q
         /\ (EnergyUsagePeriodComparison.previous_daily_average_kwh averages
             * inject_Z (Z.max days_previous 1) == previous_kwh)%Q
         /\ (days_current <= 1 ->
             (EnergyUsagePeriodComparison.current_daily_average_kwh averages
              == current_kwh)%Q).
Proof.
  intros current_kwh previous_kwh days_current days_previous.
  assert (Hdays : forall d, ~ (inject_Z (Z.max d 1) == 0)%Q).
  { intros d. unfold Qeq. simpl. lia. }
  assert (Hreturn : exists p,
             EnergyUsagePeriodComparison.create current_kwh previous_kwh
               days_current days_previous
             = Some (EnergyUsagePeriodComparison.mk current_kwh previous_kwh p
                       (current_kwh - previous_kwh) days_current days_previous)
             /\ ((previous_kwh == 0)%Q -> p = 0%Q)
             /\ (~ (previous_kwh == 0)%Q ->
                 (p * previous_kwh == 100 * (current_kwh - previous_kwh))%Q)).
  { unfold EnergyUsagePeriodComparison.create. cbv zeta.
    destruct (Qeq_bool previous_kwh 0) eqn:Hz; cbn [negb].
    - apply Qeq_bool_iff in Hz. exists 0%Q. split; [reflexivity|].
      split; [reflexivity | contradiction].
    - assert (Hnz : ~ (previous_kwh == 0)%Q).
      { intros H. apply Qeq_bool_iff in H. congruence. }
      rewrite (truediv_defined _ Hnz). cbn [option_map].
      eexists. split; [reflexivity|]. split; [contradiction|].
      intros _. field. exact Hnz. }
  destruct Hreturn as (p & Hc & Hzero & Hnonzero).
  eexists. split; [exact Hc|].
  cbn [EnergyUsagePeriodComparison.absolute_change_kwh
       EnergyUsagePeriodComparison.percent_change].
  split; [reflexivity|]. split; [exact Hzero|]. split; [exact Hnonzero|].
  unfold EnergyUsagePeriodComparison.to_dict.
  cbn [EnergyUsagePeriodComparison.current_kwh EnergyUsagePeriodComparison.previous_kwh
       EnergyUsagePeriodComparison.days_current EnergyUsagePeriodComparison.days_previous].
  rewrite !truediv_defined by apply Hdays.
  eexists. split; [reflexivity|].
  cbn [EnergyUsagePeriodComparison.current_daily_average_kwh
       EnergyUsagePeriodComparison.previous_daily_average_kwh].
  split; [field; apply Hdays|]. split; [field; apply Hdays|].
  intros Hle. replace (Z.max days_current 1) with 1 by lia.
  unfold Qdiv. change (/ inject_Z 1)%Q with 1%Q. ring.
Qed.

(* ------------------------------------------------------------------ *)
(** * The sensor attributes: the weekly analysis *)

Lemma q_min_fold (l : list Q) :
  forall x,
    let m := fold_left (fun m y => if Qle_bool m y then m else y) l x in
    (m = x \/ In m l) /\ (m <= x)%Q /\ forall y, In y l -> (m <= y)%Q.
Proof.
  induction l as [|a l IH]; intros x; cbn [fold_left].
  - split; [left; reflexivity|]. split; [apply Qle_refl | intros y []].
  - destruct (Qle_bool x a) eqn:Hxa.
    + apply Qle_bool_iff in Hxa.
      destruct (IH x) as (Hin & Hle & Hall). split; [|split].
      * destruct Hin as [Hm|Hin]; [left; exact Hm | right; right; exact Hin].
      * exact Hle.
      * intros y [<-|Hy]; [eapply Qle_trans; eassumption | apply Hall, Hy].
    + assert (Hax : (a <= x)%Q).
      { apply Qlt_le_weak, Qnot_le_lt. intros Hle.
        apply Qle_bool_iff in Hle. congruence. }
      destruct (IH a) as (Hin & Hle & Hall). split; [|split].
      * right. destruct Hin as [Hm|Hin]; [left; symmetry; exact Hm | right; exact Hin].
      * eapply Qle_trans; eassumption.
      * intros y [<-|Hy]; [exact Hle | apply Hall, Hy].
Qed.

Lemma q_min_spec (l : list Q) (m : Q) :
  WeeklyAnalysis.q_min l = Some m -> In m l /\ forall x, In x l -> (m <= x)%Q.
Proof.
  destruct l as [|x l]; [discriminate|]. cbn [WeeklyAnalysis.q_min]. intros [= <-].
  destruct (q_min_fold l x) as (Hin & Hle & Hall). split.
  - destruct Hin as [->|Hin]; [left; reflexivity | right; exact Hin].
  - intros y [<-|Hy]; [exact Hle | apply Hall, Hy].
Qed.

(** The row that [filter(total == extreme).row(0)] picks. *)
Lemma extreme_row (pick : list Q -> option Q) (R : Q -> Q -> Prop)
    (rows : list BillingPeriodStats.DayRow) :
  (forall y z, (y == z)%Q -> forall x, R x z -> R x y) ->
  (forall l, l <> [] -> exists m, pick l = Some m /\ In m l /\ forall x, In x l -> R x m) ->
  rows <> [] ->
  exists r rest,
    filter (fun row => q_eq_filter (BillingPeriodStats.d_total_energy_kwh row)
                         (pick (map BillingPeriodStats.d_total_energy_kwh rows)))
      rows
    = r :: rest
    /\ In r rows
    /\ forall row, In row rows ->
         R (BillingPeriodStats.d_total_energy_kwh row)
           (BillingPeriodStats.d_total_energy_kwh r).
Proof.
  intros Hcompat Hpick Hne.
  destruct (Hpick (map BillingPeriodStats.d_total_energy_kwh rows)) as (m & Hm & Hin & Hall).
  { destruct rows; [contradiction | discriminate]. }
  rewrite Hm. apply in_map_iff in Hin. destruct Hin as (row0 & Hrow0 & Hin0).
  destruct (filter _ rows) as [|r rest] eqn:Hf.
  - exfalso.
    assert (Hr : In row0 (filter (fun row => q_eq_filter
                 (BillingPeriodStats.d_total_energy_kwh row) (Some m)) rows)).
    { apply filter_In. split; [exact Hin0|]. cbn [q_eq_filter]. rewrite Hrow0.
      apply Qeq_bool_iff. reflexivity. }
    rewrite Hf in Hr. exact Hr.
  - exists r, rest. split; [reflexivity|].
    assert (Hp : In r (r :: rest)) by (left; reflexivity).
    rewrite <- Hf in Hp. apply filter_In in Hp. destruct Hp as [Hp Heq].
    split; [exact Hp|].
    intros row Hrow. cbn [q_eq_filter] in Heq. apply Qeq_bool_iff in Heq.
    apply (Hcompat _ _ Heq). apply Hall. apply in_map. exact Hrow.
Qed.

Lemma highest_row (rows : list BillingPeriodStats.DayRow) :
  rows <> [] ->
  exists r rest,
    filter (fun row => q_eq_filter (BillingPeriodStats.d_total_energy_kwh row)
                         (q_max (map BillingPeriodStats.d_total_energy_kwh rows)))
      rows
    = r :: rest
    /\ In r rows
    /\ forall row, In row rows ->
         (BillingPeriodStats.d_total_energy_kwh row
          <= BillingPeriodStats.d_total_energy_kwh r)%Q.
Proof.
  apply (extreme_row q_max Qle).
  - intros y z Hyz x Hx. rewrite Hyz. exact Hx.
  - intros l Hl. destruct (@q_max_some l Hl) as (m & Hm).
    exists m. split; [exact Hm|]. apply (@q_max_spec l m Hm).
Qed.

Lemma lowest_row (rows : list BillingPeriodStats.DayRow) :
  rows <> [] ->
  exists r rest,
    filter (fun row => q_eq_filter (BillingPeriodStats.d_total_energy_kwh row)
                         (WeeklyAnalysis.q_min
                            (map BillingPeriodStats.d_total_energy_kwh rows)))
      rows
    = r :: rest
    /\ In r rows
    /\ forall row, In row rows ->
         (BillingPeriodStats.d_total_energy_kwh r
          <= BillingPeriodStats.d_total_energy_kwh row)%Q.
Proof.
  apply (extreme_row WeeklyAnalysis.q_min (fun x m => (m <= x)%Q)).
  - intros y z Hyz x Hx. rewrite Hyz. exact Hx.
  - intros l Hl. destruct l as [|x l]; [contradiction|].
    eexists. split; [reflexivity|]. apply q_min_spec. reflexivity.
Qed.

Lemma sum_permutation {A : Type} (f : A -> Q) (l l' : list A) :
  Permutation l l' -> (Polars.sum (map f l) == Polars.sum (map f l'))%Q.
Proof.
  induction 1 as [|x l l' _ IH|x y l|l l' l'' _ IH1 _ IH2]; simpl.
  - reflexivity.
  - rewrite IH. reflexivity.
  - lra.
  - rewrite IH1. exact IH2.
Qed.

Lemma skipn_In {A : Type} (n : nat) (l : list A) (x : A) :
  In x (skipn n l) -> In x l.
Proof.
  revert l. induction n as [|n IH]; intros l Hx; [exact Hx|].
  destruct l as [|a l]; [exact Hx|]. right. apply IH. exact Hx.
Qed.

Lemma skipn_NoDup {A : Type} (n : nat) (l : list A) :
  NoDup l -> NoDup (skipn n l).
Proof.
  revert l. induction n as [|n IH]; intros l Hnd; [exact Hnd|].
  destruct l as [|a l]; [constructor|]. inversion Hnd; subst. apply IH. assumption.
Qed.

Lemma group_by_date_rows (tz : TimeZone) (data : list Reading)
    (row : BillingPeriodStats.DayRow) :
  In row (BillingPeriodStats.group_by_date tz data) <->
  exists k, In k (dates_of tz data) /\ row = day_row tz k data.
Proof.
  unfold BillingPeriodStats.group_by_date, dates_of. rewrite in_map_iff. split.
  - intros (k & <- & Hk). exists k. split; [exact Hk | reflexivity].
  - intros (k & Hk & ->). exists k. split; [reflexivity | exact Hk].
Qed.

Lemma group_by_date_keys (tz : TimeZone) (data : list Reading) :
  map BillingPeriodStats.d_date (BillingPeriodStats.group_by_date tz data)
  = dates_of tz data.
Proof.
  unfold BillingPeriodStats.group_by_date, dates_of. rewrite map_map.
  cbn [BillingPeriodStats.d_date]. apply map_id.
Qed.

Lemma dates_nil (tz : TimeZone) (data : list Reading) :
  dates_of tz data = [] <-> data = [].
Proof.
  split.
  - intros Hnil. apply no_member_nil. intros r Hr.
    assert (Hin : In (date_of tz r) (dates_of tz data)).
    { apply distinct_In. apply in_map. exact Hr. }
    rewrite Hnil in Hin. exact Hin.
  - intros ->. reflexivity.
Qed.

Section Weekly.

Variable order : list BillingPeriodStats.DayRow -> list BillingPeriodStats.DayRow.
Hypothesis Horder : forall l, Permutation (order l) l.
Variable tz : TimeZone.
Variable data : list Reading.

Let groups := BillingPeriodStats.group_by_date tz data.
Let chosen := WeeklyAnalysis.tail 7 (order groups).
Let daily_data := sort BillingPeriodStats.d_date chosen.

Lemma weekly_unfold :
  WeeklyAnalysis.from_dataframe order tz data
  = match
      filter
        (fun row =>
           q_eq_filter (BillingPeriodStats.d_total_energy_kwh row)
             (q_max (map BillingPeriodStats.d_total_energy_kwh daily_data)))
        daily_data
    with
    | [] => inl OutOfBoundsError
    | highest_row :: _ =>
        match
          filter
            (fun row =>
               q_eq_filter (BillingPeriodStats.d_total_energy_kwh row)
                 (WeeklyAnalysis.q_min
                    (map BillingPeriodStats.d_total_energy_kwh daily_data)))
            daily_data
        with
        | [] => inl OutOfBoundsError
        | lowest_row :: _ =>
            inr (WeeklyAnalysis.mk
                   (Polars.sum (map BillingPeriodStats.d_total_energy_kwh daily_data))
                   (q_mean (map BillingPeriodStats.d_total_energy_kwh daily_data))
                   (map BillingPeriodStats.to_usage daily_data)
                   (BillingPeriodStats.to_usage highest_row)
                   (BillingPeriodStats.to_usage lowest_row))
        end
    end.
Proof. reflexivity. Qed.

Lemma chosen_length :
  List.length chosen = Nat.min 7 (List.length (dates_of tz data)).
Proof.
  unfold chosen, WeeklyAnalysis.tail. rewrite length_skipn.
  rewrite (Permutation_length (Horder groups)).
  unfold groups. rewrite <- (group_by_date_keys tz data), length_map. lia.
Qed.

Lemma chosen_rows (row : BillingPeriodStats.DayRow) :
  In row chosen -> exists k, In k (dates_of tz data) /\ row = day_row tz k data.
Proof.
  intros Hrow. apply skipn_In in Hrow.
  apply (Permutation_in _ (Horder groups)) in Hrow.
  apply group_by_date_rows. exact Hrow.
Qed.

Lemma chosen_keys : NoDup (map BillingPeriodStats.d_date chosen).
Proof.
  unfold chosen, WeeklyAnalysis.tail. rewrite <- skipn_map. apply skipn_NoDup.
  apply (Permutation_NoDup
           (Permutation_sym (Permutation_map BillingPeriodStats.d_date (Horder groups)))).
  unfold groups. rewrite group_by_date_keys. apply distinct_NoDup.
Qed.

Lemma daily_data_sorted :
  StronglySorted
    (fun a b => key_lt (BillingPeriodStats.d_date a) (BillingPeriodStats.d_date b))
    daily_data.
Proof.
  apply sorted_NoDup_strict; [apply sort_sorted|].
  apply sort_NoDup. exact chosen_keys.
Qed.

Lemma daily_data_nil_iff : daily_data = [] <-> data = [].
Proof.
  rewrite <- (dates_nil tz data). split.
  - intros Hnil.
    assert (Hlen : List.length daily_data = 0%nat) by (rewrite Hnil; reflexivity).
    unfold daily_data in Hlen. rewrite sort_length, chosen_length in Hlen.
    destruct (dates_of tz data); [reflexivity | simpl in Hlen; lia].
  - intros Hnil.
    assert (Hlen : List.length daily_data = 0%nat).
    { unfold daily_data. rewrite sort_length, chosen_length, Hnil. reflexivity. }
    destruct daily_data; [reflexivity | discriminate].
Qed.

End Weekly.

Lemma weekly_run (order : list BillingPeriodStats.DayRow -> list BillingPeriodStats.DayRow)
    (tz : TimeZone) (data : list Reading) :
  (forall l, Permutation (order l) l) ->
  let daily_data :=
    sort BillingPeriodStats.d_date
      (WeeklyAnalysis.tail 7 (order (BillingPeriodStats.group_by_date tz data))) in
  (data = [] /\ WeeklyAnalysis.from_dataframe order tz data = inl OutOfBoundsError)
  \/ (data <> []
      /\ exists highest lowest,
           WeeklyAnalysis.from_dataframe order tz data
           = inr (WeeklyAnalysis.mk
                    (Polars.sum (map BillingPeriodStats.d_total_energy_kwh daily_data))
                    (q_mean (map BillingPeriodStats.d_total_energy_kwh daily_data))
                    (map BillingPeriodStats.to_usage daily_data)
                    (BillingPeriodStats.to_usage highest)
                    (BillingPeriodStats.to_usage lowest))
           /\ In highest daily_data /\ In lowest daily_data
           /\ forall row, In row daily_data ->
                (BillingPeriodStats.d_total_energy_kwh lowest
                 <= BillingPeriodStats.d_total_energy_kwh row
                 <= BillingPeriodStats.d_total_energy_kwh highest)%Q).
Proof.
  intros Horder daily_data.
  pose proof (weekly_unfold order tz data) as Hrun.
  pose proof (daily_data_nil_iff order Horder tz data) as Hnil.
  fold daily_data in Hnil.
  assert (Hcases : data = [] \/ data <> [])
    by (destruct data; [left; reflexivity | right; discriminate]).
  destruct Hcases as [Hempty|Hne].
  - left. split; [exact Hempty|]. rewrite Hrun.
    change (sort BillingPeriodStats.d_date
              (WeeklyAnalysis.tail 7 (order (BillingPeriodStats.group_by_date tz data))))
      with daily_data.
    rewrite (proj2 Hnil Hempty). reflexivity.
  - right. split; [exact Hne|].
    assert (Hdne : daily_data <> []) by (intros H; apply Hne, Hnil, H).
    destruct (highest_row Hdne) as (hi & rest & Hhi & Hinhi & Hmax).
    destruct (lowest_row Hdne) as (lo & rest' & Hlo & Hinlo & Hmin).
    exists hi, lo. split; [|split; [exact Hinhi|split; [exact Hinlo|]]].
    + rewrite Hrun.
      change (sort BillingPeriodStats.d_date
                (WeeklyAnalysis.tail 7 (order (BillingPeriodStats.group_by_date tz data))))
        with daily_data.
      rewrite Hhi, Hlo. reflexivity.
    + intros row Hrow. split; [apply Hmin | apply Hmax]; exact Hrow.
Qed.

(** X28. The weekly analysis keeps seven of the days of the frame, not
    necessarily the last seven: whatever the order in which the grouping
    yields the days, the analysis fails exactly on an empty frame; a result
    lists at most seven days (all of them when the frame has seven or
    fewer), in ascending order and each once, every one with the aggregates
    of a day of the frame; its total is the sum of the listed totals, and
    the highest and the lowest usage are listed days that bound all listed
    totals. *)
Theorem weekly_analysis_lists_seven_groups :
  forall (order : list BillingPeriodStats.DayRow -> list BillingPeriodStats.DayRow)
         (tz : TimeZone) (data : list Reading),
    (forall l, Permutation (order l) l) ->
    (WeeklyAnalysis.from_dataframe order tz data = inl OutOfBoundsError <-> data = [])
    /\ (data <> [] ->
        exists s rows,
          WeeklyAnalysis.from_dataframe order tz data = inr s
          /\ WeeklyAnalysis.daily_totals s = map BillingPeriodStats.to_usage rows
          /\ List.length rows = Nat.min 7 (List.length (dates_of tz data))
          /\ StronglySorted
               (fun a b => key_lt (BillingPeriodStats.d_date a)
                             (BillingPeriodStats.d_date b)) rows
          /\ (forall row, In row rows ->
                exists k, In k (dates_of tz data) /\ row = day_row tz k data)
          /\ WeeklyAnalysis.total_energy_kwh s
             = Polars.sum (map BillingPeriodStats.d_total_energy_kwh rows)
          /\ In (WeeklyAnalysis.highest_usage s) (WeeklyAnalysis.daily_totals s)
          /\ In (WeeklyAnalysis.lowest_usage s) (WeeklyAnalysis.daily_totals s)
          /\ forall u, In u (WeeklyAnalysis.daily_totals s) ->
               (total_energy_kwh (WeeklyAnalysis.lowest_usage s)
                <= total_energy_kwh u
                <= total_energy_kwh (WeeklyAnalysis.highest_usage s))%Q).
Proof.
  intros order tz data Horder.
  destruct (@weekly_run order tz data Horder)
    as [(Hempty & Hrun)|(Hne & hi & lo & Hrun & Hhi & Hlo & Hbounds)].
  - split; [split; [intros _; exact Hempty | intros _; exact Hrun]|].
    intros Hne. contradiction.
  - split; [split; [intros H; rewrite Hrun in H; discriminate | contradiction]|].
    intros _. eexists. eexists. split; [exact Hrun|].
    cbn [WeeklyAnalysis.daily_totals WeeklyAnalysis.total_energy_kwh
         WeeklyAnalysis.highest_usage WeeklyAnalysis.lowest_usage].
    split; [reflexivity|]. split.
    { rewrite sort_length. apply chosen_length. exact Horder. }
    split; [apply daily_data_sorted; exact Horder|]. split.
    { intros row Hrow. apply (proj1 (sort_In _ _ _)) in Hrow.
      apply (chosen_rows order Horder tz data row Hrow). }
    split; [reflexivity|].
    split; [apply in_map; exact Hhi|]. split; [apply in_map; exact Hlo|].
    intros u Hu. apply in_map_iff in Hu. destruct Hu as (row & <- & Hrow).
    apply Hbounds. exact Hrow.
Qed.

(** X29. For a frame of at most seven local days the weekly analysis
    does not depend on the order of the groups: it lists every day of the
    frame, its total is the energy of all readings, and the average daily
    energy times the number of days is that total. *)
Theorem weekly_analysis_of_at_most_seven_days :
  forall (order : list BillingPeriodStats.DayRow -> list BillingPeriodStats.DayRow)
         (tz : TimeZone) (data : list Reading),
    (forall l, Permutation (order l) l) ->
    data <> [] ->
    (List.length (dates_of tz data) <= 7)%nat ->
    exists s,
      WeeklyAnalysis.from_dataframe order tz data = inr s
      /\ (WeeklyAnalysis.total_energy_kwh s == total_energy data)%Q
      /\ List.length (WeeklyAnalysis.daily_totals s) = List.length (dates_of tz data)
      /\ (forall k, In k (dates_of tz data) ->
            In (BillingPeriodStats.to_usage (day_row tz k data))
              (WeeklyAnalysis.daily_totals s))
      /\ exists avg,
           WeeklyAnalysis.avg_daily_energy_kwh s = Some avg
           /\ (avg * inject_Z (Z.of_nat (List.length (dates_of tz data)))
               == total_energy data)%Q.
Proof.
  intros order tz data Horder Hne Hfew.
  destruct (@weekly_run order tz data Horder)
    as [(Hempty & _)|(_ & hi & lo & Hrun & _)]; [contradiction|].
  set (groups := BillingPeriodStats.group_by_date tz data) in *.
  assert (Hlen : List.length (order groups) = List.length (dates_of tz data)).
  { rewrite (Permutation_length (Horder groups)). unfold groups.
    rewrite <- (group_by_date_keys tz data), length_map. reflexivity. }
  assert (Hall : WeeklyAnalysis.tail 7 (order groups) = order groups).
  { unfold WeeklyAnalysis.tail.
    replace (List.length (order groups) - 7)%nat with 0%nat by lia. reflexivity. }
  rewrite Hall in Hrun.
  assert (Htotal : (Polars.sum (map BillingPeriodStats.d_total_energy_kwh
                                  (sort BillingPeriodStats.d_date (order groups)))
                    == total_energy data)%Q).
  { rewrite sort_sum, (sum_permutation _ (Horder groups)).
    unfold groups, BillingPeriodStats.group_by_date. rewrite map_map.
    cbn [BillingPeriodStats.d_total_energy_kwh].
    apply (sum_by_key (date_of tz) energy_kwh).
    - apply distinct_NoDup.
    - intros r Hr. apply distinct_In. apply in_map. exact Hr. }
  eexists. split; [exact Hrun|].
  cbn [WeeklyAnalysis.daily_totals WeeklyAnalysis.total_energy_kwh
       WeeklyAnalysis.avg_daily_energy_kwh].
  split; [exact Htotal|]. split.
  { rewrite length_map, sort_length. exact Hlen. }
  split.
  { intros k Hk. apply in_map. apply sort_In.
    apply (Permutation_in _ (Permutation_sym (Horder groups))).
    apply group_by_date_rows. exists k. auto. }
  destruct (@q_mean_spec (map BillingPeriodStats.d_total_energy_kwh
                            (sort BillingPeriodStats.d_date (order groups))))
    as (avg & Havg & Hsum).
  { intros Hnil. apply (f_equal (@List.length Q)) in Hnil.
    rewrite length_map, sort_length, Hlen in Hnil.
    destruct (dates_of tz data) eqn:Hd; [|discriminate].
    apply Hne. apply (dates_nil tz data). exact Hd. }
  exists avg. split; [exact Havg|].
  rewrite length_map, sort_length, Hlen in Hsum. rewrite Hsum. exact Htotal.
Qed.

Lemma day_or_none_inj (a b : option Z) : day_or_none a = day_or_none b -> a = b.
Proof. destruct a, b; simpl; congruence. Qed.

(** X30. Which days the weekly analysis lists depends on the order in
    which the grouping yields them, because the last seven groups are taken
    before the sort: for every frame of more than seven days there are two
    orders of the groups, as they are found and reversed, such that the
    analysis lists the first day of the frame for the one and not for the
    other. *)
Theorem weekly_days_depend_on_group_order :
  forall (tz : TimeZone) (data : list Reading),
    (7 < List.length (dates_of tz data))%nat ->
    exists s1 s2 first_day,
      WeeklyAnalysis.from_dataframe as_found tz data = inr s1
      /\ WeeklyAnalysis.from_dataframe reversed tz data = inr s2
      /\ hd_error (dates_of tz data) = Some first_day
      /\ ~ In (day_or_none first_day) (map date (WeeklyAnalysis.daily_totals s1))
      /\ In (day_or_none first_day) (map date (WeeklyAnalysis.daily_totals s2))
      /\ map date (WeeklyAnalysis.daily_totals s1)
         <> map date (WeeklyAnalysis.daily_totals s2).
Proof.
  intros tz data Hmany.
  assert (Hne : data <> []).
  { intros ->. simpl in Hmany. lia. }
  assert (Hp1 : forall l, Permutation (as_found l) l) by (intros l; apply Permutation_refl).
  assert (Hp2 : forall l, Permutation (reversed l) l)
    by (intros l; apply Permutation_sym, Permutation_rev).
  destruct (@weekly_run as_found tz data Hp1)
    as [(Hempty & _)|(_ & hi1 & lo1 & Hrun1 & _)]; [contradiction|].
  destruct (@weekly_run reversed tz data Hp2)
    as [(Hempty & _)|(_ & hi2 & lo2 & Hrun2 & _)]; [contradiction|].
  pose proof (group_by_date_keys tz data) as Hkeys.
  pose proof (distinct_NoDup (map (date_of tz) data)) as Hnd.
  fold (dates_of tz data) in Hnd. rewrite <- Hkeys in Hnd, Hmany |- *.
  rewrite length_map in Hmany.
  set (groups := BillingPeriodStats.group_by_date tz data) in *.
  destruct groups as [|g0 rest] eqn:Hg; [simpl in Hmany; lia|].
  cbn [map] in Hnd. inversion Hnd as [|? ? Hfresh Hnd']; subst.
  cbn [List.length] in Hmany.
  assert (Hdates : forall rows,
             map date (map BillingPeriodStats.to_usage rows)
             = map (fun r => day_or_none (BillingPeriodStats.d_date r)) rows)
    by (intros rows; rewrite map_map; reflexivity).
  eexists. eexists. exists (BillingPeriodStats.d_date g0).
  split; [exact Hrun1|]. split; [exact Hrun2|]. split; [reflexivity|].
  cbn [WeeklyAnalysis.daily_totals]. rewrite !Hdates.
  assert (Hnot : ~ In (day_or_none (BillingPeriodStats.d_date g0))
                     (map (fun r => day_or_none (BillingPeriodStats.d_date r))
                        (sort BillingPeriodStats.d_date
                           (WeeklyAnalysis.tail 7 (as_found (g0 :: rest)))))).
  { intros Hin. apply in_map_iff in Hin. destruct Hin as (r & Hkey & Hr).
    apply day_or_none_inj in Hkey.
    apply (proj1 (sort_In _ _ _)) in Hr.
    unfold WeeklyAnalysis.tail, as_found in Hr. cbn [List.length] in Hr.
    replace (S (List.length rest) - 7)%nat with (S (List.length rest - 7)) in Hr by lia.
    cbn [skipn] in Hr. apply skipn_In in Hr.
    apply Hfresh. rewrite <- Hkey. apply in_map. exact Hr. }
  assert (Hyes : In (day_or_none (BillingPeriodStats.d_date g0))
                   (map (fun r => day_or_none (BillingPeriodStats.d_date r))
                      (sort BillingPeriodStats.d_date
                         (WeeklyAnalysis.tail 7 (reversed (g0 :: rest)))))).
  { apply in_map_iff. exists g0. split; [reflexivity|]. apply sort_In.
    unfold WeeklyAnalysis.tail, reversed. cbn [rev].
    rewrite length_app, length_rev. cbn [List.length].
    rewrite skipn_app. apply in_app_iff. right.
    rewrite length_rev.
    replace (List.length rest + 1 - 7 - List.length rest)%nat with 0%nat by lia.
    left. reflexivity. }
  split; [exact Hnot|]. split; [exact Hyes|].
  intros Heq. apply Hnot. rewrite Heq. exact Hyes.
Qed.

(* ------------------------------------------------------------------ *)
(** * Concrete runs *)

(** ** DST resolution in New York, 2024 *)

(** 2024-03-10 02:30 does not exist, 2024-11-03 01:30 occurs twice and
    resolves to its first pass (05:30 UTC), 2024-11-04 01:30 occurs once. *)
Example handle_dst_new_york :
  _handle_dst new_york_2024 dst_sample
  = Ok [ mkLongRow (2 # 1) (Some (1730611800 * us_per_second));
         mkLongRow (4 # 1) (Some (1730701800 * us_per_second)) ].
Proof. vm_compute. reflexivity. Qed.

(** The row of the repeated 01:30 is kept at 05:30 UTC, its first pass;
    06:30 UTC is the second. *)
Lemma fall_back_row_kept_at_first_pass :
  exists final_df,
    _handle_dst new_york_2024 dst_sample = Ok final_df
    /\ In (mkLongRow (2 # 1) (Some (1730611800 * us_per_second))) final_df.
Proof.
  destruct (handle_dst_earliest_or_dropped LongRow_ts new_york_2024 dst_sample)
    as (final_df & Hrun & _ & _ & Hfirst).
  exists final_df. split; [exact Hrun|].
  refine (Hfirst (mkLongRow (2 # 1) (Some (1730597400 * us_per_second)))
            (1730597400 * us_per_second)
            (1730611800 * us_per_second) (1730615400 * us_per_second) _ _ _ _).
  - right. left. reflexivity.
  - reflexivity.
  - reflexivity.
  - intros t. unfold to_local, utc_offset.
    rewrite <- local_candidates_spec. vm_compute. intuition.
Defined.

(** ** The trimmer *)

Lemma trimmer_drops_morning_only_day :
  drop_incomplete_dates
    (mkWideTable half_day_names ([full_day] ++ morning_only_day :: []))
  = Ok (mkWideTable half_day_names ([full_day] ++ [])).
Proof.
  refine (proj1 (trimmer_drops_latest_iff_pm_sum_zero
                   half_day_names [full_day] [] morning_only_day _ _) _).
  - exists "12:00 PM kW"%string. split; [simpl; auto | reflexivity].
  - intros x [<-|[]]. reflexivity.
  - reflexivity.
Defined.

(** C7 as stated fails: the latest day has the afternoon values 5 and -5,
    neither of them zero, and is dropped all the same, by the trimmer of
    one table and by [_clean]; and on tables without rows [_clean] is no
    no-op, it raises. *)
Lemma trimmer_drops_day_with_nonzero_afternoon :
  pm_values half_day_names cancelling_day = [5 # 1; -5 # 1]%Q
  /\ drop_incomplete_dates (mkWideTable half_day_names [full_day; cancelling_day])
     = Ok (mkWideTable half_day_names [full_day])
  /\ _clean (mkRawUsageData
               (mkWideTable half_day_names [full_day; cancelling_day])
               (mkWideTable half_day_names [full_day; cancelling_day]))
     = Ok (mkRawUsageData
             (mkWideTable half_day_names [full_day])
             (mkWideTable half_day_names [full_day]))
  /\ _clean (mkRawUsageData
               (mkWideTable half_day_names [])
               (mkWideTable half_day_names []))
     = Raise RuntimeError.
Proof. vm_compute. repeat split. Qed.

(** Without any row the horizontal sum is an empty Series and [item]
    raises, whatever the columns; [_clean] then ends in its bare [raise]. *)
Lemma trimmer_raises_without_rows (names : list string) (other : WideTable) :
  (exists e, drop_incomplete_dates (mkWideTable names []) = Raise e)
  /\ _clean (mkRawUsageData (mkWideTable names []) other) = Raise RuntimeError
  /\ _clean (mkRawUsageData other (mkWideTable names [])) = Raise RuntimeError.
Proof.
  assert (Hdrop : drop_incomplete_dates (mkWideTable names []) = Raise ValueError).
  { unfold drop_incomplete_dates. simpl.
    destruct (filter (str_contains " PM") names); reflexivity. }
  split; [eauto|].
  split; eapply clean_raises_runtime_error; simpl; eauto.
Qed.

(** ** The reshaper *)

(** C10 as stated fails: a table whose only column besides Date is Total
    has no time-of-day column, and a table with the column "12 PM kW" has a
    label that is no time; the reshaper returns a table for both, under
    either behaviour of [unpivot], and no timestamp of it is set.  (19723 is
    2024-01-01.) *)
Lemma reshaper_returns_null_timestamps :
  _transform_to_long_format AllOtherColumns totals_only_sheet
  = Ok [mkLongRow (10 # 1) None]
  /\ _transform_to_long_format NoColumns totals_only_sheet = Ok []
  /\ _transform_to_long_format AllOtherColumns
       (mkWideTable ["12 PM kW"%string] [mkWideRow 19723 [4 # 1]%Q])
     = Ok [mkLongRow (4 # 1) None]
  /\ _transform_to_long_format NoColumns
       (mkWideTable ["12 PM kW"%string] [mkWideRow 19723 [4 # 1]%Q])
     = Ok [mkLongRow (4 # 1) None].
Proof. vm_compute. repeat split. Qed.

(** A label that matches the pattern and is no clock time does raise. *)
Example reshaper_raises_on_hour_13 :
  _transform_to_long_format AllOtherColumns
    (mkWideTable ["13:00 PM kW"%string] [mkWideRow 19723 [4 # 1]%Q])
  = Raise InvalidOperationError.
Proof. vm_compute. reflexivity. Qed.

Example reshaper_two_days :
  _transform_to_long_format AllOtherColumns two_day_sheet
  = Ok [ mkLongRow (1 # 1) (Some (1704067200 * us_per_second));
         mkLongRow (2 # 1) (Some (1704112200 * us_per_second));
         mkLongRow (3 # 1) (Some (1704153600 * us_per_second));
         mkLongRow (4 # 1) (Some (1704198600 * us_per_second)) ].
Proof. vm_compute. reflexivity. Qed.

(** ** The processor *)

Lemma two_day_sheet_same_rows_in_both_orders :
  process_for_entities AllOtherColumns new_york_2024 (mkRawUsageData two_day_sheet two_day_sheet)
  = process_for_entities_spec_order AllOtherColumns new_york_2024
      (mkRawUsageData two_day_sheet two_day_sheet).
Proof.
  exact (proj2 (join_then_dst_equals_dst_then_join new_york_2024) AllOtherColumns
           (mkRawUsageData two_day_sheet two_day_sheet)).
Defined.

Example two_day_sheet_entities :
  process_for_entities AllOtherColumns new_york_2024 (mkRawUsageData two_day_sheet two_day_sheet)
  = Ok [ mkReading (Some (1704085200 * us_per_second)) (1 # 1) (1 # 1);
         mkReading (Some (1704130200 * us_per_second)) (2 # 1) (2 # 1);
         mkReading (Some (1704171600 * us_per_second)) (3 # 1) (3 # 1);
         mkReading (Some (1704216600 * us_per_second)) (4 # 1) (4 # 1) ].
Proof. vm_compute. reflexivity. Qed.

Lemma totals_only_sheet_is_reshaped :
  (exists long,
     _transform_to_long_format AllOtherColumns totals_only_sheet = Ok long
     /\ List.length long = 1%nat
     /\ forall row, In row long -> l_timestamp row = None)
  /\ (exists long,
        _transform_to_long_format NoColumns totals_only_sheet = Ok long
        /\ List.length long = 0%nat
        /\ forall row, In row long -> l_timestamp row = None).
Proof.
  split.
  - exact (proj2 (proj2 (proj2 (proj2
             (reshaper_fails_iff_bad_label AllOtherColumns totals_only_sheet))))
             eq_refl).
  - exact (proj2 (proj2 (proj2 (proj2
             (reshaper_fails_iff_bad_label NoColumns totals_only_sheet))))
             eq_refl).
Defined.

Lemma march_first_energy_is_conserved :
  exists hourly,
    process_for_statistics new_york_2024 march_first_data = Ok hourly
    /\ (total_energy hourly == total_energy march_first_data)%Q.
Proof.
  destruct (hourly_aggregation_conserves_energy new_york_2024 march_first_data)
    as ((hourly & Hrun & Hsame & _) & _).
  exists hourly. split; assumption.
Defined.

Lemma march_first_hours_are_sorted :
  exists hourly,
    process_for_statistics new_york_2024 march_first_data = Ok hourly
    /\ StronglySorted (fun a b => key_lt (timestamp a) (timestamp b)) hourly.
Proof.
  destruct (hourly_aggregation_groups_by_hour new_york_2024 march_first_data)
    as (hourly & Hrun & Hsorted & _).
  exists hourly. split; assumption.
Defined.

(** ** The merger *)

Example first_run_emits_both_hours :
  statistics_to_add new_york_2024 [] march_second_morning march_first_data
  = Ok first_run_stats
  /\ _insert_statistics new_york_2024 [] march_second_morning march_first_data
     = Ok after_first_run
  /\ store_after []
       (statistics_to_add new_york_2024 [] march_second_morning march_first_data)
     = after_first_run.
Proof. vm_compute. repeat split. Qed.

(** The series ends with the first hour of the data: the run adds the second
    hour on top of the persisted sum 8. *)
Example run_appends_second_hour :
  statistics_to_add new_york_2024 march_series march_second_morning march_first_data
  = Ok [ mkStatisticData (Some (1709272800 * us_per_second)) (7 # 1) (15 # 1) ]
  /\ _insert_statistics new_york_2024 march_series march_second_morning
       march_first_data
     = Ok (march_series
           ++ [ mkStatisticsRow (1709272800 * us_per_second) (7 # 1) (15 # 1) ]).
Proof. vm_compute. repeat split. Qed.

(** A reading without timestamp on an empty series: the list is built, and
    the call of the recorder raises. *)
Example first_run_raises_on_null_timestamp :
  statistics_to_add utc_minus_five [] march_second_morning three_readings
  = Ok [ mkStatisticData None (2 # 1) (2 # 1);
         mkStatisticData (Some (1704067200 * us_per_second)) (4 # 1) (6 # 1) ]
  /\ _insert_statistics utc_minus_five [] march_second_morning three_readings
     = Raise Py.AttributeError.
Proof. vm_compute. repeat split. Qed.

(** A last point on the second pass of the repeated hour of 2024-11-03
    (01:00 EST, 06:00 UTC): its datetime has [fold = 1] and denotes that
    instant, not the first pass an hour earlier. *)
Example second_pass_point_is_its_own_correction_start :
  get_and_convert_timestamp new_york_2024 (1730613600 * us_per_second)
  = mkDatetime (1730595600 * us_per_second) true
  /\ get_and_convert_timestamp new_york_2024 (1730610000 * us_per_second)
     = mkDatetime (1730595600 * us_per_second) false
  /\ correction_start_instant new_york_2024 (1730613600 * us_per_second)
       ((1730678400 + 8 * 3600) * us_per_second)
     = 1730613600 * us_per_second.
Proof. vm_compute. repeat split. Qed.

Lemma first_run_sums :
  (sum second_point == sum first_point + state second_point)%Q
  /\ (sum first_point <= sum second_point)%Q.
Proof.
  refine (proj2 (@merger_sums_recurrence new_york_2024 [] march_second_morning
                   march_first_data march_first_hourly march_first_hourly 0%Q
                   first_run_stats _ _ _ _) 0%nat _ _ eq_refl eq_refl).
  - vm_compute. reflexivity.
  - reflexivity.
  - vm_compute. reflexivity.
  - intros d [<-|[<-|[]]]; vm_compute; discriminate.
Defined.

Lemma second_run_emits_nothing :
  separated new_york_2024 = true
  /\ correction_window new_york_2024 after_first_run march_second_morning
       (hourly_table new_york_2024 march_first_data)
     = Ok ([], 10 # 1)
  /\ statistics_to_add new_york_2024 after_first_run march_second_morning
       march_first_data
     = Ok []
  /\ _insert_statistics new_york_2024 after_first_run march_second_morning
       march_first_data
     = Ok after_first_run
  /\ store_after after_first_run
       (statistics_to_add new_york_2024 after_first_run march_second_morning
          march_first_data)
     = after_first_run.
Proof.
  assert (Hsep : separated new_york_2024 = true) by reflexivity.
  assert (Hnewest : forall hourly b t,
             process_for_statistics new_york_2024 march_first_data = Ok hourly ->
             In b hourly -> timestamp b = Some t ->
             t <= 1709272800 * us_per_second).
  { intros hourly b t Hh Hb Ht. vm_compute in Hh. injection Hh as <-.
    destruct Hb as [<-|[<-|[]]]; injection Ht as <-; vm_compute; discriminate. }
  assert (Hrecent : wall (get_thirty_days_ago march_second_morning)
                    <= to_local new_york_2024 (1709272800 * us_per_second))
    by (vm_compute; discriminate).
  split; [exact Hsep|].
  exact (proj1 (@remerge_emits_nothing new_york_2024
                  [ mkStatisticsRow (1709269200 * us_per_second) (3 # 1) (3 # 1) ]
                  (mkStatisticsRow (1709272800 * us_per_second) (7 # 1) (10 # 1))
                  march_second_morning march_first_data Hsep Hnewest) Hrecent).
Defined.


(** ** More runs of the reshaper, the trimmer and DST resolution *)

Lemma two_day_sheet_has_one_reading_per_cell :
  List.length two_day_long
  = (List.length (value_columns AllOtherColumns two_day_sheet)
     * List.length (rows two_day_sheet))%nat.
Proof.
  refine (proj1 (@reshaper_one_reading_per_cell AllOtherColumns two_day_sheet
                   two_day_long _)).
  vm_compute. reflexivity.
Defined.

Lemma two_day_sheet_noon_reading_is_on_its_day :
  exists r,
    In r (rows two_day_sheet)
    /\ Date r * us_per_day <= 1704112200 * us_per_second < (Date r + 1) * us_per_day
    /\ (1704112200 * us_per_second - Date r * us_per_day) mod (60 * us_per_second) = 0.
Proof.
  refine (@reshaped_timestamp_on_its_day AllOtherColumns two_day_sheet two_day_long
            (mkLongRow (2 # 1) (Some (1704112200 * us_per_second)))
            (1704112200 * us_per_second) _ _ _).
  - vm_compute. reflexivity.
  - right. left. reflexivity.
  - reflexivity.
Defined.

Lemma trimmer_keeps_header_of_half_day_table :
  col_names (mkWideTable half_day_names [full_day])
  = col_names (mkWideTable half_day_names [full_day; morning_only_day]).
Proof.
  refine (proj1 (@trimmer_removes_at_most_latest_row
                   (mkWideTable half_day_names [full_day; morning_only_day])
                   (mkWideTable half_day_names [full_day]) _)).
  vm_compute. reflexivity.
Defined.

Lemma fixed_offset_shifts_three_readings :
  _handle_dst utc_minus_five three_readings
  = Ok (map (fun r => with_ts (option_map (fun n => n - initial_offset utc_minus_five)
                                 (timestamp r)) r)
          (filter not_null three_readings)).
Proof.
  refine (@handle_dst_fixed_offset_is_a_shift utc_minus_five three_readings _).
  reflexivity.
Defined.

(** ** More runs of the merger *)

Lemma march_run_extends_march_series :
  exists stats,
    statistics_to_add new_york_2024 ([] ++ [march_point]) march_second_morning
      march_first_data = Ok stats
    /\ (forall d, In d stats -> exists t, start d = Some t /\ row_start march_point < t)
    /\ running_from (row_sum march_point) stats
    /\ store_after ([] ++ [march_point]) (Ok stats)
       = ([] ++ [march_point]) ++ rows_of stats
    /\ series_ok (store_after ([] ++ [march_point]) (Ok stats))
    /\ _insert_statistics new_york_2024 ([] ++ [march_point]) march_second_morning
         march_first_data
       = Ok (([] ++ [march_point]) ++ rows_of stats).
Proof.
  refine (@run_extends_a_well_formed_series new_york_2024 [] march_point
            march_second_morning march_first_data _ _).
  - simpl. exact I.
  - vm_compute. reflexivity.
Defined.

Lemma january_series_fails_in_march :
  _insert_statistics new_york_2024 ([] ++ [january_point]) march_second_morning
    march_first_data = Raise KeyError
  <-> row_start january_point
      < correction_start_instant new_york_2024 (row_start january_point)
          march_second_morning.
Proof.
  refine (proj1 (@merger_fails_iff_last_point_precedes_correction_start
                   new_york_2024 [] january_point march_second_morning
                   march_first_data _)).
  intros r [].
Defined.

Lemma january_series_is_older_than_bound :
  _insert_statistics utc_minus_five ([] ++ [january_point]) march_second_morning
    march_first_data = Raise KeyError.
Proof.
  refine (proj2 (proj2 (proj2 (proj2 (proj2
            (@merger_fails_on_series_older_than_bound
               utc_minus_five [] january_point march_second_morning
               march_first_data _ _))))) _).
  - reflexivity.
  - intros r [].
  - vm_compute. reflexivity.
Defined.


(** ** The sensor attributes *)

Example march_first_daily_stats :
  DailyStats.from_dataframe new_york_2024 march_first_data
  = DailyStats.mk march_day_usage
      (mkPeakPower (Some (8 # 1)) (Instant (1709274600 * us_per_second)))
      (Some (20 # 4)) 4.
Proof. vm_compute. reflexivity. Qed.

Lemma march_first_is_the_latest_day :
  exists d,
    date (DailyStats.usage (DailyStats.from_dataframe new_york_2024 march_first_data))
    = Day d.
Proof.
  destruct (@daily_stats_describe_latest_day new_york_2024 march_first_data
              (mkReading (Some (1709269200 * us_per_second)) (2 # 1) (1 # 1))
              (1709269200 * us_per_second) (or_introl eq_refl) eq_refl)
    as (d & Hd & _).
  exists d. exact Hd.
Defined.

Example march_billing_run :
  BillingPeriodStats.from_dataframe new_york_2024 march_second_morning
    march_first_data (Some march_bill)
  = inr march_billing_stats.
Proof. vm_compute. reflexivity. Qed.

Lemma billing_fails_before_first_reading :
  BillingPeriodStats.from_dataframe new_york_2024 march_second_morning
    march_first_data (Some late_bill)
  = inl OutOfBoundsError.
Proof.
  refine (proj2 (proj1 (@billing_stats_fail_iff_period_is_empty new_york_2024
                          march_second_morning march_first_data late_bill
                          (1710028800 * us_per_second) _)) _).
  - reflexivity.
  - vm_compute. reflexivity.
Defined.

Lemma march_billing_total_is_period_energy :
  (BillingPeriodStats.total_energy_kwh march_billing_stats
   == total_energy
        (period_readings new_york_2024 march_bill (1708387200 * us_per_second)
           march_first_data))%Q.
Proof.
  refine (proj1 (@billing_stats_total_the_period new_york_2024 march_second_morning
                   march_first_data march_bill (1708387200 * us_per_second)
                   march_billing_stats _ _)).
  - reflexivity.
  - vm_compute. reflexivity.
Defined.

Lemma march_billing_peak_day_is_listed :
  In (BillingPeriodStats.peak_day march_billing_stats)
    (BillingPeriodStats.daily_usages march_billing_stats).
Proof.
  refine (proj1 (@billing_stats_peaks new_york_2024 march_second_morning
                   march_first_data march_bill (1708387200 * us_per_second)
                   march_billing_stats _ _)).
  - reflexivity.
  - vm_compute. reflexivity.
Defined.


(** ** Reading and one update *)

Example power_sheet_is_converted :
  Reader.with_columns sample_to_date power_sheet = inr two_day_sheet.
Proof. vm_compute. reflexivity. Qed.

Lemma power_sheet_gets_total_column :
  col_names two_day_sheet = Reader.set_name "Total" (Reader.raw_names power_sheet).
Proof.
  refine (proj1 (@reader_adds_date_and_total sample_to_date power_sheet
                   two_day_sheet _)).
  vm_compute. reflexivity.
Defined.

Lemma two_day_workbook_total_is_not_read :
  process_for_entities AllOtherColumns new_york_2024
    (mkRawUsageData two_day_sheet two_day_sheet)
  = process_for_entities AllOtherColumns new_york_2024
      (mkRawUsageData (dated sample_to_date power_sheet)
         (dated sample_to_date power_sheet)).
Proof.
  refine (@total_column_is_never_read AllOtherColumns new_york_2024 sample_to_date
            power_sheet power_sheet two_day_sheet two_day_sheet _ _ _ _ _ _).
  - vm_compute. reflexivity.
  - vm_compute. reflexivity.
  - intros r [<-|[<-|[]]]; reflexivity.
  - intros r [<-|[<-|[]]]; reflexivity.
  - exists "12:00 AM kW"%string. split; [left; reflexivity | reflexivity].
  - exists "12:00 AM kW"%string. split; [left; reflexivity | reflexivity].
Defined.

Example first_update_returns_the_readings :
  Update._async_update_data AllOtherColumns sample_to_date new_york_2024
    march_second_morning good_site two_day_workbook false fresh_coordinator empty_world
  = (Update.mkCoordinator (Some (update_timezone march_bill (Some new_york_2024)))
       (Some two_day_entities),
     Update.mkWorld []
       (rows_of (emitted (hourly_table new_york_2024 two_day_entities) 0)),
     inr two_day_entities).
Proof. vm_compute. reflexivity. Qed.

Lemma file_stays_without_bill_summary :
  In usage_file
    (Update.files
       (snd (fst (Update._async_update_data AllOtherColumns sample_to_date
                    new_york_2024 march_second_morning site_without_bill
                    two_day_workbook false fresh_coordinator empty_world)))).
Proof.
  refine (proj1 (proj2 (@update_removes_only_the_reported_file AllOtherColumns
                          sample_to_date
                          new_york_2024 march_second_morning site_without_bill
                          two_day_workbook fresh_coordinator empty_world usage_file
                          _ _)) _).
  - reflexivity.
  - reflexivity.
  - reflexivity.
Defined.


(** ** The entry of the user form *)

Lemma form_entry_cannot_be_read :
  DominionEnergyUpdateCoordinator.__init__ form_input = Raise KeyError.
Proof.
  refine (@created_entry_has_no_username form_input form_input _ _).
  - reflexivity.
  - reflexivity.
Defined.


(** ** The weekly analysis *)

Example eight_days_last_seven_or_first_seven :
  option_map WeeklyAnalysis.total_energy_kwh
    (match WeeklyAnalysis.from_dataframe as_found utc_minus_five eight_days with
     | inr s => Some s
     | inl _ => None
     end)
  = Some (35 # 1)
  /\ option_map WeeklyAnalysis.total_energy_kwh
       (match WeeklyAnalysis.from_dataframe reversed utc_minus_five eight_days with
        | inr s => Some s
        | inl _ => None
        end)
     = Some (28 # 1).
Proof. vm_compute. split; reflexivity. Qed.

Lemma weekly_analysis_fails_on_empty_frame :
  WeeklyAnalysis.from_dataframe as_found new_york_2024 [] = inl OutOfBoundsError.
Proof.
  refine (proj2 (proj1 (@weekly_analysis_lists_seven_groups as_found new_york_2024
                          [] _)) _).
  - intros l. apply Permutation_refl.
  - reflexivity.
Defined.

Lemma eight_days_lists_depend_on_order :
  exists s1 s2 first_day,
    WeeklyAnalysis.from_dataframe as_found utc_minus_five eight_days = inr s1
    /\ WeeklyAnalysis.from_dataframe reversed utc_minus_five eight_days = inr s2
    /\ hd_error (dates_of utc_minus_five eight_days) = Some first_day
    /\ ~ In (day_or_none first_day) (map date (WeeklyAnalysis.daily_totals s1))
    /\ In (day_or_none first_day) (map date (WeeklyAnalysis.daily_totals s2))
    /\ map date (WeeklyAnalysis.daily_totals s1)
       <> map date (WeeklyAnalysis.daily_totals s2).
Proof.
  refine (@weekly_days_depend_on_group_order utc_minus_five eight_days _).
  vm_compute. lia.
Defined.

Lemma march_first_week_is_one_day :
  exists s,
    WeeklyAnalysis.from_dataframe as_found new_york_2024 march_first_data = inr s
    /\ (WeeklyAnalysis.total_energy_kwh s == total_energy march_first_data)%Q.
Proof.
  destruct (@weekly_analysis_of_at_most_seven_days as_found new_york_2024
              march_first_data (fun l => Permutation_refl l))
    as (s & Hrun & Htotal & _).
  - discriminate.
  - vm_compute. lia.
  - exists s. split; assumption.
Defined.
